(** * Attendance and overtime rules of the presensi service

    A shallow embedding of the request handlers of the attendance tracker:
    - [Route]: the API handlers over the MySQL tables
      (app/api/attendance/route.ts, the overtime route, and the keys of
      database-schema.sql);
    - [DataStore]: the localStorage operations of lib/data-store.ts, the
      older twin of the routes, and its statistics roll-up.

    Conventions.
    - JavaScript numbers are [JS.num]: exact rationals plus [NaN]; the
      rounding of IEEE doubles is not modelled.
    - Strings are ASCII; [>] on strings is the code-unit lexicographic order.
    - The clock of a request is an input ([Clock]), and so is the session
      user ([currentUser], the result of [getCurrentUser()]).
    - A table is the list of its rows in insertion order; [queryOne] is the
      first matching row.  Columns keep the values written to them: the
      [HH:MM:SS] rendering of TIME and the rounding of DECIMAL are not
      modelled.  PRIMARY and UNIQUE keys are checked by the INSERTs. *)

From Stdlib Require Import String Ascii List ZArith QArith Qround.
From Stdlib Require Import Lia Lqa Bool Arith DecimalString.
From Stdlib Require DecimalPos.
Import ListNotations.

Local Open Scope string_scope.

(** ** JavaScript primitives used by the handlers *)
Module JS.

(** A JavaScript number: a rational, or NaN. *)
Inductive num : Type :=
| NaN
| Fin (q : Q).

Definition Qltb (a b : Q) : bool := negb (Qle_bool b a).

(** [a < b]; false as soon as one side is NaN. *)
Definition lt (a b : num) : bool :=
  match a, b with
  | Fin x, Fin y => Qltb x y
  | _, _ => false
  end.

Definition add (a b : num) : num :=
  match a, b with
  | Fin x, Fin y => Fin (x + y)
  | _, _ => NaN
  end.

Definition sub (a b : num) : num :=
  match a, b with
  | Fin x, Fin y => Fin (x - y)
  | _, _ => NaN
  end.

Definition mul (a b : num) : num :=
  match a, b with
  | Fin x, Fin y => Fin (x * y)
  | _, _ => NaN
  end.

(** [a / b].  The handlers only divide by the literal 60; a zero divisor
    (Infinity in JavaScript) is not a rational and is folded into NaN. *)
Definition div (a b : num) : num :=
  match a, b with
  | Fin x, Fin y => if Qeq_bool y 0 then NaN else Fin (x / y)
  | _, _ => NaN
  end.

(** [Math.max(0, a)]. *)
Definition max0 (a : num) : num :=
  match a with
  | Fin x => Fin (if Qltb x 0 then 0 else x)
  | NaN => NaN
  end.

Definition of_Z (z : Z) : num := Fin (inject_Z z).

(** Truthiness of a string ([!!s]) and of a nullable string. *)
Definition truthy (s : string) : bool :=
  match s with
  | EmptyString => false
  | String _ _ => true
  end.

Definition truthy_opt (o : option string) : bool :=
  match o with
  | Some s => truthy s
  | None => false
  end.

(** [s1 > s2] on strings: code-unit lexicographic order. *)
Definition gt (s1 s2 : string) : bool := String.ltb s2 s1.

(** [s.split(sep)] for a one-character separator. *)
Fixpoint split (sep : ascii) (s : string) : list string :=
  match s with
  | EmptyString => [EmptyString]
  | String c rest =>
      if Ascii.eqb c sep then EmptyString :: split sep rest
      else match split sep rest with
           | w :: ws => String c w :: ws
           | [] => [String c EmptyString]
           end
  end.

Definition digit (c : ascii) : option Z :=
  let n := nat_of_ascii c in
  if ((48 <=? n) && (n <=? 57))%nat then Some (Z.of_nat (n - 48)) else None.

(** Value of a string made of decimal digits only. *)
Fixpoint digits (acc : Z) (s : string) : option Z :=
  match s with
  | EmptyString => Some acc
  | String c rest =>
      match digit c with
      | Some d => digits (10 * acc + d) rest
      | None => None
      end
  end.

Definition signed (sign : Z) (s : string) : num :=
  match s with
  | EmptyString => NaN
  | _ => match digits 0 s with
         | Some v => of_Z (sign * v)
         | None => NaN
         end
  end.

(** [Number(s)] on the integer literals that occur in time strings: an
    optional sign followed by decimal digits; the empty string is 0.  Every
    other string is NaN (fractions, exponents and blanks do not occur in the
    TIME values and clock strings the handlers parse). *)
Definition Number (s : string) : num :=
  match s with
  | EmptyString => of_Z 0
  | String "-" rest => signed (-1) rest
  | String "+" rest => signed 1 rest
  | _ => signed 1 s
  end.

(** Longest prefix of decimal digits, with the rest. *)
Fixpoint digit_prefix (s : string) : string :=
  match s with
  | EmptyString => EmptyString
  | String c rest =>
      match digit c with
      | Some _ => String c (digit_prefix rest)
      | None => EmptyString
      end
  end.

(** [parseInt(s)]: an optional sign and the longest digit prefix; NaN when
    there is no digit.  [None] stands for [undefined]. *)
Definition parseInt (o : option string) : num :=
  match o with
  | None => NaN
  | Some (String "-" rest) => signed (-1) (digit_prefix rest)
  | Some (String "+" rest) => signed 1 (digit_prefix rest)
  | Some s => signed 1 (digit_prefix s)
  end.

(** Decimal rendering of an integer, as in a template literal. *)
Definition show (z : Z) : string := NilZero.string_of_int (Z.to_int z).

(** Two-digit field of [toTimeString()]. *)
Definition pad2 (n : nat) : string :=
  if (n <? 10)%nat then "0" ++ show (Z.of_nat n) else show (Z.of_nat n).

End JS.

(** ** The clock of a request

    [new Date()] is read once per request.  [today] is
    [now.toISOString().split('T')[0]], [hours] and [minutes] are the fields of
    [now.toTimeString()], [dayOfWeek] is [now.getDay()] and [millis] is
    [Date.now()]. *)
Record Clock : Type := {
  today : string;
  hours : nat;
  minutes : nat;
  dayOfWeek : Z;
  millis : Z
}.

(** The text [HH:MM] of a time of day. *)
Definition timeOfDay (h m : nat) : string := JS.pad2 h ++ ":" ++ JS.pad2 m.

(** [now.toTimeString().slice(0, 5)]. *)
Definition timeString (now : Clock) : string := timeOfDay (hours now) (minutes now).


(** The text of a TIME value at minute [h:m]: [HH:MM] as the handlers write
    it, or [HH:MM:SS] as the column renders it. *)
Inductive time_text (h m : nat) : string -> Prop :=
| time_hm : time_text h m (timeOfDay h m)
| time_hms s : (s < 60)%nat -> time_text h m (timeOfDay h m ++ ":" ++ JS.pad2 s).

Definition valid_clock (now : Clock) : Prop :=
  (hours now < 24)%nat /\ (minutes now < 60)%nat.

(** [t.split(':').map(Number)] followed by [t[0] * 60 + t[1]]; a missing
    component is [undefined] and makes the sum NaN. *)
Definition minutesOfDay (t : string) : JS.num :=
  match map JS.Number (JS.split ":" t) with
  | h :: m :: _ => JS.add (JS.mul h (JS.of_Z 60)) m
  | _ => JS.NaN
  end.

(** The same with [parseInt] on [t.split(':')[0]] and [t.split(':')[1]]. *)
Definition minutesOfDayInt (t : string) : JS.num :=
  let parts := JS.split ":" t in
  JS.add (JS.mul (JS.parseInt (nth_error parts 0)) (JS.of_Z 60))
         (JS.parseInt (nth_error parts 1)).

(** [(checkOutMinutes - checkInMinutes) / 60]. *)
Definition workHoursBetween (check_in_time timeStr : string) : JS.num :=
  JS.div (JS.sub (minutesOfDay timeStr) (minutesOfDay check_in_time)) (JS.of_Z 60).

(** ** Entities *)

Inductive Role : Type := employee | admin.

Inductive AttendanceStatus : Type := present | late | absent | holiday.

Inductive OvertimeStatus : Type := pending | approved | rejected.

Definition AttendanceStatus_eqb (a b : AttendanceStatus) : bool :=
  match a, b with
  | present, present | late, late | absent, absent | holiday, holiday => true
  | _, _ => false
  end.

Module User.
Record t : Type := mk { id : string; role : Role }.
End User.

(** [isAdmin()]: [user?.role === 'admin']. *)
Definition isAdmin (currentUser : option User.t) : bool :=
  match currentUser with
  | Some u => match User.role u with admin => true | employee => false end
  | None => false
  end.

Module Location.
Record t : Type := mk { latitude : Q; longitude : Q; address : string }.
End Location.

Module CheckEvent.
Record t : Type := mk { time : string; photo : string; location : Location.t }.
End CheckEvent.

(** Modelled from the spec: the record types of lib/types.ts, which is not
    among the sources.  The fields are those of section 3 of the
    specification, as the object literals of data-store.ts and the row
    mappers of the routes build them. *)
Module OvertimeRecord.
Record t : Type := mk {
  id : string;
  userId : string;
  date : string;
  startTime : string;
  endTime : option string;
  duration : Q;
  reason : string;
  status : OvertimeStatus;
  approvedBy : option string
}.
End OvertimeRecord.

Module AttendanceRecord.
Record t : Type := mk {
  id : string;
  userId : string;
  date : string;
  checkIn : option CheckEvent.t;
  checkOut : option CheckEvent.t;
  status : AttendanceStatus;
  workHours : Q;
  overtime : option OvertimeRecord.t
}.
End AttendanceRecord.

(** ** The API routes over the database *)
Module Route.

(** *** Rows of the tables (database-schema.sql) *)

Module WorkScheduleRow.
Record t : Type := mk {
  day_of_week : Z;
  start_time : string;
  end_time : string;
  min_work_hours : Q
}.
End WorkScheduleRow.

Module AttendanceRow.
Record t : Type := mk {
  id : string;
  user_id : string;
  date : string;
  check_in_time : option string;
  check_in_photo : option string;
  check_in_latitude : option Q;
  check_in_longitude : option Q;
  check_in_address : option string;
  check_out_time : option string;
  check_out_photo : option string;
  check_out_latitude : option Q;
  check_out_longitude : option Q;
  check_out_address : option string;
  status : AttendanceStatus;
  work_hours : Q
}.
End AttendanceRow.

Module OvertimeRow.
Record t : Type := mk {
  id : string;
  user_id : string;
  date : string;
  start_time : string;
  end_time : option string;
  duration : Q;
  reason : string;
  status : OvertimeStatus;
  approved_by : option string;
  approved_at : option Z
}.
End OvertimeRow.

Record DB : Type := {
  work_schedules : list WorkScheduleRow.t;
  attendance_records : list AttendanceRow.t;
  overtime_records : list OvertimeRow.t
}.

Definition with_attendance (db : DB) (rows : list AttendanceRow.t) : DB :=
  {| work_schedules := work_schedules db;
     attendance_records := rows;
     overtime_records := overtime_records db |}.

Definition with_overtime (db : DB) (rows : list OvertimeRow.t) : DB :=
  {| work_schedules := work_schedules db;
     attendance_records := attendance_records db;
     overtime_records := rows |}.

Definition with_schedules (db : DB) (rows : list WorkScheduleRow.t) : DB :=
  {| work_schedules := rows;
     attendance_records := attendance_records db;
     overtime_records := overtime_records db |}.

(** *** Responses *)

(** The error bodies of the routes, by kind.  The HTTP status is carried by
    [Failed]. *)
Inductive Failure : Type :=
| Unauthenticated        (* 'Tidak terautentikasi' *)
| ScheduleMissing        (* 'Jadwal kerja tidak ditemukan' *)
| AlreadyCheckedIn       (* 'Anda sudah melakukan check-in hari ini' *)
| NotCheckedIn           (* 'Anda belum melakukan check-in hari ini' *)
| AlreadyCheckedOut      (* 'Anda sudah melakukan check-out hari ini' *)
| MinimumHoursNotMet (minHours : Q) (timeRemaining : option string)
    (* 'Anda belum memenuhi jam kerja minimal (.. jam). Sisa waktu: ..' and
       'Anda harus memenuhi minimal .. jam kerja sebelum lembur' *)
| InvalidAction          (* 'Action tidak valid' *)
| ReasonRequired         (* 'Alasan lembur wajib diisi' *)
| CheckInRequired        (* 'Anda harus check-in terlebih dahulu' *)
| CheckOutRequired       (* 'Anda harus check-out terlebih dahulu' *)
| OvertimeAlreadyOpen    (* 'Anda sudah memiliki lembur yang sedang berjalan' *)
| NoOpenOvertime         (* 'Tidak ada lembur yang sedang berjalan' *)
| Forbidden              (* 'Akses ditolak' *)
| OvertimeIdRequired     (* 'ID lembur wajib diisi' *)
| RecordNotFound         (* 'Data lembur tidak ditemukan' *)
| InvalidDay             (* 'Hari tidak valid' *)
| NothingToUpdate        (* 'Tidak ada data yang diupdate' *)
| ServerError.           (* 'Terjadi kesalahan server' *)

Inductive Response (A : Type) : Type :=
| Success (code : nat) (record : A) (message : string)
| Failed (code : nat) (error : Failure).

Arguments Success {A} code record message.
Arguments Failed {A} code error.

(** *** Handlers: database state, early replies and exceptions *)

Inductive outcome (R A : Type) : Type :=
| Next (a : A)                 (* execution goes on *)
| Reply (r : Response R)       (* [return NextResponse.json(..)] *)
| Throw.                       (* an exception, caught by the route's [catch] *)

Arguments Next {R A} a.
Arguments Reply {R A} r.
Arguments Throw {R A}.

Definition Handler (R A : Type) : Type := DB -> DB * outcome R A.

Definition ret {R A} (a : A) : Handler R A := fun db => (db, Next a).

Definition bind {R A B} (h : Handler R A) (k : A -> Handler R B) : Handler R B :=
  fun db =>
    match h db with
    | (db', Next a) => k a db'
    | (db', Reply r) => (db', Reply r)
    | (db', Throw) => (db', Throw)
    end.

Definition reply {R A} (r : Response R) : Handler R A := fun db => (db, Reply r).

Definition throw {R A} : Handler R A := fun db => (db, Throw).

Notation "x <- h ;; k" := (bind h (fun x => k))
  (at level 61, h at next level, right associativity).
Notation "h ;;; k" := (bind h (fun _ => k))
  (at level 61, right associativity).

(** [try { .. } catch { return 500 }] around a handler body that ends in a
    reply. *)
Definition try_catch {R} (h : Handler R (Response R)) (db : DB) : DB * Response R :=
  match h db with
  | (db', Next r) => (db', r)
  | (db', Reply r) => (db', r)
  | (db', Throw) => (db', Failed 500 ServerError)
  end.

(** *** Statements on the tables *)

(** [SELECT * FROM work_schedules WHERE day_of_week = ?] through [queryOne]. *)
Definition select_schedule {R} (day : Z) : Handler R (option WorkScheduleRow.t) :=
  fun db =>
    (db, Next (find (fun s => Z.eqb (WorkScheduleRow.day_of_week s) day)
                    (work_schedules db))).

Definition attendance_of (user_id date : string) (a : AttendanceRow.t) : bool :=
  String.eqb (AttendanceRow.user_id a) user_id && String.eqb (AttendanceRow.date a) date.

(** [SELECT * FROM attendance_records WHERE user_id = ? AND date = ?]. *)
Definition select_attendance {R} (user_id date : string)
  : Handler R (option AttendanceRow.t) :=
  fun db => (db, Next (find (attendance_of user_id date) (attendance_records db))).

(** [SELECT * FROM attendance_records WHERE id = ?]. *)
Definition select_attendance_by_id {R} (id : string)
  : Handler R (option AttendanceRow.t) :=
  fun db =>
    (db, Next (find (fun a => String.eqb (AttendanceRow.id a) id)
                    (attendance_records db))).

Definition set_check_in (time photo : string) (loc : Location.t)
    (status : AttendanceStatus) (a : AttendanceRow.t) : AttendanceRow.t :=
  AttendanceRow.mk (AttendanceRow.id a) (AttendanceRow.user_id a) (AttendanceRow.date a)
    (Some time) (Some photo) (Some (Location.latitude loc))
    (Some (Location.longitude loc)) (Some (Location.address loc))
    (AttendanceRow.check_out_time a) (AttendanceRow.check_out_photo a)
    (AttendanceRow.check_out_latitude a) (AttendanceRow.check_out_longitude a)
    (AttendanceRow.check_out_address a)
    status (AttendanceRow.work_hours a).

Definition set_check_out (time photo : string) (loc : Location.t)
    (work_hours : Q) (a : AttendanceRow.t) : AttendanceRow.t :=
  AttendanceRow.mk (AttendanceRow.id a) (AttendanceRow.user_id a) (AttendanceRow.date a)
    (AttendanceRow.check_in_time a) (AttendanceRow.check_in_photo a)
    (AttendanceRow.check_in_latitude a) (AttendanceRow.check_in_longitude a)
    (AttendanceRow.check_in_address a)
    (Some time) (Some photo) (Some (Location.latitude loc))
    (Some (Location.longitude loc)) (Some (Location.address loc))
    (AttendanceRow.status a) work_hours.

(** [UPDATE attendance_records SET .. WHERE id = ?]. *)
Definition update_attendance {R} (id : string) (f : AttendanceRow.t -> AttendanceRow.t)
  : Handler R unit :=
  fun db =>
    (with_attendance db
       (map (fun a => if String.eqb (AttendanceRow.id a) id then f a else a)
            (attendance_records db)),
     Next tt).

(** [INSERT INTO attendance_records (id, user_id, date, check_in_.., status)]:
    the other columns take their defaults; the statement fails on a duplicate
    of the PRIMARY KEY [id] or of the UNIQUE KEY [(user_id, date)]. *)
Definition insert_attendance {R} (id user_id date time photo : string)
    (loc : Location.t) (status : AttendanceStatus) : Handler R unit :=
  fun db =>
    if existsb (fun a => String.eqb (AttendanceRow.id a) id
                         || attendance_of user_id date a)
               (attendance_records db)
    then (db, Throw)
    else
      (with_attendance db
         (attendance_records db ++
          [AttendanceRow.mk id user_id date
             (Some time) (Some photo) (Some (Location.latitude loc))
             (Some (Location.longitude loc)) (Some (Location.address loc))
             None None None None None status 0]),
       Next tt).

Definition open_overtime_of (user_id date : string) (o : OvertimeRow.t) : bool :=
  String.eqb (OvertimeRow.user_id o) user_id && String.eqb (OvertimeRow.date o) date
  && match OvertimeRow.end_time o with None => true | Some _ => false end.

(** [SELECT * FROM overtime_records WHERE user_id = ? AND date = ? AND
    end_time IS NULL]. *)
Definition select_open_overtime {R} (user_id date : string)
  : Handler R (option OvertimeRow.t) :=
  fun db => (db, Next (find (open_overtime_of user_id date) (overtime_records db))).

(** [SELECT * FROM overtime_records WHERE id = ?]. *)
Definition select_overtime_by_id {R} (id : string) : Handler R (option OvertimeRow.t) :=
  fun db =>
    (db, Next (find (fun o => String.eqb (OvertimeRow.id o) id) (overtime_records db))).

(** [INSERT INTO overtime_records (id, user_id, date, start_time, reason,
    status) VALUES (.., 'pending')]; fails on a duplicate PRIMARY KEY. *)
Definition insert_overtime {R} (id user_id date start_time reason : string)
  : Handler R unit :=
  fun db =>
    if existsb (fun o => String.eqb (OvertimeRow.id o) id) (overtime_records db)
    then (db, Throw)
    else
      (with_overtime db
         (overtime_records db ++
          [OvertimeRow.mk id user_id date start_time None 0 reason pending None None]),
       Next tt).

Definition set_end (time : string) (duration : Q) (o : OvertimeRow.t) : OvertimeRow.t :=
  OvertimeRow.mk (OvertimeRow.id o) (OvertimeRow.user_id o) (OvertimeRow.date o)
    (OvertimeRow.start_time o) (Some time) duration (OvertimeRow.reason o)
    (OvertimeRow.status o) (OvertimeRow.approved_by o) (OvertimeRow.approved_at o).

Definition set_decision (status : OvertimeStatus) (admin_id : string) (at_ : Z)
    (o : OvertimeRow.t) : OvertimeRow.t :=
  OvertimeRow.mk (OvertimeRow.id o) (OvertimeRow.user_id o) (OvertimeRow.date o)
    (OvertimeRow.start_time o) (OvertimeRow.end_time o) (OvertimeRow.duration o)
    (OvertimeRow.reason o) status (Some admin_id) (Some at_).

(** [UPDATE overtime_records SET .. WHERE id = ?]. *)
Definition update_overtime {R} (id : string) (f : OvertimeRow.t -> OvertimeRow.t)
  : Handler R unit :=
  fun db =>
    (with_overtime db
       (map (fun o => if String.eqb (OvertimeRow.id o) id then f o else o)
            (overtime_records db)),
     Next tt).

(** A number bound to a DECIMAL column: NaN is not a value of the column and
    makes the statement fail. *)
Definition decimal {R} (x : JS.num) : Handler R Q :=
  match x with
  | JS.Fin q => ret q
  | JS.NaN => throw
  end.

(** *** app/api/attendance/route.ts *)
Module Attendance.

Module Body.
Record t : Type := mk { action : string; photo : string; location : Location.t }.
End Body.

(** [s || ''] and [x || 0] on nullable columns. *)
Definition or_empty (o : option string) : string :=
  match o with Some s => s | None => "" end.

Definition or_zero (o : option Q) : Q :=
  match o with Some q => q | None => 0 end.

Definition mapRowToAttendanceRecord (row : AttendanceRow.t) : AttendanceRecord.t :=
  AttendanceRecord.mk
    (AttendanceRow.id row)
    (AttendanceRow.user_id row)
    (AttendanceRow.date row)
    (if JS.truthy_opt (AttendanceRow.check_in_time row)
     then Some (CheckEvent.mk
                  (or_empty (AttendanceRow.check_in_time row))
                  (or_empty (AttendanceRow.check_in_photo row))
                  (Location.mk (or_zero (AttendanceRow.check_in_latitude row))
                               (or_zero (AttendanceRow.check_in_longitude row))
                               (or_empty (AttendanceRow.check_in_address row))))
     else None)
    (if JS.truthy_opt (AttendanceRow.check_out_time row)
     then Some (CheckEvent.mk
                  (or_empty (AttendanceRow.check_out_time row))
                  (or_empty (AttendanceRow.check_out_photo row))
                  (Location.mk (or_zero (AttendanceRow.check_out_latitude row))
                               (or_zero (AttendanceRow.check_out_longitude row))
                               (or_empty (AttendanceRow.check_out_address row))))
     else None)
    (AttendanceRow.status row)
    (AttendanceRow.work_hours row)
    None.

(** [isLate = timeString > schedule.start_time]. *)
Definition isLate (timeStr start_time : string) : bool := JS.gt timeStr start_time.

Definition statusOf (late_ : bool) : AttendanceStatus :=
  if late_ then late else present.

(** [remainingMinutes = Math.ceil((min - workHours) * 60)]. *)
Definition remainingMinutes (min_work_hours workHours : Q) : Z :=
  Qceiling ((min_work_hours - workHours) * 60).

(** [hours = Math.floor(remainingMinutes / 60)], [minutes = remainingMinutes % 60]. *)
Definition remaining (min_work_hours workHours : Q) : Z * Z :=
  let m := remainingMinutes min_work_hours workHours in
  ((m / 60)%Z, Z.rem m 60).

(** [hours > 0 ? `${hours} jam ${minutes} menit` : `${minutes} menit`]. *)
Definition timeRemaining (min_work_hours workHours : Q) : string :=
  let '(hours, minutes) := remaining min_work_hours workHours in
  if (0 <? hours)%Z
  then JS.show hours ++ " jam " ++ JS.show minutes ++ " menit"
  else JS.show minutes ++ " menit".

(** The reply of both actions: the row is read back and mapped;
    [mapRowToAttendanceRecord(updatedRecord!)] throws on [null]. *)
Definition reply_record (updated : option AttendanceRow.t) (message : string)
  : Handler AttendanceRecord.t (Response AttendanceRecord.t) :=
  match updated with
  | Some row => ret (Success 200 (mapRowToAttendanceRecord row) message)
  | None => throw
  end.

Definition check_in (now : Clock) (user : User.t) (body : Body.t)
    (schedule : WorkScheduleRow.t)
  : Handler AttendanceRecord.t (Response AttendanceRecord.t) :=
  existing <- select_attendance (User.id user) (today now) ;;
  if JS.truthy_opt (match existing with
                    | Some e => AttendanceRow.check_in_time e
                    | None => None
                    end)
  then reply (Failed 400 AlreadyCheckedIn)
  else
    let late_ := isLate (timeString now) (WorkScheduleRow.start_time schedule) in
    let status := statusOf late_ in
    let recordId := "att-" ++ JS.show (millis now) in
    (match existing with
     | Some e =>
         update_attendance (AttendanceRow.id e)
           (set_check_in (timeString now) (Body.photo body) (Body.location body) status)
     | None =>
         insert_attendance recordId (User.id user) (today now) (timeString now)
           (Body.photo body) (Body.location body) status
     end) ;;;
    updatedRecord <- select_attendance (User.id user) (today now) ;;
    reply_record updatedRecord
      (if late_ then "Check-in berhasil (Terlambat)" else "Check-in berhasil").

Definition check_out (now : Clock) (user : User.t) (body : Body.t)
    (schedule : WorkScheduleRow.t)
  : Handler AttendanceRecord.t (Response AttendanceRecord.t) :=
  existing <- select_attendance (User.id user) (today now) ;;
  match existing with
  | None => reply (Failed 400 NotCheckedIn)
  | Some e =>
      match AttendanceRow.check_in_time e with
      | None => reply (Failed 400 NotCheckedIn)
      | Some check_in_time =>
          if negb (JS.truthy check_in_time) then reply (Failed 400 NotCheckedIn)
          else if JS.truthy_opt (AttendanceRow.check_out_time e)
          then reply (Failed 400 AlreadyCheckedOut)
          else
            let workHours := workHoursBetween check_in_time (timeString now) in
            let min_work_hours := WorkScheduleRow.min_work_hours schedule in
            if JS.lt workHours (JS.Fin min_work_hours)
            then
              reply (Failed 400
                       (MinimumHoursNotMet min_work_hours
                          (match workHours with
                           | JS.Fin w => Some (timeRemaining min_work_hours w)
                           | JS.NaN => None
                           end)))
            else
              work_hours <- decimal (JS.max0 workHours) ;;
              update_attendance (AttendanceRow.id e)
                (set_check_out (timeString now) (Body.photo body) (Body.location body)
                               work_hours) ;;;
              updatedRecord <- select_attendance_by_id (AttendanceRow.id e) ;;
              reply_record updatedRecord "Check-out berhasil"
      end
  end.

Definition POST (now : Clock) (currentUser : option User.t) (body : Body.t)
  : DB -> DB * Response AttendanceRecord.t :=
  try_catch
    (match currentUser with
     | None => reply (Failed 401 Unauthenticated)
     | Some user =>
         schedule <- select_schedule (dayOfWeek now) ;;
         match schedule with
         | None => reply (Failed 400 ScheduleMissing)
         | Some schedule =>
             if String.eqb (Body.action body) "check-in"
             then check_in now user body schedule
             else if String.eqb (Body.action body) "check-out"
             then check_out now user body schedule
             else reply (Failed 400 InvalidAction)
         end
     end).

End Attendance.

(** *** The overtime route (POST start, PUT end / approve / reject) *)
Module Overtime.

Definition mapRowToOvertimeRecord (row : OvertimeRow.t) : OvertimeRecord.t :=
  OvertimeRecord.mk
    (OvertimeRow.id row) (OvertimeRow.user_id row) (OvertimeRow.date row)
    (OvertimeRow.start_time row) (OvertimeRow.end_time row) (OvertimeRow.duration row)
    (OvertimeRow.reason row) (OvertimeRow.status row) (OvertimeRow.approved_by row).

(** [schedule?.min_work_hours || 8]: the right operand is taken when the left
    one is [undefined] or falsy, and the number 0 is falsy. *)
Definition minimumHours (schedule : option WorkScheduleRow.t) : Q :=
  match schedule with
  | Some s =>
      if Qeq_bool (WorkScheduleRow.min_work_hours s) 0 then 8
      else WorkScheduleRow.min_work_hours s
  | None => 8
  end.

Definition reply_record (code : nat) (row : option OvertimeRow.t) (message : string)
  : Handler OvertimeRecord.t (Response OvertimeRecord.t) :=
  match row with
  | Some r => ret (Success code (mapRowToOvertimeRecord r) message)
  | None => throw
  end.

Definition POST (now : Clock) (currentUser : option User.t) (reason : string)
  : DB -> DB * Response OvertimeRecord.t :=
  try_catch
    (match currentUser with
     | None => reply (Failed 401 Unauthenticated)
     | Some user =>
         if negb (JS.truthy reason) then reply (Failed 400 ReasonRequired)
         else
           attendance <- select_attendance (User.id user) (today now) ;;
           match attendance with
           | None => reply (Failed 400 CheckInRequired)
           | Some attendance =>
               if negb (JS.truthy_opt (AttendanceRow.check_in_time attendance))
               then reply (Failed 400 CheckInRequired)
               else if negb (JS.truthy_opt (AttendanceRow.check_out_time attendance))
               then reply (Failed 400 CheckOutRequired)
               else
                 schedule <- select_schedule (dayOfWeek now) ;;
                 if JS.Qltb (AttendanceRow.work_hours attendance) (minimumHours schedule)
                 then reply (Failed 400 (MinimumHoursNotMet (minimumHours schedule) None))
                 else
                   existingOvertime <- select_open_overtime (User.id user) (today now) ;;
                   match existingOvertime with
                   | Some _ => reply (Failed 400 OvertimeAlreadyOpen)
                   | None =>
                       let overtimeId := "ot-" ++ JS.show (millis now) in
                       insert_overtime overtimeId (User.id user) (today now)
                                       (timeString now) reason ;;;
                       newRecord <- select_overtime_by_id overtimeId ;;
                       reply_record 201 newRecord "Lembur dimulai"
                   end
           end
     end).

Module Body.
Record t : Type := mk { action : string; overtimeId : string }.
End Body.

Definition end_overtime (now : Clock) (user : User.t)
  : Handler OvertimeRecord.t (Response OvertimeRecord.t) :=
  overtime <- select_open_overtime (User.id user) (today now) ;;
  match overtime with
  | None => reply (Failed 400 NoOpenOvertime)
  | Some overtime =>
      let startMinutes := minutesOfDayInt (OvertimeRow.start_time overtime) in
      let endMinutes := minutesOfDayInt (timeString now) in
      duration <- decimal (JS.max0 (JS.div (JS.sub endMinutes startMinutes) (JS.of_Z 60))) ;;
      update_overtime (OvertimeRow.id overtime) (set_end (timeString now) duration) ;;;
      updatedRecord <- select_overtime_by_id (OvertimeRow.id overtime) ;;
      reply_record 200 updatedRecord "Lembur selesai"
  end.

Definition decide (now : Clock) (user : User.t) (body : Body.t)
  : Handler OvertimeRecord.t (Response OvertimeRecord.t) :=
  if negb (isAdmin (Some user)) then reply (Failed 403 Forbidden)
  else if negb (JS.truthy (Body.overtimeId body)) then reply (Failed 400 OvertimeIdRequired)
  else
    let status := if String.eqb (Body.action body) "approve" then approved else rejected in
    update_overtime (Body.overtimeId body) (set_decision status (User.id user) (millis now)) ;;;
    updatedRecord <- select_overtime_by_id (Body.overtimeId body) ;;
    match updatedRecord with
    | None => reply (Failed 404 RecordNotFound)
    | Some row =>
        ret (Success 200 (mapRowToOvertimeRecord row)
               (match status with
                | approved => "Lembur disetujui"
                | _ => "Lembur ditolak"
                end))
    end.

Definition PUT (now : Clock) (currentUser : option User.t) (body : Body.t)
  : DB -> DB * Response OvertimeRecord.t :=
  try_catch
    (match currentUser with
     | None => reply (Failed 401 Unauthenticated)
     | Some user =>
         if String.eqb (Body.action body) "end" then end_overtime now user
         else if String.eqb (Body.action body) "approve"
                 || String.eqb (Body.action body) "reject"
         then decide now user body
         else reply (Failed 400 InvalidAction)
     end).

End Overtime.

(** *** One request of the service *)
Inductive step : DB -> DB -> Prop :=
| step_attendance now currentUser body db :
    step db (fst (Attendance.POST now currentUser body db))
| step_overtime_start now currentUser reason db :
    step db (fst (Overtime.POST now currentUser reason db))
| step_overtime_put now currentUser body db :
    step db (fst (Overtime.PUT now currentUser body db)).

Inductive reachable (db0 : DB) : DB -> Prop :=
| reach_init : reachable db0 db0
| reach_step db db' : reachable db0 db -> step db db' -> reachable db0 db'.

(** At most one attendance row per (user_id, date). *)
Definition unique_user_date (db : DB) : Prop :=
  NoDup (map (fun a => (AttendanceRow.user_id a, AttendanceRow.date a))
             (attendance_records db)).

(** At most one overtime row without end time per (user_id, date). *)
Definition one_open_overtime (db : DB) : Prop :=
  forall user_id date,
    (length (filter (open_overtime_of user_id date) (overtime_records db)) <= 1)%nat.

(** An UPDATE of attendance rows that keeps the keys and a set check-in. *)
Definition keeps_row (f : AttendanceRow.t -> AttendanceRow.t) : Prop :=
  forall a,
    AttendanceRow.id (f a) = AttendanceRow.id a /\
    AttendanceRow.user_id (f a) = AttendanceRow.user_id a /\
    AttendanceRow.date (f a) = AttendanceRow.date a /\
    (JS.truthy_opt (AttendanceRow.check_in_time a) = true ->
     JS.truthy_opt (AttendanceRow.check_in_time (f a)) = true).

(** The employee has a check-in on record for that date. *)
Definition checked_in (user_id date : string) (db : DB) : Prop :=
  exists row,
    find (attendance_of user_id date) (attendance_records db) = Some row /\
    JS.truthy_opt (AttendanceRow.check_in_time row) = true.

End Route.

(** ** lib/data-store.ts *)
Module DataStore.

(** The instant [now] of [getAttendanceStats]: [now.getMonth()] (zero-based)
    and [now.getFullYear()]. *)
Module Now.
Record t : Type := mk { getMonth : Z; getFullYear : Z }.
End Now.

(** The calendar fields of [new Date(date)] for a date-only ISO string
    [YYYY-MM-DD], as written by [toISOString().split("T")[0]]: such a string
    denotes midnight UTC, which falls on the same calendar day in the
    deployment's zone (+07:00).  Any other string is an Invalid Date here. *)
Definition parseDate (date : string) : option (Z * Z * Z) :=
  match JS.split "-" date with
  | [y; m; d] =>
      if ((String.length y =? 4) && (String.length m =? 2) && (String.length d =? 2))%nat
      then
        match JS.digits 0 y, JS.digits 0 m, JS.digits 0 d with
        | Some yv, Some mv, Some dv =>
            if ((1 <=? mv) && (mv <=? 12) && (1 <=? dv) && (dv <=? 31))%Z
            then Some (yv, mv, dv)
            else None
        | _, _, _ => None
        end
      else None
  | _ => None
  end.

(** [date.getMonth()], zero-based; [None] is NaN. *)
Definition getMonth (date : string) : option Z :=
  match parseDate date with
  | Some (_, m, _) => Some (m - 1)%Z
  | None => None
  end.

Definition getFullYear (date : string) : option Z :=
  match parseDate date with
  | Some (y, _, _) => Some y
  | None => None
  end.

(** [x === target] where [x] may be NaN. *)
Definition strict_eq (x : option Z) (target : Z) : bool :=
  match x with
  | Some v => Z.eqb v target
  | None => false
  end.

Module Stats.
Record t : Type := mk {
  present : nat;
  late : nat;
  absent : nat;
  totalWorkHours : Q;
  total : nat
}.
End Stats.

Definition hasStatus (s : AttendanceStatus) (a : AttendanceRecord.t) : bool :=
  AttendanceStatus_eqb (AttendanceRecord.status a) s.

(** The two [filter] calls on [records]: by user when [userId] is truthy, then
    by month and year. *)
Definition inMonth (targetMonth targetYear : Z) (a : AttendanceRecord.t) : bool :=
  strict_eq (getMonth (AttendanceRecord.date a)) targetMonth
  && strict_eq (getFullYear (AttendanceRecord.date a)) targetYear.

Definition selected (now : Now.t) (userId : option string) (month year : option Z)
    (records : list AttendanceRecord.t) : list AttendanceRecord.t :=
  let targetMonth := match month with Some m => m | None => Now.getMonth now end in
  let targetYear := match year with Some y => y | None => Now.getFullYear now end in
  let records :=
    match userId with
    | Some u =>
        if JS.truthy u
        then filter (fun a => String.eqb (AttendanceRecord.userId a) u) records
        else records
    | None => records
    end in
  filter (inMonth targetMonth targetYear) records.

Definition getAttendanceStats (now : Now.t) (records : list AttendanceRecord.t)
    (userId : option string) (month year : option Z) : Stats.t :=
  let records := selected now userId month year records in
  let present_ := length (filter (hasStatus present) records) in
  let late_ := length (filter (hasStatus late) records) in
  let absent_ := length (filter (hasStatus absent) records) in
  let totalWorkHours := fold_left (fun sum a => sum + AttendanceRecord.workHours a) records 0 in
  Stats.mk present_ late_ absent_ totalWorkHours (length records).

(** *** The operations of data-store.ts over localStorage

    The arrays read from localStorage; an object found in an array is the
    array's own element, so a field assignment on it is an assignment in the
    array. *)

(** Modelled from the spec: [WorkSchedule] of lib/types.ts, which is not among
    the sources; the fields are those read by data-store.ts and written by the
    schedule mapper of the routes. *)
Module WorkSchedule.
Record t : Type := mk {
  dayOfWeek : Z;
  startTime : string;
  endTime : string;
  minWorkHours : Q
}.
End WorkSchedule.

Record Storage : Type := {
  attendance : list AttendanceRecord.t;        (* presensi_attendance *)
  overtime : list OvertimeRecord.t;            (* presensi_overtime *)
  workSchedules : list WorkSchedule.t          (* getWorkSchedules() *)
}.

(** The result of an operation: the record, [{ error }] (by kind, with the
    kinds of the routes, whose texts are the same), or a TypeError thrown on
    a property of [undefined]. *)
Inductive Result (A : Type) : Type :=
| Value (a : A)
| Error (error : Route.Failure)
| TypeError.

Arguments Value {A} a.
Arguments Error {A} error.
Arguments TypeError {A}.

(** [records.findIndex(p)]; [None] is -1. *)
Fixpoint findIndex {A : Type} (p : A -> bool) (l : list A) : option nat :=
  match l with
  | [] => None
  | x :: rest => if p x then Some 0%nat else option_map S (findIndex p rest)
  end.

(** [records[i] = x] for an index inside the array. *)
Fixpoint assign {A : Type} (i : nat) (x : A) (l : list A) : list A :=
  match l, i with
  | [], _ => []
  | _ :: rest, O => x :: rest
  | y :: rest, S j => y :: assign j x rest
  end.

(** [records[records.findIndex(p)] = x]; at index -1 no element changes. *)
Definition assign_found {A : Type} (p : A -> bool) (x : A) (l : list A) : list A :=
  match findIndex p l with
  | Some i => assign i x l
  | None => l
  end.

(** The number kept under a numeric field: [JSON.stringify] writes NaN as
    [null], which the comparisons and sums of this file read back as 0. *)
Definition stored (x : JS.num) : Q :=
  match x with
  | JS.Fin q => q
  | JS.NaN => 0
  end.

Definition ofUser (userId date : string) (a : AttendanceRecord.t) : bool :=
  String.eqb (AttendanceRecord.userId a) userId && String.eqb (AttendanceRecord.date a) date.

Definition hasId (id : string) (a : AttendanceRecord.t) : bool :=
  String.eqb (AttendanceRecord.id a) id.

Definition with_checkIn (e : CheckEvent.t) (status : AttendanceStatus)
    (a : AttendanceRecord.t) : AttendanceRecord.t :=
  AttendanceRecord.mk (AttendanceRecord.id a) (AttendanceRecord.userId a)
    (AttendanceRecord.date a) (Some e) (AttendanceRecord.checkOut a) status
    (AttendanceRecord.workHours a) (AttendanceRecord.overtime a).

Definition with_checkOut (e : CheckEvent.t) (workHours : Q)
    (a : AttendanceRecord.t) : AttendanceRecord.t :=
  AttendanceRecord.mk (AttendanceRecord.id a) (AttendanceRecord.userId a)
    (AttendanceRecord.date a) (AttendanceRecord.checkIn a) (Some e)
    (AttendanceRecord.status a) workHours (AttendanceRecord.overtime a).

Definition set_attendance (st : Storage) (records : list AttendanceRecord.t) : Storage :=
  {| attendance := records; overtime := overtime st; workSchedules := workSchedules st |}.

Definition set_overtime (st : Storage) (records : list OvertimeRecord.t) : Storage :=
  {| attendance := attendance st; overtime := records; workSchedules := workSchedules st |}.

(** [schedules[dayOfWeek]]. *)
Definition scheduleOf (st : Storage) (now : Clock) : option WorkSchedule.t :=
  if (dayOfWeek now <? 0)%Z then None
  else nth_error (workSchedules st) (Z.to_nat (dayOfWeek now)).

Definition checkIn (now : Clock) (userId photo : string) (location : Location.t)
    (st : Storage) : Storage * Result AttendanceRecord.t :=
  let records := attendance st in
  let existing := find (ofUser userId (today now)) records in
  match existing with
  | Some (AttendanceRecord.mk _ _ _ (Some _) _ _ _ _) => (st, Error Route.AlreadyCheckedIn)
  | _ =>
      match scheduleOf st now with
      | None => (st, TypeError)
      | Some schedule =>
          let isLate := JS.gt (timeString now) (WorkSchedule.startTime schedule) in
          let event := CheckEvent.mk (timeString now) photo location in
          let status := if isLate then late else present in
          match existing with
          | Some e =>
              let record := with_checkIn event status e in
              let records := assign_found (ofUser userId (today now)) record records in
              let records := assign_found (hasId (AttendanceRecord.id e)) record records in
              (set_attendance st records, Value record)
          | None =>
              let record :=
                AttendanceRecord.mk ("att-" ++ JS.show (millis now)) userId (today now)
                  (Some event) None status 0 None in
              (set_attendance st (records ++ [record]), Value record)
          end
      end
  end.

Definition checkOut (now : Clock) (userId photo : string) (location : Location.t)
    (st : Storage) : Storage * Result AttendanceRecord.t :=
  let records := attendance st in
  match find (ofUser userId (today now)) records with
  | None => (st, Error Route.NotCheckedIn)
  | Some existing =>
      match AttendanceRecord.checkIn existing with
      | None => (st, Error Route.NotCheckedIn)
      | Some checkInEvent =>
          match AttendanceRecord.checkOut existing with
          | Some _ => (st, Error Route.AlreadyCheckedOut)
          | None =>
              let workHours :=
                workHoursBetween (CheckEvent.time checkInEvent) (timeString now) in
              match scheduleOf st now with
              | None => (st, TypeError)
              | Some schedule =>
                  let minWorkHours := WorkSchedule.minWorkHours schedule in
                  if JS.lt workHours (JS.Fin minWorkHours)
                  then
                    (st, Error (Route.MinimumHoursNotMet minWorkHours
                                  (match workHours with
                                   | JS.Fin w =>
                                       Some (Route.Attendance.timeRemaining minWorkHours w)
                                   | JS.NaN => None
                                   end)))
                  else
                    let event := CheckEvent.mk (timeString now) photo location in
                    let record := with_checkOut event (stored (JS.max0 workHours)) existing in
                    let records := assign_found (ofUser userId (today now)) record records in
                    let records :=
                      assign_found (hasId (AttendanceRecord.id existing)) record records in
                    (set_attendance st records, Value record)
              end
          end
      end
  end.

(** [o.userId === userId && o.date === today && !o.endTime]. *)
Definition openOf (userId date : string) (o : OvertimeRecord.t) : bool :=
  String.eqb (OvertimeRecord.userId o) userId && String.eqb (OvertimeRecord.date o) date
  && negb (JS.truthy_opt (OvertimeRecord.endTime o)).

Definition startOvertime (now : Clock) (userId reason : string) (st : Storage)
  : Storage * Result OvertimeRecord.t :=
  match find (ofUser userId (today now)) (attendance st) with
  | None => (st, Error Route.CheckInRequired)
  | Some attendanceToday =>
      match AttendanceRecord.checkIn attendanceToday,
            AttendanceRecord.checkOut attendanceToday with
      | None, _ => (st, Error Route.CheckInRequired)
      | Some _, None => (st, Error Route.CheckOutRequired)
      | Some _, Some _ =>
          match scheduleOf st now with
          | None => (st, TypeError)
          | Some schedule =>
              if JS.Qltb (AttendanceRecord.workHours attendanceToday)
                         (WorkSchedule.minWorkHours schedule)
              then (st, Error (Route.MinimumHoursNotMet
                                 (WorkSchedule.minWorkHours schedule) None))
              else
                match find (openOf userId (today now)) (overtime st) with
                | Some _ => (st, Error Route.OvertimeAlreadyOpen)
                | None =>
                    let record :=
                      OvertimeRecord.mk ("ot-" ++ JS.show (millis now)) userId (today now)
                        (timeString now) None 0 reason pending None in
                    (set_overtime st (overtime st ++ [record]), Value record)
                end
          end
      end
  end.

Definition endOvertime (now : Clock) (userId : string) (st : Storage)
  : Storage * Result OvertimeRecord.t :=
  match find (openOf userId (today now)) (overtime st) with
  | None => (st, Error Route.NoOpenOvertime)
  | Some o =>
      let endTime := timeString now in
      let startMinutes := minutesOfDayInt (OvertimeRecord.startTime o) in
      let endMinutes := minutesOfDayInt endTime in
      let duration := JS.div (JS.sub endMinutes startMinutes) (JS.of_Z 60) in
      let record :=
        OvertimeRecord.mk (OvertimeRecord.id o) (OvertimeRecord.userId o)
          (OvertimeRecord.date o) (OvertimeRecord.startTime o) (Some endTime)
          (stored (JS.max0 duration)) (OvertimeRecord.reason o)
          (OvertimeRecord.status o) (OvertimeRecord.approvedBy o) in
      let records := assign_found (openOf userId (today now)) record (overtime st) in
      let records :=
        assign_found (fun r => String.eqb (OvertimeRecord.id r) (OvertimeRecord.id o))
                     record records in
      (set_overtime st records, Value record)
  end.

Definition approveOvertime (overtimeId adminId : string) (approved_ : bool)
    (st : Storage) : Storage * Result OvertimeRecord.t :=
  let byId := fun o => String.eqb (OvertimeRecord.id o) overtimeId in
  match find byId (overtime st) with
  | None => (st, Error Route.RecordNotFound)
  | Some o =>
      let record :=
        OvertimeRecord.mk (OvertimeRecord.id o) (OvertimeRecord.userId o)
          (OvertimeRecord.date o) (OvertimeRecord.startTime o) (OvertimeRecord.endTime o)
          (OvertimeRecord.duration o) (OvertimeRecord.reason o)
          (if approved_ then approved else rejected) (Some adminId) in
      (set_overtime st (assign_found byId record (overtime st)), Value record)
  end.

End DataStore.

(** ** The scenario of the specification

    Monday 2026-01-05, schedule 08:00-16:00 with a minimum of 8 hours;
    employee emp-001. *)
Module Scenario.

Import Route.

Definition monday : WorkScheduleRow.t := WorkScheduleRow.mk 1 "08:00:00" "16:00:00" 8.

Definition db0 : DB :=
  {| work_schedules := [monday]; attendance_records := []; overtime_records := [] |}.

Definition budi : User.t := User.mk "emp-001" employee.

Definition hr : User.t := User.mk "admin-001" admin.

(** The clock at [h:m] on that Monday; [millis] counts minutes here. *)
Definition at_ (h m : nat) : Clock :=
  {| today := "2026-01-05"; hours := h; minutes := m; dayOfWeek := 1;
     millis := Z.of_nat (60 * h + m) |}.

Definition office : Location.t := Location.mk (-6 # 1) (106 # 1) "Jakarta".

Definition checkInBody : Attendance.Body.t := Attendance.Body.mk "check-in" "in.jpg" office.

Definition checkOutBody : Attendance.Body.t := Attendance.Body.mk "check-out" "out.jpg" office.

(** The database after the check-in at 08:00. *)
Definition db_in : DB := fst (Attendance.POST (at_ 8 0) (Some budi) checkInBody db0).

(** The database after the check-out at 16:00. *)
Definition db_out : DB := fst (Attendance.POST (at_ 16 0) (Some budi) checkOutBody db_in).

(** Overtime started at 16:05, then approved by the administrator at 17:00. *)
Definition db_overtime : DB :=
  fst (Overtime.POST (at_ 16 5) (Some budi) "stock opname" db_out).

Definition approveBody : Overtime.Body.t := Overtime.Body.mk "approve" "ot-965".

Definition rejectBody : Overtime.Body.t := Overtime.Body.mk "reject" "ot-965".

Definition db_approved : DB := fst (Overtime.PUT (at_ 17 0) (Some hr) approveBody db_overtime).




End Scenario.

(** ** Reference notions for the statistics *)

Definition AttendanceStatus_eq_dec (a b : AttendanceStatus) : {a = b} + {a <> b}.
Proof. decide equality. Defined.

(** Sum of a list of rationals. *)
Definition Qsum (l : list Q) : Q := fold_right Qplus 0 l.

(** The target month (zero-based, as [Date.getMonth]) and year of a call. *)
Definition targetMonth (now : DataStore.Now.t) (month : option Z) : Z :=
  match month with Some m => m | None => DataStore.Now.getMonth now end.

Definition targetYear (now : DataStore.Now.t) (year : option Z) : Z :=
  match year with Some y => y | None => DataStore.Now.getFullYear now end.

(** The statistics scenario: two records of emp-001 in the month of index 1 of
    2026, next to a record of the month of index 0 and one of another
    employee. *)
Module StatsScenario.

Definition day (id userId date : string) (status : AttendanceStatus) (workHours : Q)
  : AttendanceRecord.t :=
  AttendanceRecord.mk id userId date None None status workHours None.

Definition records : list AttendanceRecord.t :=
  [ day "att-1" "emp-001" "2026-01-05" present 8;
    day "att-2" "emp-001" "2026-02-02" present 8;
    day "att-3" "emp-002" "2026-02-02" absent 0;
    day "att-4" "emp-001" "2026-02-03" late (15 # 2) ].

Definition now : DataStore.Now.t := DataStore.Now.mk 10 2026.

End StatsScenario.

(** The same Monday in localStorage, with the Monday minimum set to 0. *)
Module StoreScenario.

Import DataStore.

Definition weekday (d : Z) (minWorkHours : Q) : WorkSchedule.t :=
  WorkSchedule.mk d "08:00" "16:00" minWorkHours.

Definition storage0 : Storage :=
  {| attendance := []; overtime := [];
     workSchedules := [weekday 0 8; weekday 1 0; weekday 2 8; weekday 3 8;
                       weekday 4 8; weekday 5 8; weekday 6 5] |}.

(** Check-in at 08:00 and check-out at 13:00. *)
Definition storage_out : Storage :=
  fst (checkOut (Scenario.at_ 13 0) "emp-001" "out.jpg" Scenario.office
         (fst (checkIn (Scenario.at_ 8 0) "emp-001" "in.jpg" Scenario.office storage0))).

End StoreScenario.

(** ** Boolean tests used by the exhaustive checks *)

Definition comparison_eqb (c d : comparison) : bool :=
  match c, d with
  | Eq, Eq | Lt, Lt | Gt, Gt => true
  | _, _ => false
  end.

(** [s] contains no colon. *)
Fixpoint no_colon (s : string) : bool :=
  match s with
  | EmptyString => true
  | String c rest => negb (Ascii.eqb c ":") && no_colon rest
  end.

(** [Number(pad2 n)] is the integer [n]. *)
Definition pad2_number_ok (n : nat) : bool :=
  match JS.Number (JS.pad2 n) with
  | JS.Fin q => Z.eqb (Qnum q) (Z.of_nat n) && Pos.eqb (Qden q) 1
  | JS.NaN => false
  end.

(** [parseInt(pad2 n)] is the integer [n]. *)
Definition pad2_parseInt_ok (n : nat) : bool :=
  match JS.parseInt (Some (JS.pad2 n)) with
  | JS.Fin q => Z.eqb (Qnum q) (Z.of_nat n) && Pos.eqb (Qden q) 1
  | JS.NaN => false
  end.

(** ** Further notions on the tables *)
Module Keys.

Import Route.

(** The PRIMARY KEY of attendance_records and of overtime_records. *)
Definition unique_attendance_ids (db : DB) : Prop :=
  NoDup (map AttendanceRow.id (attendance_records db)).

Definition unique_overtime_ids (db : DB) : Prop :=
  NoDup (map OvertimeRow.id (overtime_records db)).

(** The employee has checked in and out on that date. *)
Definition checked_out (user_id date : string) (db : DB) : Prop :=
  exists row,
    find (attendance_of user_id date) (attendance_records db) = Some row /\
    JS.truthy_opt (AttendanceRow.check_in_time row) = true /\
    JS.truthy_opt (AttendanceRow.check_out_time row) = true.

(** The two UPDATEs of the attendance route. *)
Inductive attendance_write : (AttendanceRow.t -> AttendanceRow.t) -> Prop :=
| write_check_in now photo loc status :
    status = present \/ status = late ->
    attendance_write (set_check_in (timeString now) photo loc status)
| write_check_out now photo loc work_hours :
    0 <= work_hours ->
    attendance_write (set_check_out (timeString now) photo loc work_hours).


End Keys.

(** ** middleware.ts *)
Module Middleware.

Definition protectedRoutes : list string := ["/dashboard"; "/admin"].

Definition authRoutes : list string := ["/login"].

(** [pathname.startsWith(route)]. *)
Definition startsWith (pathname route : string) : bool := String.prefix route pathname.

(** The response: a redirect to a path of the same origin with its search
    parameters, or [NextResponse.next()] with the headers set on it. *)
Inductive Result : Type :=
| redirect (pathname : string) (searchParams : list (string * string))
| next (headers : list (string * string)).

(** [sessionCookie] is the value of the cookie [presensi_session], if the
    request carries one. *)
Definition middleware (pathname : string) (sessionCookie : option string) : Result :=
  let isAuthenticated := JS.truthy_opt sessionCookie in
  let isProtectedRoute := existsb (startsWith pathname) protectedRoutes in
  let isAuthRoute := existsb (startsWith pathname) authRoutes in
  if isProtectedRoute && negb isAuthenticated
  then redirect "/login" [("redirect", pathname)]
  else if isAuthRoute && isAuthenticated
  then redirect "/dashboard" []
  else next [("X-Frame-Options", "DENY");
             ("X-Content-Type-Options", "nosniff");
             ("Referrer-Policy", "strict-origin-when-cross-origin")].

End Middleware.

(** ** lib/data-store.ts: users and login *)
Module Users.

Module User.
Record t : Type := mk {
  id : string;
  username : string;
  password : string;
  name : string;
  role : Role;
  department : string;
  position : string;
  email : string;
  phone : string;
  createdAt : string
}.
End User.

(** [Omit<User, "id" | "createdAt">]. *)
Module NewUser.
Record t : Type := mk {
  username : string;
  password : string;
  name : string;
  role : Role;
  department : string;
  position : string;
  email : string;
  phone : string
}.
End NewUser.

(** [Partial<User>]: the keys that the update carries, with their values. *)
Module Updates.
Record t : Type := mk {
  id : option string;
  username : option string;
  password : option string;
  name : option string;
  role : option Role;
  department : option string;
  position : option string;
  email : option string;
  phone : option string;
  createdAt : option string
}.
End Updates.

Inductive Error : Type :=
| UsernameTaken        (* Username sudah digunakan *)
| UserNotFound         (* User tidak ditemukan *)
| UsernameNotFound     (* Username tidak ditemukan *)
| WrongPassword.       (* Password salah *)

(** A value, or [{ error }]. *)
Inductive Result (A : Type) : Type :=
| Value (a : A)
| Failed (error : Error).

Arguments Value {A} a.
Arguments Failed {A} error.

Definition getUserById (id : string) (users : list User.t) : option User.t :=
  find (fun u => String.eqb (User.id u) id) users.

Definition getUserByUsername (username : string) (users : list User.t) : option User.t :=
  find (fun u => String.eqb (User.username u) username) users.

(** [now] is [Date.now()], [createdAt] is [new Date().toISOString()]. *)
Definition createUser (now : Z) (createdAt : string) (user : NewUser.t)
    (users : list User.t) : list User.t * Result User.t :=
  if existsb (fun u => String.eqb (User.username u) (NewUser.username user)) users
  then (users, Failed UsernameTaken)
  else
    let newUser :=
      User.mk ("emp-" ++ JS.show now) (NewUser.username user) (NewUser.password user)
        (NewUser.name user) (NewUser.role user) (NewUser.department user)
        (NewUser.position user) (NewUser.email user) (NewUser.phone user) createdAt in
    ((users ++ [newUser])%list, Value newUser).

Definition or_else {A : Type} (update : option A) (current : A) : A :=
  match update with
  | Some a => a
  | None => current
  end.

(** [{ ...user, ...updates }]. *)
Definition spread (user : User.t) (updates : Updates.t) : User.t :=
  User.mk
    (or_else (Updates.id updates) (User.id user))
    (or_else (Updates.username updates) (User.username user))
    (or_else (Updates.password updates) (User.password user))
    (or_else (Updates.name updates) (User.name user))
    (or_else (Updates.role updates) (User.role user))
    (or_else (Updates.department updates) (User.department user))
    (or_else (Updates.position updates) (User.position user))
    (or_else (Updates.email updates) (User.email user))
    (or_else (Updates.phone updates) (User.phone user))
    (or_else (Updates.createdAt updates) (User.createdAt user)).

Definition updateUser (id : string) (updates : Updates.t) (users : list User.t)
  : list User.t * Result User.t :=
  match DataStore.findIndex (fun u => String.eqb (User.id u) id) users with
  | None => (users, Failed UserNotFound)
  | Some index =>
      if JS.truthy_opt (Updates.username updates)
         && existsb (fun u =>
                       match Updates.username updates with
                       | Some username => String.eqb (User.username u) username
                       | None => false
                       end
                       && negb (String.eqb (User.id u) id))
                    users
      then (users, Failed UsernameTaken)
      else
        match nth_error users index with
        | Some user =>
            let updated := spread user updates in
            (DataStore.assign index updated users, Value updated)
        | None => (users, Failed UserNotFound)
        end
  end.

Definition deleteUser (id : string) (users : list User.t) : list User.t * bool :=
  let filtered := filter (fun u => negb (String.eqb (User.id u) id)) users in
  if (length filtered =? length users)%nat then (users, false)
  else (filtered, true).

(** [login]: the second component of the state is the user kept under
    [presensi_current_user]. *)
Definition login (username password : string) (users : list User.t)
    (currentUser : option User.t) : option User.t * Result User.t :=
  match getUserByUsername username users with
  | None => (currentUser, Failed UsernameNotFound)
  | Some user =>
      if negb (String.eqb (User.password user) password)
      then (currentUser, Failed WrongPassword)
      else (Some user, Value user)
  end.

(** Ids and usernames are keys of the array. *)
Definition well_keyed (users : list User.t) : Prop :=
  NoDup (map User.id users) /\ NoDup (map User.username users).

End Users.

(** ** lib/data-store.ts: the work schedules *)
Module Schedules.

Import DataStore.

(** [Partial<WorkSchedule>]. *)
Module Updates.
Record t : Type := mk {
  dayOfWeek : option Z;
  startTime : option string;
  endTime : option string;
  minWorkHours : option Q
}.
End Updates.

(** [{ ...schedule, ...updates }]. *)
Definition spread (schedule : WorkSchedule.t) (updates : Updates.t) : WorkSchedule.t :=
  WorkSchedule.mk
    (Users.or_else (Updates.dayOfWeek updates) (WorkSchedule.dayOfWeek schedule))
    (Users.or_else (Updates.startTime updates) (WorkSchedule.startTime schedule))
    (Users.or_else (Updates.endTime updates) (WorkSchedule.endTime schedule))
    (Users.or_else (Updates.minWorkHours updates) (WorkSchedule.minWorkHours schedule)).

Definition set_workSchedules (st : Storage) (schedules : list WorkSchedule.t) : Storage :=
  {| attendance := attendance st; overtime := overtime st; workSchedules := schedules |}.

Definition updateWorkSchedule (dayOfWeek : Z) (updates : Updates.t) (st : Storage)
  : Storage * list WorkSchedule.t :=
  let schedules := workSchedules st in
  match findIndex (fun s => Z.eqb (WorkSchedule.dayOfWeek s) dayOfWeek) schedules with
  | Some index =>
      match nth_error schedules index with
      | Some schedule =>
          let schedules := assign index (spread schedule updates) schedules in
          (set_workSchedules st schedules, schedules)
      | None => (st, schedules)
      end
  | None => (st, schedules)
  end.

(** The array is laid out by weekday: the element at index [i] is the
    schedule of day [i], which is how [schedules[dayOfWeek]] reads it. *)
Definition by_weekday (schedules : list WorkSchedule.t) : Prop :=
  forall i s, nth_error schedules i = Some s -> WorkSchedule.dayOfWeek s = Z.of_nat i.

End Schedules.

(** ** The GET handlers of the routes

    A GET handler reads the tables and writes nothing.  Its reply is the
    payload of [{ success: true, .. }] or an error with its status code. *)
Module Reads.

Import Route.

Inductive Reply (A : Type) : Type :=
| Ok (payload : A)
| Refused (code : nat) (error : Failure).

Arguments Ok {A} payload.
Arguments Refused {A} code error.

(** The blanks that [parseInt] skips, among the ASCII characters: tab, line
    feed, vertical tab, form feed, carriage return and space. *)
Definition blank (c : ascii) : bool :=
  let n := nat_of_ascii c in
  ((9 <=? n) && (n <=? 13) || (n =? 32))%nat.

Fixpoint trimStart (s : string) : string :=
  match s with
  | EmptyString => EmptyString
  | String c rest => if blank c then trimStart rest else s
  end.

(** [parseInt(s, 10)] on a value of [searchParams.get]. *)
Definition parseInt10 (s : option string) : JS.num :=
  match s with
  | Some s => JS.parseInt (Some (trimStart s))
  | None => JS.NaN
  end.

(** [MONTH(date) = ?] and [YEAR(date) = ?] on a DATE, with a number bound to
    the placeholder. *)
Definition month_is (m : Q) (date : string) : bool :=
  match DataStore.parseDate date with
  | Some (_, month, _) => Qeq_bool (inject_Z month) m
  | None => false
  end.

Definition year_is (y : Q) (date : string) : bool :=
  match DataStore.parseDate date with
  | Some (year, _, _) => Qeq_bool (inject_Z year) y
  | None => false
  end.

(** [ORDER BY]: the rows are put in order by insertion; [precedes a b] says
    that [a] comes strictly before [b].  Rows with equal keys stay in the
    order of the table, an order that the statement leaves open. *)
Fixpoint insert {A : Type} (precedes : A -> A -> bool) (x : A) (l : list A) : list A :=
  match l with
  | [] => [x]
  | y :: rest =>
      if precedes y x then y :: insert precedes x rest
      else x :: y :: rest
  end.

Fixpoint order_by {A : Type} (precedes : A -> A -> bool) (l : list A) : list A :=
  match l with
  | [] => []
  | x :: rest => insert precedes x (order_by precedes rest)
  end.

(** [a DESC] on a nullable column: greater values first, NULL last. *)
Definition desc (a b : option string) : comparison :=
  match a, b with
  | Some x, Some y => String.compare y x
  | Some _, None => Lt
  | None, Some _ => Gt
  | None, None => Eq
  end.

(** The conjunction of the conditions appended to [WHERE 1=1]. *)
Definition holds {A : Type} (conditions : list (A -> bool)) (row : A) : bool :=
  forallb (fun condition => condition row) conditions.

(** *** GET of app/api/attendance/route.ts *)
Module Attendance.

Module Query.
Record t : Type := mk {
  userId : option string;
  date : option string;
  month : option string;
  year : option string
}.
End Query.

(** [ORDER BY date DESC, check_in_time DESC]. *)
Definition precedes (a b : AttendanceRow.t) : bool :=
  match desc (Some (AttendanceRow.date a)) (Some (AttendanceRow.date b)) with
  | Lt => true
  | Gt => false
  | Eq =>
      match desc (AttendanceRow.check_in_time a) (AttendanceRow.check_in_time b) with
      | Lt => true
      | _ => false
      end
  end.

(** The conditions of the statement, in the order they are appended; [None]
    when a bound number is NaN, which is no SQL value and makes the statement
    fail. *)
Definition conditions (user : User.t) (q : Query.t)
  : option (list (AttendanceRow.t -> bool)) :=
  let sql :=
    if negb (isAdmin (Some user))
    then [fun a => String.eqb (AttendanceRow.user_id a) (User.id user)]
    else
      match Query.userId q with
      | Some userId =>
          if JS.truthy userId
          then [fun a => String.eqb (AttendanceRow.user_id a) userId]
          else []
      | None => []
      end in
  let sql :=
    match Query.date q with
    | Some date =>
        if JS.truthy date
        then (sql ++ [fun a => String.eqb (AttendanceRow.date a) date])%list
        else sql
    | None => sql
    end in
  if JS.truthy_opt (Query.month q) && JS.truthy_opt (Query.year q)
  then
    match parseInt10 (Query.month q), parseInt10 (Query.year q) with
    | JS.Fin m, JS.Fin y =>
        Some (sql ++ [fun a => month_is m (AttendanceRow.date a);
                      fun a => year_is y (AttendanceRow.date a)])%list
    | _, _ => None
    end
  else Some sql.

Definition GET (currentUser : option User.t) (q : Query.t) (db : DB)
  : Reply (list AttendanceRecord.t) :=
  match currentUser with
  | None => Refused 401 Unauthenticated
  | Some user =>
      match conditions user q with
      | None => Refused 500 ServerError
      | Some sql =>
          let rows := order_by precedes (filter (holds sql) (attendance_records db)) in
          Ok (map Route.Attendance.mapRowToAttendanceRecord rows)
      end
  end.

End Attendance.

(** *** GET of app/api/overtime/route.ts *)
Module Overtime.

Module Query.
Record t : Type := mk {
  userId : option string;
  status : option string
}.
End Query.

(** The text of a value of the ENUM column [status]. *)
Definition status_text (s : OvertimeStatus) : string :=
  match s with
  | pending => "pending"
  | approved => "approved"
  | rejected => "rejected"
  end.

(** [ORDER BY date DESC, start_time DESC]. *)
Definition precedes (a b : OvertimeRow.t) : bool :=
  match desc (Some (OvertimeRow.date a)) (Some (OvertimeRow.date b)) with
  | Lt => true
  | Gt => false
  | Eq =>
      match desc (Some (OvertimeRow.start_time a)) (Some (OvertimeRow.start_time b)) with
      | Lt => true
      | _ => false
      end
  end.

Definition conditions (user : User.t) (q : Query.t) : list (OvertimeRow.t -> bool) :=
  let sql :=
    if negb (isAdmin (Some user))
    then [fun o => String.eqb (OvertimeRow.user_id o) (User.id user)]
    else
      match Query.userId q with
      | Some userId =>
          if JS.truthy userId
          then [fun o => String.eqb (OvertimeRow.user_id o) userId]
          else []
      | None => []
      end in
  match Query.status q with
  | Some status =>
      if JS.truthy status
      then (sql ++ [fun o => String.eqb (status_text (OvertimeRow.status o)) status])%list
      else sql
  | None => sql
  end.

Definition GET (currentUser : option User.t) (q : Query.t) (db : DB)
  : Reply (list OvertimeRecord.t) :=
  match currentUser with
  | None => Refused 401 Unauthenticated
  | Some user =>
      let rows :=
        order_by precedes (filter (holds (conditions user q)) (overtime_records db)) in
      Ok (map Route.Overtime.mapRowToOvertimeRecord rows)
  end.

End Overtime.

(** *** GET of app/api/stats/route.ts, and its caller in lib/api-client.ts *)
Module Stats.

Module Query.
Record t : Type := mk {
  userId : option string;
  month : option string;
  year : option string
}.
End Query.

Definition counted (status : AttendanceStatus) (rows : list AttendanceRow.t) : nat :=
  length (filter (fun a => AttendanceStatus_eqb (AttendanceRow.status a) status) rows).

(** [now.getMonth() + 1] and [now.getFullYear()] stand in for a parameter
    that is absent or empty.  The one row of the aggregate is computed over
    the rows of the target user in the target month; a NaN bound to the
    statement makes it fail. *)
Definition GET (now : DataStore.Now.t) (currentUser : option User.t) (q : Query.t)
    (db : DB) : Reply DataStore.Stats.t :=
  match currentUser with
  | None => Refused 401 Unauthenticated
  | Some user =>
      let targetMonth :=
        if JS.truthy_opt (Query.month q) then parseInt10 (Query.month q)
        else JS.of_Z (DataStore.Now.getMonth now + 1) in
      let targetYear :=
        if JS.truthy_opt (Query.year q) then parseInt10 (Query.year q)
        else JS.of_Z (DataStore.Now.getFullYear now) in
      let targetUserId :=
        if isAdmin (Some user) && JS.truthy_opt (Query.userId q)
        then Route.Attendance.or_empty (Query.userId q)
        else User.id user in
      match targetMonth, targetYear with
      | JS.Fin m, JS.Fin y =>
          let rows :=
            filter (fun a => String.eqb (AttendanceRow.user_id a) targetUserId
                             && month_is m (AttendanceRow.date a)
                             && year_is y (AttendanceRow.date a))
                   (attendance_records db) in
          Ok (DataStore.Stats.mk
                (counted present rows) (counted late rows) (counted absent rows)
                (fold_left (fun sum a => sum + AttendanceRow.work_hours a) rows 0)
                (length rows))
      | _, _ => Refused 500 ServerError
      end
  end.

(** [getAttendanceStats(userId, month, year)] of api-client.ts: the search
    parameters it sends, with the month made 1-based. *)
Definition getAttendanceStats (userId : option string) (month year : option Z) : Query.t :=
  Query.mk
    (if JS.truthy_opt userId then userId else None)
    (option_map (fun m => JS.show (m + 1)) month)
    (option_map JS.show year).

End Stats.

End Reads.

(** * Properties *)

(** ** Strings and times *)
Section TimeFacts.

Lemma forallb_below (P : nat -> bool) (n : nat) :
  forallb P (seq 0 n) = true -> forall k, (k < n)%nat -> P k = true.
Proof.
  intros H k Hk. rewrite forallb_forall in H. apply H, in_seq. lia.
Qed.

Lemma compare_app (a b s t : string) :
  String.length a = String.length b ->
  String.compare (a ++ s) (b ++ t) =
  match String.compare a b with
  | Eq => String.compare s t
  | c => c
  end.
Proof.
  revert b. induction a as [|c a IH]; intros [|d b] Hlen; simpl in *; try discriminate.
  - reflexivity.
  - destruct (Ascii.compare c d); auto.
Qed.

Lemma append_empty_r (s : string) : s ++ "" = s.
Proof. induction s; simpl; congruence. Qed.

Lemma append_assoc' (a b c : string) : (a ++ b) ++ c = a ++ (b ++ c).
Proof. induction a; simpl; congruence. Qed.

Lemma pad2_length (n : nat) : (n < 100)%nat -> String.length (JS.pad2 n) = 2%nat.
Proof.
  intros Hn.
  assert (H : forallb (fun k => Nat.eqb (String.length (JS.pad2 k)) 2) (seq 0 100) = true)
    by (vm_compute; reflexivity).
  apply Nat.eqb_eq. exact (forallb_below _ _ H n Hn).
Qed.

Lemma pad2_compare (a b : nat) :
  (a < 100)%nat -> (b < 100)%nat ->
  String.compare (JS.pad2 a) (JS.pad2 b) = Nat.compare a b.
Proof.
  intros Ha Hb.
  assert (H : forallb (fun x => forallb (fun y =>
                comparison_eqb (String.compare (JS.pad2 x) (JS.pad2 y)) (Nat.compare x y))
                (seq 0 100)) (seq 0 100) = true) by (vm_compute; reflexivity).
  pose proof (forallb_below _ _ (forallb_below _ _ H a Ha) b Hb) as E.
  cbv beta in E. revert E.
  destruct (String.compare _ _), (Nat.compare a b); simpl; congruence.
Qed.

Lemma pad2_no_colon (n : nat) : (n < 100)%nat -> no_colon (JS.pad2 n) = true.
Proof.
  intros Hn.
  assert (H : forallb (fun k => no_colon (JS.pad2 k)) (seq 0 100) = true)
    by (vm_compute; reflexivity).
  exact (forallb_below _ _ H n Hn).
Qed.

Lemma pad2_Number (n : nat) :
  (n < 100)%nat -> JS.Number (JS.pad2 n) = JS.of_Z (Z.of_nat n).
Proof.
  intros Hn.
  assert (H : forallb pad2_number_ok (seq 0 100) = true) by (vm_compute; reflexivity).
  pose proof (forallb_below _ _ H n Hn) as E. unfold pad2_number_ok in E.
  destruct (JS.Number (JS.pad2 n)) as [|[a b]]; try discriminate.
  apply andb_prop in E. destruct E as [E1 E2]. cbn [Qnum Qden] in E1, E2.
  apply Z.eqb_eq in E1. apply Pos.eqb_eq in E2. subst. reflexivity.
Qed.

Lemma pad2_parseInt (n : nat) :
  (n < 100)%nat -> JS.parseInt (Some (JS.pad2 n)) = JS.of_Z (Z.of_nat n).
Proof.
  intros Hn.
  assert (H : forallb pad2_parseInt_ok (seq 0 100) = true) by (vm_compute; reflexivity).
  pose proof (forallb_below _ _ H n Hn) as E. unfold pad2_parseInt_ok in E.
  destruct (JS.parseInt (Some (JS.pad2 n))) as [|[a b]]; try discriminate.
  apply andb_prop in E. destruct E as [E1 E2]. cbn [Qnum Qden] in E1, E2.
  apply Z.eqb_eq in E1. apply Pos.eqb_eq in E2. subst. reflexivity.
Qed.

Lemma split_no_colon (a : string) : no_colon a = true -> JS.split ":" a = [a].
Proof.
  induction a as [|c a IH]; simpl; intros H; [reflexivity|].
  apply andb_prop in H. destruct H as [Hc Ha].
  apply negb_true_iff in Hc. rewrite Hc, (IH Ha). reflexivity.
Qed.

Lemma split_colon (a b : string) :
  no_colon a = true -> JS.split ":" (a ++ ":" ++ b) = a :: JS.split ":" b.
Proof.
  induction a as [|c a IH]; simpl; intros H; [reflexivity|].
  apply andb_prop in H. destruct H as [Hc Ha].
  apply negb_true_iff in Hc. rewrite Hc. simpl in IH. rewrite (IH Ha). reflexivity.
Qed.

Lemma split_timeOfDay (h m : nat) :
  (h < 100)%nat -> (m < 100)%nat ->
  JS.split ":" (timeOfDay h m) = [JS.pad2 h; JS.pad2 m].
Proof.
  intros Hh Hm. unfold timeOfDay.
  rewrite split_colon by now apply pad2_no_colon.
  rewrite split_no_colon by now apply pad2_no_colon. reflexivity.
Qed.



(** [timeString > start_time] is the chronological "later than", at minute
    resolution, whenever the start time is a TIME text. *)
Lemma isLate_chronological (h m hs ms : nat) (start_time : string) :
  (h < 24)%nat -> (m < 60)%nat -> (hs < 24)%nat -> (ms < 60)%nat ->
  time_text hs ms start_time ->
  Route.Attendance.isLate (timeOfDay h m) start_time = (60 * hs + ms <? 60 * h + m)%nat.
Proof.
  intros Hh Hm Hhs Hms Ht.
  unfold Route.Attendance.isLate, JS.gt, String.ltb.
  assert (E : exists tail,
             String.compare start_time (timeOfDay h m) =
             match Nat.compare hs h with
             | Eq => match Nat.compare ms m with Eq => tail | c => c end
             | c => c
             end /\ tail <> Lt).
  { destruct Ht as [|s Hs]; unfold timeOfDay.
    - exists Eq. split; [|discriminate].
      rewrite compare_app by (rewrite !pad2_length by lia; reflexivity).
      rewrite pad2_compare by lia. destruct (Nat.compare hs h); auto.
      simpl. rewrite <- (append_empty_r (JS.pad2 ms)), <- (append_empty_r (JS.pad2 m)).
      rewrite compare_app by (rewrite !pad2_length by lia; reflexivity).
      rewrite pad2_compare by lia. destruct (Nat.compare ms m); auto.
    - exists Gt. split; [|discriminate].
      rewrite append_assoc'.
      rewrite compare_app by (rewrite !pad2_length by lia; reflexivity).
      rewrite pad2_compare by lia. destruct (Nat.compare hs h); auto.
      simpl. rewrite <- (append_empty_r (JS.pad2 m)).
      rewrite compare_app by (rewrite !pad2_length by lia; reflexivity).
      rewrite pad2_compare by lia. destruct (Nat.compare ms m); auto. }
  destruct E as (tail & E & Htail). rewrite E. clear E.
  destruct (Nat.compare_spec hs h), (Nat.compare_spec ms m);
    try (symmetry; apply Nat.ltb_lt; lia);
    try (symmetry; apply Nat.ltb_ge; lia).
  destruct tail; try congruence; symmetry; apply Nat.ltb_ge; lia.
Qed.

Lemma timeOfDay_truthy (h m : nat) : JS.truthy (timeOfDay h m) = true.
Proof.
  unfold timeOfDay. destruct (JS.pad2 h); reflexivity.
Qed.

End TimeFacts.

(** ** Numbers *)
Section NumberFacts.

Lemma Qltb_lt (a b : Q) : JS.Qltb a b = true <-> a < b.
Proof.
  unfold JS.Qltb. rewrite negb_true_iff. split.
  - intros H. apply Qnot_le_lt. intros Hle. apply Qle_bool_iff in Hle. congruence.
  - intros H. destruct (Qle_bool b a) eqn:E; [|reflexivity].
    apply Qle_bool_iff in E. exfalso. exact (Qlt_not_le _ _ H E).
Qed.

Lemma Qltb_ge (a b : Q) : JS.Qltb a b = false <-> b <= a.
Proof.
  unfold JS.Qltb. rewrite negb_false_iff. apply Qle_bool_iff.
Qed.

(** [Math.max(0, x)] is never negative and is monotone. *)
Lemma max0_nonneg (x : JS.num) (q : Q) : JS.max0 x = JS.Fin q -> 0 <= q.
Proof.
  destruct x as [|y]; simpl; [discriminate|]. intros H. injection H as <-.
  destruct (JS.Qltb y 0) eqn:E; [apply Qle_refl | now apply Qltb_ge].
Qed.



End NumberFacts.

(** ** Lists as tables *)
Section TableFacts.

Context {A : Type}.

Lemma find_map_stable (p : A -> bool) (g : A -> A) (l : list A) :
  (forall x, p (g x) = p x) ->
  find p (map g l) = option_map g (find p l).
Proof.
  intros Hp. induction l as [|x l IH]; simpl; [reflexivity|].
  rewrite Hp. destruct (p x); auto.
Qed.

Lemma find_app_last (p : A -> bool) (l : list A) (x : A) :
  find p l = None -> find p (l ++ [x]) = if p x then Some x else None.
Proof.
  induction l as [|y l IH]; simpl; [reflexivity|].
  destruct (p y); [discriminate | exact IH].
Qed.

Lemma find_app_first (p : A -> bool) (l : list A) (x y : A) :
  find p l = Some y -> find p (l ++ [x]) = Some y.
Proof.
  induction l as [|z l IH]; simpl; [discriminate|].
  destruct (p z); auto.
Qed.

Lemma filter_none (p : A -> bool) (l : list A) :
  find p l = None -> filter p l = [].
Proof.
  induction l as [|x l IH]; simpl; [reflexivity|].
  destruct (p x); [discriminate | exact IH].
Qed.

Lemma filter_map_shrinks (p : A -> bool) (g : A -> A) (l : list A) :
  (forall x, p (g x) = true -> p x = true) ->
  (length (filter p (map g l)) <= length (filter p l))%nat.
Proof.
  intros Hp. induction l as [|x l IH]; simpl; [lia|].
  destruct (p (g x)) eqn:E.
  - rewrite (Hp x E). simpl. lia.
  - destruct (p x); simpl; lia.
Qed.

End TableFacts.

(** ** The attendance route *)
Section AttendanceFacts.

Import Route Route.Attendance.

Ltac run :=
  unfold try_catch, bind, ret, reply, throw, reply_record, select_schedule,
    select_attendance, select_attendance_by_id, update_attendance, insert_attendance,
    decimal; cbn [fst snd].

Lemma attendance_of_refl (user_id date : string) (a : AttendanceRow.t) :
  AttendanceRow.user_id a = user_id -> AttendanceRow.date a = date ->
  attendance_of user_id date a = true.
Proof.
  intros <- <-. unfold attendance_of. now rewrite !String.eqb_refl.
Qed.

(** What a successful check-in leaves in the table. *)
Lemma check_in_success now user body db db' code rec msg :
  Body.action body = "check-in" ->
  POST now (Some user) body db = (db', Success code rec msg) ->
  exists schedule row,
    find (fun s => Z.eqb (WorkScheduleRow.day_of_week s) (dayOfWeek now))
         (work_schedules db) = Some schedule /\
    work_schedules db' = work_schedules db /\
    overtime_records db' = overtime_records db /\
    find (attendance_of (User.id user) (today now)) (attendance_records db') = Some row /\
    AttendanceRow.check_in_time row = Some (timeString now) /\
    AttendanceRow.status row =
      statusOf (isLate (timeString now) (WorkScheduleRow.start_time schedule)) /\
    rec = mapRowToAttendanceRecord row.
Proof.
  intros Hact. unfold POST. run.
  destruct (find _ (work_schedules db)) as [schedule|] eqn:Hs; [|discriminate].
  rewrite Hact. cbn [String.eqb]. rewrite ?Ascii.eqb_refl. unfold check_in. run.
  destruct (find (attendance_of _ _) (attendance_records db)) as [e|] eqn:He.
  - destruct (JS.truthy_opt (AttendanceRow.check_in_time e)); [discriminate|].
    cbn [attendance_records with_attendance].
    rewrite find_map_stable, He.
    2:{ intros x. destruct (String.eqb _ _); reflexivity. }
    cbn [option_map]. rewrite String.eqb_refl.
    intros H. injection H as <- _ <- _.
    exists schedule. eexists. repeat split; try reflexivity; try eassumption.
    cbn [attendance_records with_attendance].
    rewrite find_map_stable, He.
    2:{ intros x. destruct (String.eqb _ _); reflexivity. }
    cbn [option_map]. rewrite String.eqb_refl. reflexivity.
  - cbn [JS.truthy_opt].
    destruct (existsb _ (attendance_records db)); [discriminate|].
    cbn [attendance_records with_attendance].
    rewrite (find_app_last _ _ _ He).
    rewrite attendance_of_refl by reflexivity.
    intros H. injection H as <- _ <- _.
    exists schedule. eexists. repeat split; try reflexivity; try eassumption.
    cbn [attendance_records with_attendance].
    rewrite (find_app_last _ _ _ He).
    rewrite attendance_of_refl by reflexivity. reflexivity.
Qed.

(** C2 -- A check-in whose time of day equals the schedule's start time is
    recorded as [present]; a check-in one minute or more after the start time
    is recorded as [late].  The start time is a TIME text ([HH:MM] or
    [HH:MM:SS]) at minute [hs:ms]. *)
Theorem C2_check_in_status now user body db db' code rec msg schedule hs ms :
  valid_clock now ->
  (hs < 24)%nat -> (ms < 60)%nat ->
  time_text hs ms (WorkScheduleRow.start_time schedule) ->
  find (fun s => Z.eqb (WorkScheduleRow.day_of_week s) (dayOfWeek now))
       (work_schedules db) = Some schedule ->
  Body.action body = "check-in" ->
  POST now (Some user) body db = (db', Success code rec msg) ->
  (hours now = hs /\ minutes now = ms -> AttendanceRecord.status rec = present) /\
  ((60 * hs + ms + 1 <= 60 * hours now + minutes now)%nat ->
   AttendanceRecord.status rec = late).
Proof.
  intros [Hh Hm] Hhs Hms Ht Hs Hact Hpost.
  destruct (check_in_success _ _ _ _ _ _ _ _ Hact Hpost)
    as (schedule' & row & Hs' & _ & _ & _ & _ & Hstatus & ->).
  rewrite Hs in Hs'. injection Hs' as <-.
  cbn [mapRowToAttendanceRecord AttendanceRecord.status]. rewrite Hstatus.
  unfold timeString. rewrite (isLate_chronological _ _ hs ms) by assumption.
  split.
  - intros [-> ->]. rewrite Nat.ltb_irrefl. reflexivity.
  - intros Hlate.
    replace (60 * hs + ms <? 60 * hours now + minutes now)%nat with true.
    + reflexivity.
    + symmetry. apply Nat.ltb_lt. lia.
Qed.

(** The scenario: 08:00 is present, 08:01 and 08:15 are late. *)
Lemma C2_check_in_status_witness :
  (exists rec,
      snd (POST (Scenario.at_ 8 0) (Some Scenario.budi) Scenario.checkInBody Scenario.db0)
      = Success 200 rec "Check-in berhasil" /\ AttendanceRecord.status rec = present) /\
  (exists rec,
      snd (POST (Scenario.at_ 8 1) (Some Scenario.budi) Scenario.checkInBody Scenario.db0)
      = Success 200 rec "Check-in berhasil (Terlambat)" /\
      AttendanceRecord.status rec = late).
Proof.
  split; eexists; (split; [reflexivity|]).
  - refine (proj1 (C2_check_in_status (Scenario.at_ 8 0) Scenario.budi Scenario.checkInBody
                     Scenario.db0 _ _ _ _ Scenario.monday 8 0 _ _ _ _ _ _ _) _).
    + split; simpl; lia.
    + lia.
    + lia.
    + exact (time_hms 8 0 0 ltac:(lia)).
    + reflexivity.
    + reflexivity.
    + reflexivity.
    + split; reflexivity.
  - refine (proj2 (C2_check_in_status (Scenario.at_ 8 1) Scenario.budi Scenario.checkInBody
                     Scenario.db0 _ _ _ _ Scenario.monday 8 0 _ _ _ _ _ _ _) _).
    + split; simpl; lia.
    + lia.
    + lia.
    + exact (time_hms 8 0 0 ltac:(lia)).
    + reflexivity.
    + reflexivity.
    + reflexivity.
    + simpl; lia.
Defined.

(** The check-out action once its guards are passed: the minimum-hours gate,
    then the single UPDATE. *)
Lemma check_out_gate now user body db schedule e check_in :
  Body.action body = "check-out" ->
  find (fun s => Z.eqb (WorkScheduleRow.day_of_week s) (dayOfWeek now))
       (work_schedules db) = Some schedule ->
  find (attendance_of (User.id user) (today now)) (attendance_records db) = Some e ->
  AttendanceRow.check_in_time e = Some check_in ->
  JS.truthy check_in = true ->
  JS.truthy_opt (AttendanceRow.check_out_time e) = false ->
  POST now (Some user) body db =
  let workHours := workHoursBetween check_in (timeString now) in
  let min_work_hours := WorkScheduleRow.min_work_hours schedule in
  if JS.lt workHours (JS.Fin min_work_hours)
  then (db, Failed 400
              (MinimumHoursNotMet min_work_hours
                 (match workHours with
                  | JS.Fin w => Some (timeRemaining min_work_hours w)
                  | JS.NaN => None
                  end)))
  else
    match JS.max0 workHours with
    | JS.NaN => (db, Failed 500 ServerError)
    | JS.Fin q =>
        let rows :=
          map (fun a => if String.eqb (AttendanceRow.id a) (AttendanceRow.id e)
                        then set_check_out (timeString now) (Body.photo body)
                                           (Body.location body) q a
                        else a)
              (attendance_records db) in
        (with_attendance db rows,
         match find (fun a => String.eqb (AttendanceRow.id a) (AttendanceRow.id e)) rows with
         | Some row => Success 200 (mapRowToAttendanceRecord row) "Check-out berhasil"
         | None => Failed 500 ServerError
         end)
    end.
Proof.
  intros Hact Hs He Hci Ht Hco. unfold POST. run. rewrite Hs, Hact.
  change (String.eqb "check-out" "check-in") with false.
  change (String.eqb "check-out" "check-out") with true.
  unfold check_out. run. rewrite He, Hci, Ht, Hco. cbn [negb].
  cbv zeta.
  destruct (JS.lt _ _); [reflexivity|].
  destruct (JS.max0 _); run; [reflexivity|].
  cbn [attendance_records with_attendance].
  destruct (find _ (map _ _)); reflexivity.
Qed.

(** The row read back after the UPDATE carries the new work hours. *)
Lemma check_out_row_found (id time photo : string) (loc : Location.t) (q : Q)
    (rows : list AttendanceRow.t) (e : AttendanceRow.t) :
  In e rows -> AttendanceRow.id e = id ->
  exists e',
    find (fun a => String.eqb (AttendanceRow.id a) id)
         (map (fun a => if String.eqb (AttendanceRow.id a) id
                        then set_check_out time photo loc q a else a) rows)
    = Some (set_check_out time photo loc q e') /\
    In e' rows /\ AttendanceRow.id e' = id.
Proof.
  intros Hin Hid.
  rewrite find_map_stable.
  2:{ intros x. destruct (String.eqb (AttendanceRow.id x) id) eqn:E; [|exact E].
      cbn [set_check_out AttendanceRow.id]. exact E. }
  destruct (find _ rows) as [e'|] eqn:Hf.
  - apply find_some in Hf as [Hin' Hid']. exists e'. cbn [option_map].
    rewrite Hid'. apply String.eqb_eq in Hid'. auto.
  - exfalso. apply (find_none _ _ Hf) in Hin. rewrite Hid, String.eqb_refl in Hin.
    discriminate.
Qed.

(** No partial write: a request that is answered by an error leaves every
    table as it was. *)
Lemma attendance_failure_writes_nothing now currentUser body db db' code error :
  POST now currentUser body db = (db', Failed code error) -> db' = db.
Proof.
  unfold POST. run.
  destruct currentUser as [user|]; [|intros H; injection H; auto].
  destruct (find _ (work_schedules db)) as [schedule|]; [|intros H; injection H; auto].
  destruct (String.eqb (Body.action body) "check-in").
  - unfold check_in. run.
    destruct (find _ (attendance_records db)) as [e|] eqn:He.
    + destruct (JS.truthy_opt _); [intros H; injection H; auto|].
      cbn [attendance_records with_attendance].
      rewrite find_map_stable, He.
      2:{ intros x. destruct (String.eqb _ _); reflexivity. }
      cbn [option_map]. discriminate.
    + cbn [JS.truthy_opt].
      destruct (existsb _ (attendance_records db)); [intros H; injection H; auto|].
      cbn [attendance_records with_attendance].
      rewrite (find_app_last _ _ _ He), attendance_of_refl by reflexivity.
      discriminate.
  - destruct (String.eqb (Body.action body) "check-out"); [|intros H; injection H; auto].
    unfold check_out. run.
    destruct (find _ (attendance_records db)) as [e|] eqn:He; [|intros H; injection H; auto].
    destruct (AttendanceRow.check_in_time e) as [t|]; [|intros H; injection H; auto].
    destruct (negb (JS.truthy t)); [intros H; injection H; auto|].
    destruct (JS.truthy_opt _); [intros H; injection H; auto|].
    destruct (JS.lt _ _); [intros H; injection H; auto|].
    destruct (JS.max0 _) as [|q]; run; [intros H; injection H; auto|].
    cbn [attendance_records with_attendance].
    apply find_some in He as [Hin _].
    destruct (check_out_row_found (AttendanceRow.id e) (timeString now) (Body.photo body)
                (Body.location body) q _ e Hin eq_refl) as (e' & Hf & _ & _).
    rewrite Hf. discriminate.
Qed.

(** C4 -- Whenever the computed work hours are below the schedule's minimum,
    check-out fails with MinimumHoursNotMet and the database -- hence the
    attendance record, with its check-out event, work hours and every other
    field -- is exactly what it was. *)
Theorem C4_rejected_check_out_changes_nothing now user body db schedule e check_in :
  Body.action body = "check-out" ->
  find (fun s => Z.eqb (WorkScheduleRow.day_of_week s) (dayOfWeek now))
       (work_schedules db) = Some schedule ->
  find (attendance_of (User.id user) (today now)) (attendance_records db) = Some e ->
  AttendanceRow.check_in_time e = Some check_in ->
  JS.truthy check_in = true ->
  JS.truthy_opt (AttendanceRow.check_out_time e) = false ->
  JS.lt (workHoursBetween check_in (timeString now))
        (JS.Fin (WorkScheduleRow.min_work_hours schedule)) = true ->
  exists timeRemaining,
    POST now (Some user) body db =
    (db, Failed 400 (MinimumHoursNotMet (WorkScheduleRow.min_work_hours schedule)
                                        timeRemaining)).
Proof.
  intros Hact Hs He Hci Ht Hco Hlt.
  rewrite (check_out_gate _ _ _ _ _ _ _ Hact Hs He Hci Ht Hco).
  cbv zeta. rewrite Hlt. eexists. reflexivity.
Qed.

(** The scenario: check-in at 08:00, check-out attempted at 15:00. *)
Lemma C4_rejected_check_out_witness :
  exists timeRemaining,
    POST (Scenario.at_ 15 0) (Some Scenario.budi) Scenario.checkOutBody Scenario.db_in =
    (Scenario.db_in, Failed 400 (MinimumHoursNotMet 8 timeRemaining)).
Proof.
  refine (C4_rejected_check_out_changes_nothing (Scenario.at_ 15 0) Scenario.budi
            Scenario.checkOutBody Scenario.db_in Scenario.monday _ "08:00" _ _ _ _ _ _ _);
    reflexivity.
Defined.








Lemma keeps_row_set_check_in now p l s : keeps_row (set_check_in (timeString now) p l s).
Proof.
  intros a. cbn. repeat split. intros _. apply timeOfDay_truthy.
Qed.

Lemma keeps_row_set_check_out t p l q : keeps_row (set_check_out t p l q).
Proof. intros a. cbn. repeat split. auto. Qed.

(** What one attendance request can do to the tables: nothing, one UPDATE by
    id that keeps keys and a set check-in, or one INSERT of a fresh key. *)
Lemma attendance_POST_effect now currentUser body db :
  let db' := fst (POST now currentUser body db) in
  work_schedules db' = work_schedules db /\
  overtime_records db' = overtime_records db /\
  (attendance_records db' = attendance_records db \/
   (exists id f, keeps_row f /\
      attendance_records db' =
      map (fun a => if String.eqb (AttendanceRow.id a) id then f a else a)
          (attendance_records db)) \/
   (exists row,
      existsb (fun a => String.eqb (AttendanceRow.id a) (AttendanceRow.id row)
                        || attendance_of (AttendanceRow.user_id row)
                                         (AttendanceRow.date row) a)
              (attendance_records db) = false /\
      attendance_records db' = (attendance_records db ++ [row])%list)).
Proof.
  cbv zeta. unfold POST. run.
  destruct currentUser as [user|]; [|cbn; auto].
  destruct (find _ (work_schedules db)) as [schedule|]; [|cbn; auto].
  destruct (String.eqb (Body.action body) "check-in").
  - unfold check_in. run.
    destruct (find _ (attendance_records db)) as [e|].
    + destruct (JS.truthy_opt _); [cbn; auto|].
      match goal with
      | |- context [find ?p ?l] => destruct (find p l)
      end; cbn [fst with_attendance work_schedules overtime_records attendance_records];
        (split; [reflexivity|]; split; [reflexivity|]; right; left;
         eexists; eexists; split; [apply keeps_row_set_check_in | reflexivity]).
    + cbn [JS.truthy_opt].
      destruct (existsb _ (attendance_records db)) eqn:Hex; [cbn; auto|].
      match goal with
      | |- context [find ?p ?l] => destruct (find p l)
      end; cbn [fst with_attendance work_schedules overtime_records attendance_records];
        (split; [reflexivity|]; split; [reflexivity|]; right; right;
         eexists; split; [|reflexivity]; exact Hex).
  - destruct (String.eqb (Body.action body) "check-out"); [|cbn; auto].
    unfold check_out. run.
    destruct (find _ (attendance_records db)) as [e|]; [|cbn; auto].
    destruct (AttendanceRow.check_in_time e) as [t|]; [|cbn; auto].
    destruct (negb (JS.truthy t)); [cbn; auto|].
    destruct (JS.truthy_opt _); [cbn; auto|].
    destruct (JS.lt _ _); [cbn; auto|].
    destruct (JS.max0 _); run; [cbn; auto|].
    match goal with
    | |- context [find ?p ?l] => destruct (find p l)
    end; cbn [fst with_attendance work_schedules overtime_records attendance_records];
      (split; [reflexivity|]; split; [reflexivity|]; right; left;
       eexists; eexists; split; [apply keeps_row_set_check_out | reflexivity]).
Qed.

(** The other lines of the scenario: a check-in at 08:15 is late, and the
    check-out at 16:00 succeeds with 8 hours. *)
Example scenario_check_in_0815 :
  exists rec,
    snd (POST (Scenario.at_ 8 15) (Some Scenario.budi) Scenario.checkInBody Scenario.db0)
    = Success 200 rec "Check-in berhasil (Terlambat)" /\
    AttendanceRecord.status rec = late.
Proof. eexists. split; reflexivity. Qed.

Example scenario_check_out_1600 :
  exists rec,
    snd (POST (Scenario.at_ 16 0) (Some Scenario.budi) Scenario.checkOutBody Scenario.db_in)
    = Success 200 rec "Check-out berhasil" /\
    AttendanceRecord.workHours rec == 8.
Proof. eexists. split; reflexivity. Qed.

End AttendanceFacts.

(** ** The overtime route *)
Section OvertimeFacts.

Import Route Route.Overtime.

Ltac run :=
  unfold try_catch, bind, ret, reply, throw, reply_record, select_schedule,
    select_attendance, select_open_overtime, select_overtime_by_id, update_overtime,
    insert_overtime, decimal; cbn [fst snd].

(** What a start request can do: nothing, or one INSERT of an open, pending
    row for the caller and today, made only when no such open row exists. *)
Lemma overtime_POST_effect now currentUser reason db :
  let db' := fst (POST now currentUser reason db) in
  work_schedules db' = work_schedules db /\
  attendance_records db' = attendance_records db /\
  (overtime_records db' = overtime_records db \/
   (exists user,
      currentUser = Some user /\
      find (open_overtime_of (User.id user) (today now)) (overtime_records db) = None /\
      overtime_records db' =
      (overtime_records db ++
       [OvertimeRow.mk ("ot-" ++ JS.show (millis now)) (User.id user) (today now)
          (timeString now) None 0 reason pending None None])%list)).
Proof.
  cbv zeta. unfold POST. run.
  destruct currentUser as [user|]; [|cbn; auto].
  destruct (negb (JS.truthy reason)); [cbn; auto|].
  destruct (find _ (attendance_records db)) as [a|]; [|cbn; auto].
  destruct (negb (JS.truthy_opt (AttendanceRow.check_in_time a))); [cbn; auto|].
  destruct (negb (JS.truthy_opt (AttendanceRow.check_out_time a))); [cbn; auto|].
  destruct (JS.Qltb _ _); [cbn; auto|].
  destruct (find _ (overtime_records db)) as [o|] eqn:Ho; [cbn; auto|].
  destruct (existsb _ (overtime_records db)); [cbn; auto|].
  match goal with
  | |- context [find ?p ?l] => destruct (find p l)
  end; cbn [fst with_overtime work_schedules overtime_records attendance_records];
    (split; [reflexivity|]; split; [reflexivity|]; right;
     eexists; split; [reflexivity|]; split; [exact Ho | reflexivity]).
Qed.

(** What a PUT request can do: nothing, one UPDATE by id that closes rows
    ([end]), or one UPDATE by id that stamps a decision (approve / reject). *)
Lemma overtime_PUT_effect now currentUser body db :
  let db' := fst (PUT now currentUser body db) in
  work_schedules db' = work_schedules db /\
  attendance_records db' = attendance_records db /\
  (overtime_records db' = overtime_records db \/
   exists id f,
     overtime_records db' =
     map (fun o => if String.eqb (OvertimeRow.id o) id then f o else o)
         (overtime_records db) /\
     ((exists time duration, f = set_end time duration) \/
      (exists status user,
          isAdmin currentUser = true /\ currentUser = Some user /\
          String.eqb (Body.action body) "end" = false /\
          id = Body.overtimeId body /\
          status = (if String.eqb (Body.action body) "approve"
                    then approved else rejected) /\
          f = set_decision status (User.id user) (millis now)))).
Proof.
  cbv zeta. unfold PUT. run.
  destruct currentUser as [user|]; [|cbn; auto].
  destruct (String.eqb (Body.action body) "end") eqn:Hend.
  - unfold end_overtime. run.
    destruct (find _ (overtime_records db)) as [o|]; [|cbn; auto].
    destruct (JS.max0 _); run; [cbn; auto|].
    match goal with
    | |- context [find ?p ?l] => destruct (find p l)
    end; cbn [fst with_overtime work_schedules overtime_records attendance_records];
      (split; [reflexivity|]; split; [reflexivity|]; right;
       eexists; eexists; split; [reflexivity|]; left; eexists; eexists; reflexivity).
  - destruct (_ || _); [|cbn; auto].
    unfold decide. run.
    destruct (isAdmin (Some user)) eqn:Hadm; cbn [negb]; [|cbn; auto].
    destruct (negb (JS.truthy _)); [cbn; auto|].
    match goal with
    | |- context [find ?p ?l] => destruct (find p l)
    end; cbn [fst with_overtime work_schedules overtime_records attendance_records];
      (split; [reflexivity|]; split; [reflexivity|]; right;
       eexists; eexists; split; [reflexivity|]; right; eexists; eexists;
       split; [reflexivity|]; split; [reflexivity|]; split; [reflexivity|];
       split; [reflexivity|]; split; reflexivity).
Qed.

(** What a successful start found and left. *)
Lemma overtime_start_success now user reason db db' code rec msg :
  POST now (Some user) reason db = (db', Success code rec msg) ->
  exists a,
    JS.truthy reason = true /\
    find (attendance_of (User.id user) (today now)) (attendance_records db) = Some a /\
    JS.truthy_opt (AttendanceRow.check_in_time a) = true /\
    JS.truthy_opt (AttendanceRow.check_out_time a) = true /\
    JS.Qltb (AttendanceRow.work_hours a)
            (minimumHours (find (fun s => Z.eqb (WorkScheduleRow.day_of_week s)
                                               (dayOfWeek now))
                                (work_schedules db))) = false /\
    find (open_overtime_of (User.id user) (today now)) (overtime_records db) = None /\
    db' = with_overtime db
            (overtime_records db ++
             [OvertimeRow.mk ("ot-" ++ JS.show (millis now)) (User.id user) (today now)
                (timeString now) None 0 reason pending None None]).
Proof.
  unfold POST. run.
  destruct (JS.truthy reason) eqn:Hr; cbn [negb]; [|discriminate].
  destruct (find _ (attendance_records db)) as [a|] eqn:Ha; [|discriminate].
  destruct (JS.truthy_opt (AttendanceRow.check_in_time a)) eqn:Hci; cbn [negb];
    [|discriminate].
  destruct (JS.truthy_opt (AttendanceRow.check_out_time a)) eqn:Hco; cbn [negb];
    [|discriminate].
  destruct (JS.Qltb _ _) eqn:Hmin; [discriminate|].
  destruct (find _ (overtime_records db)) as [o|] eqn:Ho; [discriminate|].
  destruct (existsb _ (overtime_records db)); [discriminate|].
  match goal with
  | |- context [find ?p ?l] => destruct (find p l)
  end; [|discriminate].
  intros H. injection H as <- _ _ _. exists a.
  split; [reflexivity|]. split; [reflexivity|]. split; [exact Hci|]. split; [exact Hco|].
  split; [exact Hmin|]. split; reflexivity.
Qed.

(** A start request while an open record exists for the caller and today. *)
Lemma overtime_start_again now user reason db a o :
  JS.truthy reason = true ->
  find (attendance_of (User.id user) (today now)) (attendance_records db) = Some a ->
  JS.truthy_opt (AttendanceRow.check_in_time a) = true ->
  JS.truthy_opt (AttendanceRow.check_out_time a) = true ->
  JS.Qltb (AttendanceRow.work_hours a)
          (minimumHours (find (fun s => Z.eqb (WorkScheduleRow.day_of_week s)
                                             (dayOfWeek now))
                              (work_schedules db))) = false ->
  find (open_overtime_of (User.id user) (today now)) (overtime_records db) = Some o ->
  POST now (Some user) reason db = (db, Failed 400 OvertimeAlreadyOpen).
Proof.
  intros Hr Ha Hci Hco Hmin Ho. unfold POST. run.
  rewrite Hr. cbn [negb]. rewrite Ha, Hci, Hco. cbn [negb]. rewrite Hmin, Ho.
  reflexivity.
Qed.

Lemma open_overtime_of_iff u d o :
  open_overtime_of u d o = true <->
  OvertimeRow.user_id o = u /\ OvertimeRow.date o = d /\ OvertimeRow.end_time o = None.
Proof.
  unfold open_overtime_of. rewrite !andb_true_iff, !String.eqb_eq.
  destruct (OvertimeRow.end_time o); intuition congruence.
Qed.

(** An approve / reject request of an administrator on an existing record. *)
Lemma decide_existing now user body db row :
  User.role user = admin ->
  Body.action body = "approve" \/ Body.action body = "reject" ->
  JS.truthy (Body.overtimeId body) = true ->
  find (fun o => String.eqb (OvertimeRow.id o) (Body.overtimeId body))
       (overtime_records db) = Some row ->
  let status := if String.eqb (Body.action body) "approve" then approved else rejected in
  let stamp := set_decision status (User.id user) (millis now) in
  PUT now (Some user) body db =
  (with_overtime db
     (map (fun o => if String.eqb (OvertimeRow.id o) (Body.overtimeId body)
                    then stamp o else o)
          (overtime_records db)),
   Success 200 (mapRowToOvertimeRecord (stamp row))
     (match status with approved => "Lembur disetujui" | _ => "Lembur ditolak" end)).
Proof.
  intros Hrole Hact Hid Hfind. cbv zeta. unfold PUT. run.
  assert (E1 : String.eqb (Body.action body) "end" = false)
    by (destruct Hact as [-> | ->]; reflexivity).
  assert (E2 : String.eqb (Body.action body) "approve"
               || String.eqb (Body.action body) "reject" = true)
    by (destruct Hact as [-> | ->]; reflexivity).
  rewrite E1, E2. unfold decide, isAdmin. rewrite Hrole, Hid. cbn [negb]. run.
  cbn [overtime_records with_overtime].
  rewrite find_map_stable, Hfind.
  2:{ intros o. destruct (String.eqb (OvertimeRow.id o) _) eqn:E; [|exact E]. exact E. }
  cbn [option_map].
  apply find_some in Hfind as [_ Hrow]. rewrite Hrow. reflexivity.
Qed.

(** C8 -- A reject decision of an administrator sets the record's status to
    [rejected] and records the administrator as approver; start time, end
    time and duration of the record, and of every other row, stay as they
    were.  Nothing is asked of the record's end time: the decision succeeds
    the same way on an open record and on a closed one. *)
Theorem C8_reject_keeps_times now user body db row :
  User.role user = admin ->
  Body.action body = "reject" ->
  JS.truthy (Body.overtimeId body) = true ->
  find (fun o => String.eqb (OvertimeRow.id o) (Body.overtimeId body))
       (overtime_records db) = Some row ->
  exists db' rec,
    PUT now (Some user) body db = (db', Success 200 rec "Lembur ditolak") /\
    OvertimeRecord.status rec = rejected /\
    OvertimeRecord.approvedBy rec = Some (User.id user) /\
    OvertimeRecord.startTime rec = OvertimeRow.start_time row /\
    OvertimeRecord.endTime rec = OvertimeRow.end_time row /\
    OvertimeRecord.duration rec = OvertimeRow.duration row /\
    find (fun o => String.eqb (OvertimeRow.id o) (Body.overtimeId body))
         (overtime_records db')
    = Some (set_decision rejected (User.id user) (millis now) row) /\
    (forall i o,
        nth_error (overtime_records db) i = Some o ->
        exists o',
          nth_error (overtime_records db') i = Some o' /\
          OvertimeRow.id o' = OvertimeRow.id o /\
          OvertimeRow.start_time o' = OvertimeRow.start_time o /\
          OvertimeRow.end_time o' = OvertimeRow.end_time o /\
          OvertimeRow.duration o' = OvertimeRow.duration o).
Proof.
  intros Hrole Hact Hid Hfind.
  pose proof (decide_existing now user body db row Hrole (or_intror Hact) Hid Hfind) as H.
  cbv zeta in H. rewrite Hact in H.
  change (String.eqb "reject" "approve") with false in H. cbv iota in H.
  eexists. eexists. split; [exact H|]. cbn.
  repeat (split; [reflexivity|]).
  split.
  - rewrite find_map_stable, Hfind.
    2:{ intros o. destruct (String.eqb (OvertimeRow.id o) _) eqn:E; [|exact E]. exact E. }
    cbn [option_map]. apply find_some in Hfind as [_ Hrow]. rewrite Hrow. reflexivity.
  - intros i o Hi. rewrite nth_error_map, Hi. cbn [option_map].
    eexists. split; [reflexivity|].
    destruct (String.eqb _ _); cbn; repeat split; reflexivity.
Qed.

(** The scenario: the open overtime record of 16:05 is rejected at 17:00. *)
Lemma C8_reject_keeps_times_witness :
  exists db' rec,
    PUT (Scenario.at_ 17 0) (Some Scenario.hr) Scenario.rejectBody Scenario.db_overtime
    = (db', Success 200 rec "Lembur ditolak") /\
    OvertimeRecord.status rec = rejected /\
    OvertimeRecord.approvedBy rec = Some "admin-001" /\
    OvertimeRecord.startTime rec = "16:05" /\
    OvertimeRecord.endTime rec = None /\
    OvertimeRecord.duration rec = 0.
Proof.
  destruct (C8_reject_keeps_times (Scenario.at_ 17 0) Scenario.hr Scenario.rejectBody
              Scenario.db_overtime
              (OvertimeRow.mk "ot-965" "emp-001" "2026-01-05" "16:05" None 0
                 "stock opname" pending None None)
              eq_refl eq_refl eq_refl eq_refl)
    as (db' & rec & H1 & H2 & H3 & H4 & H5 & H6 & _).
  exists db', rec. repeat split; assumption.
Defined.

(** How the start request resolves its threshold. *)
Lemma minimumHours_resolution (schedule : option WorkScheduleRow.t) :
  match schedule with
  | None => minimumHours schedule = 8
  | Some s =>
      (~ WorkScheduleRow.min_work_hours s == 0 ->
       minimumHours schedule = WorkScheduleRow.min_work_hours s) /\
      (WorkScheduleRow.min_work_hours s == 0 -> minimumHours schedule = 8)
  end.
Proof.
  destruct schedule as [s|]; [|reflexivity]. unfold minimumHours.
  destruct (Qeq_bool (WorkScheduleRow.min_work_hours s) 0) eqn:E.
  - apply Qeq_bool_iff in E. split; [intros H; contradiction | reflexivity].
  - split; [reflexivity|]. intros H. apply Qeq_bool_iff in H. congruence.
Qed.

(** Past the check-in and check-out guards, the start request fails with
    MinimumHoursNotMet exactly when the work hours are below the threshold it
    resolved. *)
Lemma overtime_minimum_gate now user reason db a :
  JS.truthy reason = true ->
  find (attendance_of (User.id user) (today now)) (attendance_records db) = Some a ->
  JS.truthy_opt (AttendanceRow.check_in_time a) = true ->
  JS.truthy_opt (AttendanceRow.check_out_time a) = true ->
  let threshold :=
    minimumHours (find (fun s => Z.eqb (WorkScheduleRow.day_of_week s) (dayOfWeek now))
                       (work_schedules db)) in
  (AttendanceRow.work_hours a < threshold <->
   exists m r, snd (POST now (Some user) reason db) = Failed 400 (MinimumHoursNotMet m r)).
Proof.
  intros Hr Ha Hci Hco threshold. unfold POST. run.
  rewrite Hr. cbn [negb]. rewrite Ha, Hci, Hco. cbn [negb]. fold threshold.
  destruct (JS.Qltb _ threshold) eqn:E.
  - apply Qltb_lt in E. split; [|intros _; exact E]. intros _. cbn. eauto.
  - apply Qltb_ge in E. split; [intros H; lra|]. intros (m & r & H). exfalso.
    destruct (find _ (overtime_records db)); [discriminate|].
    destruct (existsb _ _); [discriminate|]. cbn in H.
    match type of H with
    | context [find ?p ?l] => destruct (find p l)
    end; discriminate.
Qed.


(** The scenario: the overtime started at 16:05 is closed at 18:05 with a
    duration of 2 hours; its status is still pending. *)
Example scenario_end_overtime :
  exists rec,
    snd (PUT (Scenario.at_ 18 5) (Some Scenario.budi) (Body.mk "end" "") Scenario.db_overtime)
    = Success 200 rec "Lembur selesai" /\
    OvertimeRecord.endTime rec = Some "18:05" /\
    OvertimeRecord.duration rec == 2 /\
    OvertimeRecord.status rec = pending.
Proof. eexists. repeat split; reflexivity. Qed.

End OvertimeFacts.

(** ** Invariants of the tables under every request *)
Section Invariants.

Import Route.

Lemma step_schedules db db' : step db db' -> work_schedules db' = work_schedules db.
Proof.
  intros [now u body d | now u reason d | now u body d].
  - apply attendance_POST_effect.
  - apply overtime_POST_effect.
  - apply overtime_PUT_effect.
Qed.

Lemma reachable_schedules db0 db :
  reachable db0 db -> work_schedules db = work_schedules db0.
Proof.
  induction 1 as [|db db' _ IH Hstep]; [reflexivity|].
  rewrite (step_schedules _ _ Hstep). exact IH.
Qed.

(** One attendance request on the attendance table. *)
Lemma step_attendance_cases db db' :
  step db db' ->
  attendance_records db' = attendance_records db \/
  (exists id f, keeps_row f /\
     attendance_records db' =
     map (fun a => if String.eqb (AttendanceRow.id a) id then f a else a)
         (attendance_records db)) \/
  (exists row,
     existsb (fun a => String.eqb (AttendanceRow.id a) (AttendanceRow.id row)
                       || attendance_of (AttendanceRow.user_id row)
                                        (AttendanceRow.date row) a)
             (attendance_records db) = false /\
     attendance_records db' = (attendance_records db ++ [row])%list).
Proof.
  intros [now u body d | now u reason d | now u body d].
  - apply attendance_POST_effect.
  - left. apply overtime_POST_effect.
  - left. apply overtime_PUT_effect.
Qed.

Lemma attendance_of_key u d a :
  attendance_of u d a = true <-> (AttendanceRow.user_id a, AttendanceRow.date a) = (u, d).
Proof.
  unfold attendance_of. rewrite andb_true_iff, !String.eqb_eq. split.
  - intros [-> ->]. reflexivity.
  - intros H. injection H. auto.
Qed.

Lemma step_unique_user_date db db' :
  step db db' -> unique_user_date db -> unique_user_date db'.
Proof.
  intros Hstep Hu. unfold unique_user_date in *.
  destruct (step_attendance_cases _ _ Hstep)
    as [-> | [(id & f & Hf & ->) | (row & Hex & ->)]].
  - exact Hu.
  - rewrite map_map.
    erewrite map_ext; [exact Hu|]. intros a. cbn beta.
    destruct (String.eqb _ _); [|reflexivity].
    destruct (Hf a) as (_ & -> & -> & _). reflexivity.
  - rewrite map_app. apply NoDup_app; [exact Hu | repeat constructor; intros [] |].
    intros k Hk [<-|[]]. apply in_map_iff in Hk as (a & Hkey & Hin).
    assert (Ho : attendance_of (AttendanceRow.user_id row) (AttendanceRow.date row) a = true)
      by (apply attendance_of_key; exact Hkey).
    assert (Hf : existsb
                   (fun a => String.eqb (AttendanceRow.id a) (AttendanceRow.id row)
                             || attendance_of (AttendanceRow.user_id row)
                                              (AttendanceRow.date row) a)
                   (attendance_records db) = true).
    { apply existsb_exists. exists a. split; [exact Hin|]. rewrite Ho. apply orb_true_r. }
    congruence.
Qed.

Lemma step_checked_in u d db db' :
  step db db' -> checked_in u d db -> checked_in u d db'.
Proof.
  intros Hstep (row & Hfind & Hin). unfold checked_in.
  destruct (step_attendance_cases _ _ Hstep)
    as [-> | [(id & f & Hf & ->) | (new & _ & ->)]].
  - exists row. auto.
  - rewrite find_map_stable, Hfind.
    2:{ intros a. destruct (String.eqb _ _); [|reflexivity].
        unfold attendance_of. destruct (Hf a) as (_ & -> & -> & _). reflexivity. }
    cbn [option_map]. eexists. split; [reflexivity|].
    destruct (String.eqb _ _); [apply Hf|]; exact Hin.
  - exists row. split; [|exact Hin]. now apply find_app_first.
Qed.

Lemma reachable_unique_user_date db0 db :
  unique_user_date db0 -> reachable db0 db -> unique_user_date db.
Proof.
  intros H0. induction 1 as [|db db' _ IH Hstep]; [exact H0|].
  exact (step_unique_user_date _ _ Hstep IH).
Qed.

Lemma reachable_checked_in u d db0 db :
  checked_in u d db0 -> reachable db0 db -> checked_in u d db.
Proof.
  intros H0. induction 1 as [|db db' _ IH Hstep]; [exact H0|].
  exact (step_checked_in _ _ _ _ Hstep IH).
Qed.

(** A check-in request from an employee who is already checked in today. *)
Lemma check_in_again now user body db schedule :
  Attendance.Body.action body = "check-in" ->
  find (fun s => Z.eqb (WorkScheduleRow.day_of_week s) (dayOfWeek now))
       (work_schedules db) = Some schedule ->
  checked_in (User.id user) (today now) db ->
  Attendance.POST now (Some user) body db = (db, Failed 400 AlreadyCheckedIn).
Proof.
  intros Hact Hs (row & Hfind & Hin).
  unfold Attendance.POST, try_catch, bind, select_schedule. rewrite Hs, Hact.
  change (String.eqb "check-in" "check-in") with true. cbv iota.
  unfold Attendance.check_in, bind, select_attendance, reply. rewrite Hfind, Hin.
  reflexivity.
Qed.

(** C1 -- There is at most one attendance row per (employee, date) in every
    state the requests can reach; and once a check-in has succeeded for
    (employee, date), every later check-in of that employee on that date
    (same date, hence same weekday), whatever requests came in between, fails
    with AlreadyCheckedIn and leaves the database as it was. *)
Theorem C1_single_record_and_second_check_in :
  (forall db0 db, unique_user_date db0 -> reachable db0 db -> unique_user_date db) /\
  (forall now1 now2 user body1 body2 db db1 db2 code rec msg,
      Attendance.Body.action body1 = "check-in" ->
      Attendance.Body.action body2 = "check-in" ->
      Attendance.POST now1 (Some user) body1 db = (db1, Success code rec msg) ->
      reachable db1 db2 ->
      today now2 = today now1 ->
      dayOfWeek now2 = dayOfWeek now1 ->
      Attendance.POST now2 (Some user) body2 db2 = (db2, Failed 400 AlreadyCheckedIn)).
Proof.
  split; [exact reachable_unique_user_date|].
  intros now1 now2 user body1 body2 db db1 db2 code rec msg Ha1 Ha2 Hpost Hreach Hday Hdow.
  destruct (check_in_success _ _ _ _ _ _ _ _ Ha1 Hpost)
    as (schedule & row & Hs & Hsched & _ & Hfind & Hci & _ & _).
  apply check_in_again with (schedule := schedule); [exact Ha2 | |].
  - rewrite (reachable_schedules _ _ Hreach), Hsched, Hdow. exact Hs.
  - apply reachable_checked_in with (db0 := db1); [|exact Hreach].
    rewrite Hday. exists row. split; [exact Hfind|].
    rewrite Hci. apply timeOfDay_truthy.
Qed.

(** The scenario: the table reached after check-in and check-out has one row
    for the day, and a second check-in at 08:30, made after the check-out, is
    refused. *)
Lemma C1_single_record_witness :
  unique_user_date Scenario.db_out /\
  Attendance.POST (Scenario.at_ 8 30) (Some Scenario.budi) Scenario.checkInBody
                  Scenario.db_out
  = (Scenario.db_out, Failed 400 AlreadyCheckedIn).
Proof.
  assert (R1 : reachable Scenario.db0 Scenario.db_in)
    by (apply reach_step with (db := Scenario.db0); [apply reach_init | apply step_attendance]).
  assert (R2 : reachable Scenario.db_in Scenario.db_out)
    by (apply reach_step with (db := Scenario.db_in); [apply reach_init | apply step_attendance]).
  split.
  - apply (proj1 C1_single_record_and_second_check_in Scenario.db0).
    + constructor.
    + apply reach_step with (db := Scenario.db_in); [exact R1 | apply step_attendance].
  - refine (proj2 C1_single_record_and_second_check_in (Scenario.at_ 8 0) (Scenario.at_ 8 30)
              Scenario.budi Scenario.checkInBody Scenario.checkInBody Scenario.db0
              Scenario.db_in Scenario.db_out 200%nat _ _ _ _ _ R2 _ _); reflexivity.
Defined.

(** One request on the overtime table. *)
Lemma step_overtime_cases db db' :
  step db db' ->
  overtime_records db' = overtime_records db \/
  (exists row,
     find (open_overtime_of (OvertimeRow.user_id row) (OvertimeRow.date row))
          (overtime_records db) = None /\
     OvertimeRow.status row = pending /\
     overtime_records db' = (overtime_records db ++ [row])%list) \/
  (exists id f,
     overtime_records db' =
     map (fun o => if String.eqb (OvertimeRow.id o) id then f o else o)
         (overtime_records db) /\
     ((exists time duration, f = set_end time duration) \/
      (exists status admin_id at_, status <> pending /\
                                   f = set_decision status admin_id at_))).
Proof.
  intros [now u body d | now u reason d | now u body d].
  - left. apply attendance_POST_effect.
  - destruct (overtime_POST_effect now u reason d) as (_ & _ & [H | (user & _ & Hnone & H)]).
    + left. exact H.
    + right. left.
      exists (OvertimeRow.mk ("ot-" ++ JS.show (millis now)) (User.id user) (today now)
                (timeString now) None 0 reason pending None None).
      split; [exact Hnone|]. split; [reflexivity | exact H].
  - destruct (overtime_PUT_effect now u body d)
      as (_ & _ & [H | (id & f & H & [Hend | (st & user & _ & _ & _ & _ & Hst & Hf)])]).
    + left. exact H.
    + right. right. exists id, f. split; [exact H|]. left. exact Hend.
    + right. right. exists id, f. split; [exact H|]. right.
      exists st, (User.id user), (millis now). split; [|exact Hf].
      rewrite Hst. destruct (String.eqb _ _); discriminate.
Qed.

Lemma step_one_open_overtime db db' :
  step db db' -> one_open_overtime db -> one_open_overtime db'.
Proof.
  intros Hstep Hone u d. specialize (Hone u d).
  destruct (step_overtime_cases _ _ Hstep)
    as [-> | [(row & Hnone & _ & ->) | (id & f & -> & Hf)]].
  - exact Hone.
  - rewrite filter_app, length_app. cbn [filter].
    destruct (open_overtime_of u d row) eqn:E; cbn [length]; [|lia].
    apply open_overtime_of_iff in E as (<- & <- & _).
    rewrite (filter_none _ _ Hnone). cbn [length]. lia.
  - etransitivity; [|exact Hone]. apply filter_map_shrinks.
    intros o. destruct (String.eqb _ _); [|auto].
    destruct Hf as [(t & q & ->) | (st & ad & at_ & _ & ->)].
    + unfold open_overtime_of. cbn. rewrite andb_false_r. discriminate.
    + unfold open_overtime_of. cbn. auto.
Qed.

Lemma reachable_one_open_overtime db0 db :
  one_open_overtime db0 -> reachable db0 db -> one_open_overtime db.
Proof.
  intros H0. induction 1 as [|db db' _ IH Hstep]; [exact H0|].
  exact (step_one_open_overtime _ _ Hstep IH).
Qed.

(** C7 -- There is at most one overtime row without end time per (employee,
    date) in every state the requests can reach; and when a start has
    succeeded, the next start of that employee on that date (a request with a
    reason, as the first one was) fails with OvertimeAlreadyOpen and creates
    no record. *)
Theorem C7_one_open_overtime :
  (forall db0 db, one_open_overtime db0 -> reachable db0 db -> one_open_overtime db) /\
  (forall now1 now2 user reason1 reason2 db db1 code rec msg,
      Overtime.POST now1 (Some user) reason1 db = (db1, Success code rec msg) ->
      JS.truthy reason2 = true ->
      today now2 = today now1 ->
      dayOfWeek now2 = dayOfWeek now1 ->
      Overtime.POST now2 (Some user) reason2 db1 = (db1, Failed 400 OvertimeAlreadyOpen)).
Proof.
  split; [exact reachable_one_open_overtime|].
  intros now1 now2 user reason1 reason2 db db1 code rec msg Hpost Hr2 Hday Hdow.
  destruct (overtime_start_success _ _ _ _ _ _ _ _ Hpost)
    as (a & _ & Ha & Hci & Hco & Hmin & Hnone & ->).
  eapply overtime_start_again with (a := a); try assumption.
  - rewrite Hday. exact Ha.
  - rewrite Hdow. exact Hmin.
  - rewrite Hday. cbn [overtime_records with_overtime].
    rewrite (find_app_last _ _ _ Hnone).
    unfold open_overtime_of. cbn. rewrite !String.eqb_refl. reflexivity.
Qed.

(** The scenario: overtime started at 16:05; a second start at 16:10. *)
Lemma C7_one_open_overtime_witness :
  one_open_overtime Scenario.db_overtime /\
  Overtime.POST (Scenario.at_ 16 10) (Some Scenario.budi) "lagi" Scenario.db_overtime
  = (Scenario.db_overtime, Failed 400 OvertimeAlreadyOpen).
Proof.
  split.
  - apply (proj1 C7_one_open_overtime Scenario.db0).
    + intros u d. cbn. lia.
    + apply reach_step with (db := Scenario.db_out); [|apply step_overtime_start].
      apply reach_step with (db := Scenario.db_in); [|apply step_attendance].
      apply reach_step with (db := Scenario.db0); [apply reach_init | apply step_attendance].
  - refine (proj2 C7_one_open_overtime (Scenario.at_ 16 5) (Scenario.at_ 16 10)
              Scenario.budi "stock opname" "lagi" Scenario.db_out Scenario.db_overtime
              201%nat _ _ _ _ _ _); reflexivity.
Defined.

Lemma find_of_In {A : Type} (p : A -> bool) (l : list A) (x : A) :
  In x l -> p x = true -> exists y, find p l = Some y.
Proof.
  intros Hin Hp. destruct (find p l) as [y|] eqn:E; [eauto|].
  rewrite (find_none _ _ E _ Hin) in Hp. discriminate.
Qed.

(** C9 (as amended) -- The status of an overtime record is changed by the
    approve / reject request of an administrator only, and that request sets
    it to [approved] or [rejected] whatever it was before: a decided record
    can be decided again.  Attendance requests, start, end and requests of
    non-administrators leave the status of every record as it is, and no
    request brings a status back to [pending]. *)
Theorem C9_status_moves_by_decision_only :
  (forall db db' i o,
      step db db' ->
      nth_error (overtime_records db) i = Some o ->
      exists o',
        nth_error (overtime_records db') i = Some o' /\
        OvertimeRow.id o' = OvertimeRow.id o /\
        (OvertimeRow.status o' = OvertimeRow.status o \/
         OvertimeRow.status o' = approved \/ OvertimeRow.status o' = rejected)) /\
  (forall now currentUser body db,
      overtime_records (fst (Attendance.POST now currentUser body db))
      = overtime_records db) /\
  (forall now currentUser reason db i o,
      nth_error (overtime_records db) i = Some o ->
      nth_error (overtime_records (fst (Overtime.POST now currentUser reason db))) i
      = Some o) /\
  (forall now currentUser body db i o,
      isAdmin currentUser = false \/ Overtime.Body.action body = "end" ->
      nth_error (overtime_records db) i = Some o ->
      exists o',
        nth_error (overtime_records (fst (Overtime.PUT now currentUser body db))) i
        = Some o' /\
        OvertimeRow.status o' = OvertimeRow.status o) /\
  (forall now user body db i o,
      User.role user = admin ->
      Overtime.Body.action body = "approve" \/ Overtime.Body.action body = "reject" ->
      JS.truthy (Overtime.Body.overtimeId body) = true ->
      nth_error (overtime_records db) i = Some o ->
      OvertimeRow.id o = Overtime.Body.overtimeId body ->
      exists o',
        nth_error (overtime_records (fst (Overtime.PUT now (Some user) body db))) i
        = Some o' /\
        OvertimeRow.status o' =
        (if String.eqb (Overtime.Body.action body) "approve" then approved else rejected)).
Proof.
  split; [|split; [|split; [|split]]].
  - intros db db' i o Hstep Hi.
    destruct (step_overtime_cases _ _ Hstep)
      as [-> | [(row & _ & _ & ->) | (id & f & -> & Hf)]].
    + exists o. auto.
    + exists o. split; [|auto]. rewrite nth_error_app1; [exact Hi|].
      apply nth_error_Some. congruence.
    + rewrite nth_error_map, Hi. cbn [option_map]. eexists. split; [reflexivity|].
      destruct (String.eqb _ _); [|auto].
      destruct Hf as [(t & q & ->) | (st & ad & at_ & Hst & ->)]; cbn.
      * auto.
      * split; [reflexivity|]. destruct st; auto. congruence.
  - intros. apply attendance_POST_effect.
  - intros now u reason db i o Hi.
    destruct (overtime_POST_effect now u reason db) as (_ & _ & [-> | (user & _ & _ & ->)]).
    + exact Hi.
    + rewrite nth_error_app1; [exact Hi|]. apply nth_error_Some. congruence.
  - intros now u body db i o Hcond Hi.
    destruct (overtime_PUT_effect now u body db)
      as (_ & _ & [-> | (id & f & -> & [(t & q & ->) | (st & user & Hadm & _ & Hend & _)])]).
    + exists o. auto.
    + rewrite nth_error_map, Hi. cbn [option_map]. eexists. split; [reflexivity|].
      destruct (String.eqb _ _); reflexivity.
    + exfalso. destruct Hcond as [Hna | Hact]; [congruence|].
      rewrite Hact in Hend. discriminate.
  - intros now user body db i o Hrole Hact Hid Hi Hido.
    assert (Hin : In o (overtime_records db)) by (eapply nth_error_In; exact Hi).
    destruct (find_of_In (fun r => String.eqb (OvertimeRow.id r) (Overtime.Body.overtimeId body))
                _ o Hin) as (row & Hfind).
    { rewrite Hido. apply String.eqb_refl. }
    rewrite (decide_existing now user body db row Hrole Hact Hid Hfind).
    cbn [fst overtime_records with_overtime].
    rewrite nth_error_map, Hi. cbn [option_map]. rewrite Hido, String.eqb_refl.
    eexists. split; reflexivity.
Qed.

(** The scenario: the record approved at 17:00 is decided again. *)
Lemma C9_status_moves_witness :
  exists o',
    nth_error (overtime_records
                 (fst (Overtime.PUT (Scenario.at_ 17 0) (Some Scenario.hr)
                         Scenario.approveBody Scenario.db_overtime))) 0
    = Some o' /\
    OvertimeRow.status o' = approved.
Proof.
  exact (proj2 (proj2 (proj2 (proj2 C9_status_moves_by_decision_only)))
           (Scenario.at_ 17 0) Scenario.hr Scenario.approveBody Scenario.db_overtime 0%nat
           (OvertimeRow.mk "ot-965" "emp-001" "2026-01-05" "16:05" None 0
              "stock opname" pending None None)
           eq_refl (or_introl eq_refl) eq_refl eq_refl eq_refl).
Defined.

(** C9 (as stated) fails: the record approved at 17:00 is rejected at 17:30 by
    a second decision, and its status changes from [approved] to [rejected]. *)
Lemma C9_approved_record_rejected_later :
  map OvertimeRow.status (overtime_records Scenario.db_approved) = [approved] /\
  map OvertimeRow.status
      (overtime_records
         (fst (Overtime.PUT (Scenario.at_ 17 30) (Some Scenario.hr) Scenario.rejectBody
                 Scenario.db_approved)))
  = [rejected] /\
  exists rec,
    snd (Overtime.PUT (Scenario.at_ 17 30) (Some Scenario.hr) Scenario.rejectBody
           Scenario.db_approved)
    = Success 200 rec "Lembur ditolak" /\ OvertimeRecord.status rec = rejected.
Proof.
  split; [reflexivity|]. split; [reflexivity|]. eexists. split; reflexivity.
Qed.

End Invariants.

(** ** The statistics roll-up *)
Section StatsFacts.

Import DataStore.

Lemma hasStatus_count (s : AttendanceStatus) (l : list AttendanceRecord.t) :
  length (filter (hasStatus s) l) =
  count_occ AttendanceStatus_eq_dec (map AttendanceRecord.status l) s.
Proof.
  induction l as [|a l IH]; [reflexivity|]. cbn [filter map count_occ].
  unfold hasStatus at 1.
  destruct (AttendanceStatus_eq_dec (AttendanceRecord.status a) s) as [E|E].
  - rewrite E. replace (AttendanceStatus_eqb s s) with true by (destruct s; reflexivity).
    cbn [length]. now rewrite IH.
  - replace (AttendanceStatus_eqb (AttendanceRecord.status a) s) with false; [exact IH|].
    destruct (AttendanceRecord.status a), s; try reflexivity; congruence.
Qed.

Lemma fold_left_workHours (l : list AttendanceRecord.t) (acc : Q) :
  fold_left (fun sum a => sum + AttendanceRecord.workHours a) l acc ==
  acc + Qsum (map AttendanceRecord.workHours l).
Proof.
  revert acc. induction l as [|a l IH]; intros acc; cbn [fold_left map Qsum fold_right].
  - lra.
  - rewrite IH. fold (Qsum (map AttendanceRecord.workHours l)). lra.
Qed.

Lemma strict_eq_iff (x : option Z) (target : Z) : strict_eq x target = true <-> x = Some target.
Proof.
  destruct x as [v|]; cbn.
  - rewrite Z.eqb_eq. split; congruence.
  - split; discriminate.
Qed.

Lemma selected_In now userId month year records a :
  In a (selected now userId month year records) <->
  In a records /\
  (forall u, userId = Some u -> JS.truthy u = true -> AttendanceRecord.userId a = u) /\
  getMonth (AttendanceRecord.date a) = Some (targetMonth now month) /\
  getFullYear (AttendanceRecord.date a) = Some (targetYear now year).
Proof.
  unfold selected. fold (targetMonth now month). fold (targetYear now year).
  rewrite filter_In. unfold inMonth. rewrite andb_true_iff, !strict_eq_iff.
  destruct userId as [u|].
  - destruct (JS.truthy u) eqn:Hu.
    + rewrite filter_In, String.eqb_eq. split.
      * intros [[Hin Hid] Hm]. split; [exact Hin|]. split; [|exact Hm].
        intros u' E _. congruence.
      * intros (Hin & Hid & Hm). split; [|exact Hm]. split; [exact Hin|]. now apply Hid.
    + split.
      * intros [Hin Hm]. split; [exact Hin|]. split; [|exact Hm].
        intros u' E Hu'. congruence.
      * intros (Hin & _ & Hm). auto.
  - split.
    + intros [Hin Hm]. split; [exact Hin|]. split; [|exact Hm]. discriminate.
    + intros (Hin & _ & Hm). auto.
Qed.

Lemma count_three (l : list AttendanceStatus) :
  (count_occ AttendanceStatus_eq_dec l present + count_occ AttendanceStatus_eq_dec l late
   + count_occ AttendanceStatus_eq_dec l absent <= length l)%nat.
Proof.
  induction l as [|s l IH]; cbn [count_occ length]; [lia|].
  destruct s;
    repeat match goal with
           | |- context [AttendanceStatus_eq_dec ?a ?b] =>
               destruct (AttendanceStatus_eq_dec a b); try congruence
           end; lia.
Qed.

(** C10 -- [getAttendanceStats] keeps the records of the given employee whose
    date falls in the target month (index as [Date.getMonth], zero-based) and
    year; it counts them per status (a status that does not occur counts 0),
    sums their work hours and returns their number as [total].  Whenever the
    records kept are exactly a [present] one with 8 hours and a [late] one
    with 7.5 hours, in either order, the result is
    [{present:1, late:1, absent:0, totalWorkHours:15.5, total:2}]. *)
Theorem C10_attendance_stats :
  (forall now records userId month year,
      let kept := selected now userId month year records in
      let stats := getAttendanceStats now records userId month year in
      let statuses := map AttendanceRecord.status kept in
      (forall a,
          In a kept <->
          In a records /\
          (forall u, userId = Some u -> JS.truthy u = true -> AttendanceRecord.userId a = u) /\
          getMonth (AttendanceRecord.date a) = Some (targetMonth now month) /\
          getFullYear (AttendanceRecord.date a) = Some (targetYear now year)) /\
      Stats.present stats = count_occ AttendanceStatus_eq_dec statuses present /\
      Stats.late stats = count_occ AttendanceStatus_eq_dec statuses late /\
      Stats.absent stats = count_occ AttendanceStatus_eq_dec statuses absent /\
      (~ In present statuses -> Stats.present stats = 0%nat) /\
      (~ In late statuses -> Stats.late stats = 0%nat) /\
      (~ In absent statuses -> Stats.absent stats = 0%nat) /\
      Stats.totalWorkHours stats == Qsum (map AttendanceRecord.workHours kept) /\
      Stats.total stats = length kept /\
      (Stats.present stats + Stats.late stats + Stats.absent stats <= Stats.total stats)%nat)
  /\
  (forall now records userId month year r1 r2,
      selected now userId month year records = [r1; r2] \/
      selected now userId month year records = [r2; r1] ->
      AttendanceRecord.status r1 = present -> AttendanceRecord.workHours r1 == 8 ->
      AttendanceRecord.status r2 = late -> AttendanceRecord.workHours r2 == 15 # 2 ->
      let stats := getAttendanceStats now records userId month year in
      Stats.present stats = 1%nat /\ Stats.late stats = 1%nat /\ Stats.absent stats = 0%nat /\
      Stats.totalWorkHours stats == 31 # 2 /\ Stats.total stats = 2%nat).
Proof.
  split.
  - intros now records userId month year. cbv zeta.
    unfold getAttendanceStats. cbn [Stats.present Stats.late Stats.absent
                                      Stats.totalWorkHours Stats.total].
    rewrite !hasStatus_count.
    split; [intros a; apply selected_In|].
    split; [reflexivity|]. split; [reflexivity|]. split; [reflexivity|].
    split; [apply count_occ_not_In|]. split; [apply count_occ_not_In|].
    split; [apply count_occ_not_In|].
    split; [rewrite fold_left_workHours; lra|].
    split; [reflexivity|].
    rewrite <- (length_map AttendanceRecord.status). apply count_three.
  - intros now records userId month year r1 r2 Hsel Hs1 Hw1 Hs2 Hw2. cbv zeta.
    unfold getAttendanceStats.
    destruct Hsel as [-> | ->];
      cbn [Stats.present Stats.late Stats.absent Stats.totalWorkHours Stats.total
           filter fold_left];
      unfold hasStatus; rewrite Hs1, Hs2; cbn [AttendanceStatus_eqb length];
      (repeat (split; [reflexivity|])); (split; [|reflexivity]);
      rewrite Hw1, Hw2; reflexivity.
Qed.

(** The scenario: of the four stored records, the call for emp-001, month
    index 1, year 2026 keeps the two dated 2026-02. *)
Lemma C10_attendance_stats_witness :
  let stats := getAttendanceStats StatsScenario.now StatsScenario.records
                 (Some "emp-001") (Some 1%Z) (Some 2026%Z) in
  Stats.present stats = 1%nat /\ Stats.late stats = 1%nat /\ Stats.absent stats = 0%nat /\
  Stats.totalWorkHours stats == 31 # 2 /\ Stats.total stats = 2%nat.
Proof.
  exact (proj2 C10_attendance_stats StatsScenario.now StatsScenario.records
           (Some "emp-001") (Some 1%Z) (Some 2026%Z)
           (StatsScenario.day "att-2" "emp-001" "2026-02-02" present 8)
           (StatsScenario.day "att-4" "emp-001" "2026-02-03" late (15 # 2))
           (or_introl eq_refl) eq_refl (Qeq_refl _) eq_refl (Qeq_refl _)).
Defined.

End StatsFacts.

(** ** The operations of data-store.ts *)
Section DataStoreFacts.

Import DataStore.

Lemma findIndex_find {A : Type} (p : A -> bool) (l : list A) :
  findIndex p l = None <-> find p l = None.
Proof.
  induction l as [|x l IH]; cbn; [tauto|].
  destruct (p x); [split; discriminate|].
  destruct (findIndex p l); cbn; [|tauto].
  split; [discriminate|]. intros H. apply IH in H. discriminate.
Qed.

(** After [records[records.findIndex(q)] = x], the first element that
    satisfies [p] is [x] or the one it was. *)
Lemma find_assign_found {A : Type} (p q : A -> bool) (x : A) (l : list A) :
  p x = true ->
  find p (assign_found q x l) = Some x \/ find p (assign_found q x l) = find p l.
Proof.
  intros Hp. unfold assign_found.
  induction l as [|y l IH]; cbn; [auto|].
  destruct (q y); cbn.
  - rewrite Hp. auto.
  - destruct (findIndex q l) as [i|]; cbn; [|auto].
    destruct (p y); auto.
Qed.

Lemma find_assign_found_same {A : Type} (p : A -> bool) (x y : A) (l : list A) :
  p x = true -> find p l = Some y -> find p (assign_found p x l) = Some x.
Proof.
  intros Hp. unfold assign_found.
  induction l as [|z l IH]; cbn; [discriminate|].
  destruct (p z) eqn:Hz; cbn.
  - now rewrite Hp.
  - intros Hf. specialize (IH Hf).
    destruct (findIndex p l) as [i|]; cbn; rewrite Hz; exact IH.
Qed.

(** A second [checkIn] on the same date is refused and stores nothing. *)
Lemma DataStore_checkIn_twice now1 now2 userId photo1 photo2 loc1 loc2 st st1 r :
  checkIn now1 userId photo1 loc1 st = (st1, Value r) ->
  today now2 = today now1 ->
  checkIn now2 userId photo2 loc2 st1 = (st1, Error Route.AlreadyCheckedIn).
Proof.
  intros H Hday.
  assert (Hfound : exists e r',
             find (ofUser userId (today now1)) (attendance st1) = Some r' /\
             AttendanceRecord.checkIn r' = Some e).
  { unfold checkIn in H.
    destruct (find (ofUser userId (today now1)) (attendance st)) as [e|] eqn:He.
    - destruct e as [id u d [ci|] co s w ot]; [discriminate|].
      destruct (scheduleOf st now1) as [schedule|]; [|discriminate].
      injection H as <- _. cbn [attendance set_attendance].
      match goal with
      | |- context [assign_found (hasId ?i) ?rec (assign_found ?p ?rec ?l)] =>
          set (record := rec);
          assert (Hrec : ofUser userId (today now1) record = true)
            by (apply find_some in He as [_ Hu]; exact Hu);
          pose proof (find_assign_found_same _ record _ _ Hrec He) as H1;
          destruct (find_assign_found (ofUser userId (today now1)) (hasId i) record
                      (assign_found p record l) Hrec) as [H2 | H2]
      end.
      + eexists. exists record. split; [exact H2 | reflexivity].
      + eexists. exists record. split; [rewrite H2; exact H1 | reflexivity].
    - destruct (scheduleOf st now1) as [schedule|]; [|discriminate].
      injection H as <- _. cbn [attendance set_attendance].
      rewrite (find_app_last _ _ _ He).
      unfold ofUser at 1. cbn. rewrite !String.eqb_refl. cbn.
      eexists. eexists. split; reflexivity. }
  destruct Hfound as (e & r' & Hf & Hci).
  unfold checkIn. rewrite Hday, Hf.
  destruct r' as [id u d ci co s w ot]. cbn in Hci. rewrite Hci. reflexivity.
Qed.

(** [checkOut] has the same gate before the same floor. *)
Lemma DataStore_checkOut_gate now userId photo loc st existing event schedule :
  find (ofUser userId (today now)) (attendance st) = Some existing ->
  AttendanceRecord.checkIn existing = Some event ->
  AttendanceRecord.checkOut existing = None ->
  scheduleOf st now = Some schedule ->
  JS.lt (workHoursBetween (CheckEvent.time event) (timeString now))
        (JS.Fin (WorkSchedule.minWorkHours schedule)) = true ->
  exists remaining,
    checkOut now userId photo loc st =
    (st, Error (Route.MinimumHoursNotMet (WorkSchedule.minWorkHours schedule) remaining)).
Proof.
  intros Hf Hci Hco Hs Hlt. unfold checkOut. rewrite Hf, Hci, Hco, Hs, Hlt.
  eexists. reflexivity.
Qed.

(** [approveOvertime] writes the decision whatever the status was. *)
Lemma DataStore_approveOvertime_overrides overtimeId adminId approved_ st o :
  find (fun r => String.eqb (OvertimeRecord.id r) overtimeId) (overtime st) = Some o ->
  exists st' record,
    approveOvertime overtimeId adminId approved_ st = (st', Value record) /\
    OvertimeRecord.status record = (if approved_ then approved else rejected) /\
    OvertimeRecord.approvedBy record = Some adminId /\
    OvertimeRecord.startTime record = OvertimeRecord.startTime o /\
    OvertimeRecord.endTime record = OvertimeRecord.endTime o /\
    OvertimeRecord.duration record = OvertimeRecord.duration o /\
    find (fun r => String.eqb (OvertimeRecord.id r) overtimeId) (overtime st')
    = Some record.
Proof.
  intros Hf. unfold approveOvertime. rewrite Hf. eexists. eexists.
  split; [reflexivity|]. cbn. repeat (split; [reflexivity|]).
  apply find_assign_found_same with (y := o); [|exact Hf].
  cbn. apply find_some in Hf as [_ H]. exact H.
Qed.

(** With the Monday minimum at 0 and 5 hours worked, [startOvertime] of
    data-store.ts compares against the schedule's own minimum and starts the
    overtime. *)
Example DataStore_startOvertime_zero_minimum :
  exists st' record,
    startOvertime (Scenario.at_ 13 5) "emp-001" "stock opname" StoreScenario.storage_out
    = (st', Value record) /\
    OvertimeRecord.status record = pending.
Proof. eexists. eexists. split; reflexivity. Qed.

End DataStoreFacts.

(** ** More on lists as tables *)
Section TableMore.

Context {A : Type}.

Lemma existsb_false_In (p : A -> bool) (l : list A) (x : A) :
  existsb p l = false -> In x l -> p x = false.
Proof.
  intros H Hin. destruct (p x) eqn:E; [|reflexivity].
  assert (existsb p l = true) by (apply existsb_exists; eauto). congruence.
Qed.

Lemma map_if_none (p : A -> bool) (f : A -> A) (l : list A) :
  find p l = None -> map (fun a => if p a then f a else a) l = l.
Proof.
  induction l as [|x l IH]; cbn; [reflexivity|].
  destruct (p x); [discriminate|]. intros H. now rewrite IH.
Qed.



Lemma NoDup_map_filter {K : Type} (key : A -> K) (p : A -> bool) (l : list A) :
  NoDup (map key l) -> NoDup (map key (filter p l)).
Proof.
  induction l as [|x l IH]; cbn; [constructor|].
  intros Hnd. inversion Hnd as [|? ? Hnot Hrest]; subst.
  destruct (p x); cbn; [|auto].
  constructor; [|auto]. intros Hin. apply Hnot.
  apply in_map_iff in Hin as (y & Hy & Hin). apply filter_In in Hin as [Hin _].
  apply in_map_iff. eauto.
Qed.

End TableMore.
(** ** More on the attendance route *)
Section AttendanceMore.

Import Route Route.Attendance Keys.

Ltac run :=
  unfold try_catch, bind, ret, reply, throw, reply_record, select_schedule,
    select_attendance, select_attendance_by_id, update_attendance, insert_attendance,
    decimal; cbn [fst snd].

(** What one attendance request writes, statement by statement. *)
Lemma attendance_POST_writes now currentUser body db :
  let db' := fst (POST now currentUser body db) in
  attendance_records db' = attendance_records db \/
  (exists id f, attendance_write f /\
     (String.eqb (Body.action body) "check-in" = false ->
      exists t p l q, f = set_check_out t p l q) /\
     attendance_records db' =
     map (fun a => if String.eqb (AttendanceRow.id a) id then f a else a)
         (attendance_records db)) \/
  (exists row,
     existsb (fun a => String.eqb (AttendanceRow.id a) (AttendanceRow.id row)
                       || attendance_of (AttendanceRow.user_id row)
                                        (AttendanceRow.date row) a)
             (attendance_records db) = false /\
     String.eqb (Body.action body) "check-in" = true /\
     (AttendanceRow.status row = present \/ AttendanceRow.status row = late) /\
     attendance_records db' = (attendance_records db ++ [row])%list).
Proof.
  cbv zeta. unfold POST. run.
  destruct currentUser as [user|]; [|cbn; auto].
  destruct (find _ (work_schedules db)) as [schedule|]; [|cbn; auto].
  destruct (String.eqb (Body.action body) "check-in") eqn:Hact.
  - unfold check_in. run.
    destruct (find _ (attendance_records db)) as [e|].
    + destruct (JS.truthy_opt _); [cbn; auto|].
      match goal with
      | |- context [find ?p ?l] => destruct (find p l)
      end; cbn [fst with_attendance attendance_records];
        (right; left; eexists; eexists; (split; [|split; [|reflexivity]]);
         [apply write_check_in; unfold statusOf; destruct (isLate _ _); auto
         | discriminate]).
    + cbn [JS.truthy_opt].
      destruct (existsb _ (attendance_records db)) eqn:Hex; [cbn; auto|].
      match goal with
      | |- context [find ?p ?l] => destruct (find p l)
      end; cbn [fst with_attendance attendance_records];
        (right; right; eexists;
         (split; [|split; [|split; [|reflexivity]]]);
         [exact Hex | reflexivity
         | cbn; unfold statusOf; destruct (isLate _ _); auto]).
  - destruct (String.eqb (Body.action body) "check-out"); [|cbn; auto].
    unfold check_out. run.
    destruct (find _ (attendance_records db)) as [e|]; [|cbn; auto].
    destruct (AttendanceRow.check_in_time e) as [t|]; [|cbn; auto].
    destruct (negb (JS.truthy t)); [cbn; auto|].
    destruct (JS.truthy_opt _); [cbn; auto|].
    destruct (JS.lt _ _); [cbn; auto|].
    destruct (JS.max0 _) as [|q] eqn:Hq; run; [cbn; auto|].
    apply max0_nonneg in Hq.
    match goal with
    | |- context [find ?p ?l] => destruct (find p l)
    end; cbn [fst with_attendance attendance_records];
      (right; left; eexists; eexists; (split; [|split; [|reflexivity]]);
       [apply write_check_out; exact Hq
       | intros _; eexists; eexists; eexists; eexists; reflexivity]).
Qed.

(** What a successful check-out found and wrote. *)
Lemma check_out_success now user body db db' code rec msg :
  Body.action body = "check-out" ->
  POST now (Some user) body db = (db', Success code rec msg) ->
  exists schedule e check_in w e',
    find (fun s => Z.eqb (WorkScheduleRow.day_of_week s) (dayOfWeek now))
         (work_schedules db) = Some schedule /\
    find (attendance_of (User.id user) (today now)) (attendance_records db) = Some e /\
    AttendanceRow.check_in_time e = Some check_in /\
    JS.truthy check_in = true /\
    JS.truthy_opt (AttendanceRow.check_out_time e) = false /\
    workHoursBetween check_in (timeString now) = JS.Fin w /\
    WorkScheduleRow.min_work_hours schedule <= w /\
    db' = with_attendance db
            (map (fun a => if String.eqb (AttendanceRow.id a) (AttendanceRow.id e)
                           then set_check_out (timeString now) (Body.photo body)
                                  (Body.location body) (if JS.Qltb w 0 then 0 else w) a
                           else a)
                 (attendance_records db)) /\
    In e' (attendance_records db) /\
    AttendanceRow.id e' = AttendanceRow.id e /\
    rec = mapRowToAttendanceRecord
            (set_check_out (timeString now) (Body.photo body) (Body.location body)
               (if JS.Qltb w 0 then 0 else w) e').
Proof.
  intros Hact. unfold POST. run.
  destruct (find _ (work_schedules db)) as [schedule|] eqn:Hs; [|discriminate].
  rewrite Hact.
  change (String.eqb "check-out" "check-in") with false.
  change (String.eqb "check-out" "check-out") with true.
  unfold check_out. run.
  destruct (find _ (attendance_records db)) as [e|] eqn:He; [|discriminate].
  destruct (AttendanceRow.check_in_time e) as [t|] eqn:Hci; [|discriminate].
  destruct (JS.truthy t) eqn:Ht; cbn [negb]; [|discriminate].
  destruct (JS.truthy_opt (AttendanceRow.check_out_time e)) eqn:Hco; [discriminate|].
  destruct (workHoursBetween t (timeString now)) as [|w] eqn:Hw; cbn [JS.lt JS.max0].
  - run. discriminate.
  - destruct (JS.Qltb w (WorkScheduleRow.min_work_hours schedule)) eqn:Hlt; [discriminate|].
    run. cbn [attendance_records with_attendance].
    pose proof He as Hin. apply find_some in Hin as [Hin _].
    destruct (check_out_row_found (AttendanceRow.id e) (timeString now) (Body.photo body)
                (Body.location body) (if JS.Qltb w 0 then 0 else w) _ e Hin eq_refl)
      as (e' & Hf & Hin' & Hid').
    rewrite Hf. intros H. injection H as <- _ <- _.
    exists schedule, e, t, w, e'.
    repeat (split; [first [reflexivity | assumption]|]).
    split; [now apply Qltb_ge|]. split; [reflexivity|]. split; [exact Hin'|].
    split; [exact Hid' | reflexivity].
Qed.



End AttendanceMore.
(** ** More invariants of the tables *)
Section MoreInvariants.

Import Route Keys.

Lemma step_attendance_writes db db' :
  step db db' ->
  attendance_records db' = attendance_records db \/
  (exists id f, attendance_write f /\
     attendance_records db' =
     map (fun a => if String.eqb (AttendanceRow.id a) id then f a else a)
         (attendance_records db)) \/
  (exists row,
     existsb (fun a => String.eqb (AttendanceRow.id a) (AttendanceRow.id row)
                       || attendance_of (AttendanceRow.user_id row)
                                        (AttendanceRow.date row) a)
             (attendance_records db) = false /\
     (AttendanceRow.status row = present \/ AttendanceRow.status row = late) /\
     attendance_records db' = (attendance_records db ++ [row])%list).
Proof.
  intros [now u body d | now u reason d | now u body d].
  - destruct (attendance_POST_writes now u body d)
      as [H | [(id & f & Hf & _ & H) | (row & Hex & _ & Hst & H)]].
    + left. exact H.
    + right. left. exists id, f. auto.
    + right. right. exists row. auto.
  - left. apply overtime_POST_effect.
  - left. apply overtime_PUT_effect.
Qed.

Lemma attendance_write_id f a :
  attendance_write f -> AttendanceRow.id (f a) = AttendanceRow.id a.
Proof. intros []; reflexivity. Qed.

Lemma attendance_write_key u d f a :
  attendance_write f -> attendance_of u d (f a) = attendance_of u d a.
Proof. intros []; reflexivity. Qed.

Lemma step_unique_attendance_ids db db' :
  step db db' -> unique_attendance_ids db -> unique_attendance_ids db'.
Proof.
  intros Hstep Hu. unfold unique_attendance_ids in *.
  destruct (step_attendance_writes _ _ Hstep)
    as [-> | [(id & f & Hf & ->) | (row & Hex & _ & ->)]].
  - exact Hu.
  - rewrite map_map. erewrite map_ext; [exact Hu|]. intros a. cbn beta.
    destruct (String.eqb _ _); [|reflexivity]. now apply attendance_write_id.
  - rewrite map_app. apply NoDup_app; [exact Hu | repeat constructor; intros [] |].
    intros k Hk [<-|[]]. apply in_map_iff in Hk as (a & Hid & Hin).
    apply (existsb_false_In _ _ a) in Hex; [|exact Hin]. cbn beta in Hex.
    rewrite Hid, String.eqb_refl in Hex. discriminate.
Qed.

(** What a start request writes: nothing, or one row under a fresh id. *)
Lemma overtime_POST_fresh now currentUser reason db :
  let db' := fst (Overtime.POST now currentUser reason db) in
  overtime_records db' = overtime_records db \/
  (exists row,
     existsb (fun o => String.eqb (OvertimeRow.id o) (OvertimeRow.id row))
             (overtime_records db) = false /\
     overtime_records db' = (overtime_records db ++ [row])%list).
Proof.
  cbv zeta. unfold Overtime.POST, try_catch, bind, reply, select_attendance,
    select_schedule, select_open_overtime, insert_overtime, select_overtime_by_id,
    Overtime.reply_record, ret, throw.
  destruct currentUser as [user|]; [|cbn; auto].
  destruct (negb (JS.truthy reason)); [cbn; auto|].
  destruct (find _ (attendance_records db)) as [a|]; [|cbn; auto].
  destruct (negb (JS.truthy_opt (AttendanceRow.check_in_time a))); [cbn; auto|].
  destruct (negb (JS.truthy_opt (AttendanceRow.check_out_time a))); [cbn; auto|].
  destruct (JS.Qltb _ _); [cbn; auto|].
  destruct (find _ (overtime_records db)) as [o|]; [cbn; auto|].
  destruct (existsb _ (overtime_records db)) eqn:Hex; [cbn; auto|].
  match goal with
  | |- context [find ?p (overtime_records ?d)] => destruct (find p (overtime_records d))
  end; cbn [fst with_overtime overtime_records];
    (right; eexists; (split; [|reflexivity]); exact Hex).
Qed.

Lemma step_unique_overtime_ids db db' :
  step db db' -> unique_overtime_ids db -> unique_overtime_ids db'.
Proof.
  intros Hstep Hu. unfold unique_overtime_ids in *.
  destruct Hstep as [now u body d | now u reason d | now u body d].
  - destruct (attendance_POST_effect now u body d) as (_ & -> & _). exact Hu.
  - destruct (overtime_POST_fresh now u reason d) as [-> | (row & Hex & ->)]; [exact Hu|].
    rewrite map_app. apply NoDup_app; [exact Hu | repeat constructor; intros [] |].
    intros k Hk [<-|[]]. apply in_map_iff in Hk as (o & Hid & Hin).
    apply (existsb_false_In _ _ o) in Hex; [|exact Hin]. cbn beta in Hex.
    rewrite Hid, String.eqb_refl in Hex. discriminate.
  - destruct (overtime_PUT_effect now u body d)
      as (_ & _ & [-> | (id & f & -> & Hf)]); [exact Hu|].
    rewrite map_map. erewrite map_ext; [exact Hu|]. intros o. cbn beta.
    destruct (String.eqb (OvertimeRow.id o) id); [|reflexivity].
    destruct Hf as [(t & q & ->) | (st & user & _ & _ & _ & _ & _ & ->)]; reflexivity.
Qed.

(** X1 -- The ids of the attendance rows, and those of the overtime rows, stay
    pairwise distinct under every request: a request never writes an id twice
    and no UPDATE changes an id. *)
Theorem X1_primary_keys_kept db0 db :
  unique_attendance_ids db0 -> unique_overtime_ids db0 ->
  reachable db0 db ->
  unique_attendance_ids db /\ unique_overtime_ids db.
Proof.
  intros Ha Ho. induction 1 as [|db db' _ [IHa IHo] Hstep]; [auto|].
  split.
  - exact (step_unique_attendance_ids _ _ Hstep IHa).
  - exact (step_unique_overtime_ids _ _ Hstep IHo).
Qed.

(** The scenario: the tables after check-in, check-out and the overtime start. *)
Lemma X1_primary_keys_kept_witness :
  unique_attendance_ids Scenario.db_overtime /\ unique_overtime_ids Scenario.db_overtime.
Proof.
  apply (X1_primary_keys_kept Scenario.db0).
  - constructor.
  - constructor.
  - apply reach_step with (db := Scenario.db_out); [|apply step_overtime_start].
    apply reach_step with (db := Scenario.db_in); [|apply step_attendance].
    apply reach_step with (db := Scenario.db0); [apply reach_init | apply step_attendance].
Defined.

Lemma step_checked_out u d db db' :
  step db db' -> checked_out u d db -> checked_out u d db'.
Proof.
  intros Hstep (row & Hfind & Hin & Hout). unfold checked_out.
  destruct (step_attendance_writes _ _ Hstep)
    as [-> | [(id & f & Hf & ->) | (new & _ & _ & ->)]].
  - exists row. auto.
  - rewrite find_map_stable, Hfind.
    2:{ intros a. destruct (String.eqb _ id); [|reflexivity].
        now apply attendance_write_key. }
    cbn [option_map]. eexists. split; [reflexivity|].
    destruct (String.eqb _ id); [|auto].
    destruct Hf as [now p l s _ | now p l q _]; cbn.
    + split; [apply timeOfDay_truthy | exact Hout].
    + split; [exact Hin | apply timeOfDay_truthy].
  - exists row. split; [|auto]. now apply find_app_first.
Qed.

Lemma reachable_checked_out u d db0 db :
  checked_out u d db0 -> reachable db0 db -> checked_out u d db.
Proof.
  intros H0. induction 1 as [|db db' _ IH Hstep]; [exact H0|].
  exact (step_checked_out _ _ _ _ Hstep IH).
Qed.

(** X2 -- Checked out is final for the day: once a check-out has succeeded,
    every later check-out of that employee on that date (same weekday),
    whatever requests came in between, is answered AlreadyCheckedOut and
    writes nothing. *)
Theorem X2_second_check_out_refused
    now1 now2 user body1 body2 db db1 db2 code rec msg :
  Attendance.Body.action body1 = "check-out" ->
  Attendance.Body.action body2 = "check-out" ->
  Attendance.POST now1 (Some user) body1 db = (db1, Success code rec msg) ->
  reachable db1 db2 ->
  today now2 = today now1 ->
  dayOfWeek now2 = dayOfWeek now1 ->
  Attendance.POST now2 (Some user) body2 db2 = (db2, Failed 400 AlreadyCheckedOut).
Proof.
  intros Ha1 Ha2 Hpost Hreach Hday Hdow.
  destruct (check_out_success _ _ _ _ _ _ _ _ Ha1 Hpost)
    as (schedule & e & t & w & e' & Hs & He & Hci & Ht & Hco & Hw & Hmin & -> & _).
  assert (Hout : checked_out (User.id user) (today now1)
                   (with_attendance db
                      (map (fun a => if String.eqb (AttendanceRow.id a) (AttendanceRow.id e)
                                     then set_check_out (timeString now1)
                                            (Attendance.Body.photo body1)
                                            (Attendance.Body.location body1)
                                            (if JS.Qltb w 0 then 0 else w) a
                                     else a)
                           (attendance_records db)))).
  { unfold checked_out. cbn [attendance_records with_attendance].
    rewrite find_map_stable, He.
    2:{ intros a. destruct (String.eqb _ _); reflexivity. }
    cbn [option_map]. rewrite String.eqb_refl. eexists. split; [reflexivity|].
    cbn. rewrite Hci. split; [exact Ht | apply timeOfDay_truthy]. }
  apply (reachable_checked_out _ _ _ _ Hout) in Hreach as Hout2.
  destruct Hout2 as (row & Hfind & Hin & Hco2).
  pose proof (reachable_schedules _ _ Hreach) as Hsched. cbn in Hsched.
  unfold Attendance.POST, try_catch, bind, select_schedule.
  rewrite Hsched, Hdow, Hs, Ha2.
  change (String.eqb "check-out" "check-in") with false.
  change (String.eqb "check-out" "check-out") with true. cbv iota.
  unfold Attendance.check_out, bind, select_attendance, reply.
  rewrite Hday, Hfind.
  destruct (AttendanceRow.check_in_time row) as [t2|]; [|discriminate].
  cbn in Hin. rewrite Hin, Hco2. reflexivity.
Qed.

(** The scenario: a second check-out at 17:00, after the overtime was started. *)
Lemma X2_second_check_out_refused_witness :
  Attendance.POST (Scenario.at_ 17 0) (Some Scenario.budi) Scenario.checkOutBody
                  Scenario.db_overtime
  = (Scenario.db_overtime, Failed 400 AlreadyCheckedOut).
Proof.
  refine (X2_second_check_out_refused (Scenario.at_ 16 0) (Scenario.at_ 17 0) Scenario.budi
            Scenario.checkOutBody Scenario.checkOutBody Scenario.db_in Scenario.db_out
            Scenario.db_overtime 200%nat _ _ eq_refl eq_refl eq_refl _ eq_refl eq_refl).
  apply reach_step with (db := Scenario.db_out); [apply reach_init | apply step_overtime_start].
Defined.

(** X3 -- The status of an attendance row is written by check-in only, and
    only as [present] or [late]: a check-out, and every overtime request,
    leaves the status of every row as it is; no request writes [absent] or
    [holiday]; and a row, once written, is never removed. *)
Theorem X3_status_written_by_check_in_only :
  (forall db db' i a,
      step db db' ->
      nth_error (attendance_records db) i = Some a ->
      exists a',
        nth_error (attendance_records db') i = Some a' /\
        AttendanceRow.id a' = AttendanceRow.id a /\
        (AttendanceRow.status a' = AttendanceRow.status a \/
         AttendanceRow.status a' = present \/ AttendanceRow.status a' = late)) /\
  (forall now currentUser body db i a,
      String.eqb (Attendance.Body.action body) "check-in" = false ->
      nth_error (attendance_records db) i = Some a ->
      exists a',
        nth_error (attendance_records (fst (Attendance.POST now currentUser body db))) i
        = Some a' /\
        AttendanceRow.status a' = AttendanceRow.status a) /\
  (forall now currentUser body db i,
      (length (attendance_records db) <= i)%nat ->
      forall a',
        nth_error (attendance_records (fst (Attendance.POST now currentUser body db))) i
        = Some a' ->
        AttendanceRow.status a' = present \/ AttendanceRow.status a' = late).
Proof.
  split; [|split].
  - intros db db' i a Hstep Hi.
    destruct (step_attendance_writes _ _ Hstep)
      as [-> | [(id & f & Hf & ->) | (row & _ & _ & ->)]].
    + exists a. auto.
    + rewrite nth_error_map, Hi. cbn [option_map]. eexists. split; [reflexivity|].
      destruct (String.eqb _ id); [|auto].
      destruct Hf as [now p l s Hs | now p l q _]; cbn; auto.
    + exists a. split; [|auto]. rewrite nth_error_app1; [exact Hi|].
      apply nth_error_Some. congruence.
  - intros now u body db i a Hact Hi.
    destruct (attendance_POST_writes now u body db)
      as [H | [(id & f & _ & Hf & H) | (row & _ & Hin & _)]]; cbv zeta in *.
    + rewrite H. exists a. auto.
    + rewrite H, nth_error_map, Hi. cbn [option_map]. eexists. split; [reflexivity|].
      destruct (String.eqb _ id); [|reflexivity].
      destruct (Hf Hact) as (t & p & l & q & ->). reflexivity.
    + congruence.
  - intros now u body db i Hlen a' Hi.
    destruct (attendance_POST_writes now u body db)
      as [H | [(id & f & _ & _ & H) | (row & _ & _ & Hst & H)]]; cbv zeta in *.
    + rewrite H in Hi. apply nth_error_None in Hlen. congruence.
    + rewrite H in Hi. assert (Hnone : nth_error
          (map (fun a => if String.eqb (AttendanceRow.id a) id then f a else a)
               (attendance_records db)) i = None)
        by (apply nth_error_None; rewrite length_map; exact Hlen).
      congruence.
    + rewrite H in Hi. rewrite nth_error_app2 in Hi by exact Hlen.
      destruct (i - length (attendance_records db))%nat as [|k]; cbn in Hi.
      * injection Hi as <-. exact Hst.
      * destruct k; discriminate.
Qed.

(** The scenario: the check-out at 16:00 keeps the status [present]. *)
Lemma X3_status_written_witness :
  exists a',
    nth_error (attendance_records Scenario.db_out) 0 = Some a' /\
    AttendanceRow.status a' = present.
Proof.
  destruct (proj1 (proj2 X3_status_written_by_check_in_only) (Scenario.at_ 16 0)
              (Some Scenario.budi) Scenario.checkOutBody Scenario.db_in 0%nat
              (AttendanceRow.mk "att-480" "emp-001" "2026-01-05"
                 (Some "08:00") (Some "in.jpg") (Some (-6 # 1)) (Some (106 # 1))
                 (Some "Jakarta") None None None None None present 0)
              eq_refl eq_refl) as (a' & H1 & H2).
  exists a'. split; [exact H1 | exact H2].
Defined.

End MoreInvariants.

(** ** TIME texts read back *)
Section TimeMore.

Lemma split_time_text (h m : nat) (t : string) :
  (h < 100)%nat -> (m < 100)%nat -> time_text h m t ->
  exists rest, JS.split ":" t = JS.pad2 h :: JS.pad2 m :: rest.
Proof.
  intros Hh Hm [|s Hs].
  - exists []. now apply split_timeOfDay.
  - exists [JS.pad2 s]. unfold timeOfDay.
    rewrite append_assoc'. change ((":" ++ JS.pad2 m) ++ ":" ++ JS.pad2 s)
      with (":" ++ (JS.pad2 m ++ ":" ++ JS.pad2 s)).
    rewrite split_colon by now apply pad2_no_colon.
    rewrite split_colon by now apply pad2_no_colon.
    rewrite split_no_colon by (apply pad2_no_colon; lia). reflexivity.
Qed.

Lemma minutesOfDay_time_text (h m : nat) (t : string) :
  (h < 100)%nat -> (m < 100)%nat -> time_text h m t ->
  minutesOfDay t = JS.Fin (inject_Z (Z.of_nat h) * inject_Z 60 + inject_Z (Z.of_nat m)).
Proof.
  intros Hh Hm Ht. destruct (split_time_text h m t Hh Hm Ht) as [rest Hsplit].
  unfold minutesOfDay. rewrite Hsplit. cbn [map].
  rewrite !pad2_Number by assumption. reflexivity.
Qed.

Lemma minutesOfDayInt_time_text (h m : nat) (t : string) :
  (h < 100)%nat -> (m < 100)%nat -> time_text h m t ->
  minutesOfDayInt t = JS.Fin (inject_Z (Z.of_nat h) * inject_Z 60 + inject_Z (Z.of_nat m)).
Proof.
  intros Hh Hm Ht. destruct (split_time_text h m t Hh Hm Ht) as [rest Hsplit].
  unfold minutesOfDayInt. rewrite Hsplit. cbn [nth_error].
  rewrite !pad2_parseInt by assumption. reflexivity.
Qed.

(** X5 -- A time of day written as [HH:MM] by a handler, or rendered as
    [HH:MM:SS] by the TIME column, reads back as its minute of the day with
    both parsers of the routes ([split(':').map(Number)] and [parseInt] on
    the parts): the seconds are dropped.  So the hours between two such
    texts are the difference of their minutes over 60. *)
Theorem X5_time_text_reads_back (h1 m1 h2 m2 : nat) (t1 t2 : string) :
  (h1 < 24)%nat -> (m1 < 60)%nat -> (h2 < 24)%nat -> (m2 < 60)%nat ->
  time_text h1 m1 t1 -> time_text h2 m2 t2 ->
  let minute (h m : nat) := inject_Z (Z.of_nat h * 60 + Z.of_nat m) in
  (exists q, minutesOfDay t1 = JS.Fin q /\ minutesOfDayInt t1 = JS.Fin q /\
             q == minute h1 m1) /\
  (exists w, workHoursBetween t1 t2 = JS.Fin w /\
             w == (minute h2 m2 - minute h1 m1) / 60).
Proof.
  intros H1 H2 H3 H4 Ht1 Ht2 minute. subst minute. cbv beta.
  split.
  - eexists. split; [apply (minutesOfDay_time_text h1 m1); [lia | lia | exact Ht1]|].
    split; [apply (minutesOfDayInt_time_text h1 m1); [lia | lia | exact Ht1]|].
    rewrite inject_Z_plus, inject_Z_mult. reflexivity.
  - unfold workHoursBetween.
    rewrite (minutesOfDay_time_text h1 m1 t1), (minutesOfDay_time_text h2 m2 t2)
      by (lia || assumption).
    eexists. split; [reflexivity|].
    rewrite !inject_Z_plus, !inject_Z_mult. reflexivity.
Qed.

(** From 08:15:30, as the column renders it, to 16:00: seven hours and three
    quarters. *)
Lemma X5_time_text_reads_back_witness :
  exists w, workHoursBetween "08:15:30" "16:00" = JS.Fin w /\ w == 31 # 4.
Proof.
  destruct (X5_time_text_reads_back 8 15 16 0 "08:15:30" "16:00"
              ltac:(lia) ltac:(lia) ltac:(lia) ltac:(lia)
              (time_hms 8 15 30 ltac:(lia)) (time_hm 16 0))
    as [_ (w & Hw & Hq)].
  exists w. split; [exact Hw|]. rewrite Hq. reflexivity.
Defined.

End TimeMore.

(** ** A day of work: check-in, then check-out *)
Section DayOfWork.

Import Route Route.Attendance Keys.




End DayOfWork.

(** ** More on the overtime route *)
Section OvertimeMore.

Import Route Route.Overtime Keys.

Ltac run :=
  unfold try_catch, bind, ret, reply, throw, reply_record, select_schedule,
    select_attendance, select_open_overtime, select_overtime_by_id, update_overtime,
    insert_overtime, decimal; cbn [fst snd].

Lemma with_overtime_same db : with_overtime db (overtime_records db) = db.
Proof. destruct db; reflexivity. Qed.

(** The row an UPDATE by id wrote is the first one read back by that id. *)
Lemma find_updated_id (id : string) (f : OvertimeRow.t -> OvertimeRow.t)
    (rows : list OvertimeRow.t) :
  (forall o, OvertimeRow.id (f o) = OvertimeRow.id o) ->
  find (fun o => String.eqb (OvertimeRow.id o) id)
       (map (fun o => if String.eqb (OvertimeRow.id o) id then f o else o) rows)
  = option_map f (find (fun o => String.eqb (OvertimeRow.id o) id) rows).
Proof.
  intros Hid. induction rows as [|o rows IH]; cbn; [reflexivity|].
  destruct (String.eqb (OvertimeRow.id o) id) eqn:E.
  - rewrite Hid, E. reflexivity.
  - rewrite E. exact IH.
Qed.

Lemma overtime_POST_failure now currentUser reason db db' code error :
  POST now currentUser reason db = (db', Failed code error) -> db' = db.
Proof.
  unfold POST. run.
  destruct currentUser as [user|]; [|intros H; injection H; auto].
  destruct (negb (JS.truthy reason)); [intros H; injection H; auto|].
  destruct (find _ (attendance_records db)) as [a|]; [|intros H; injection H; auto].
  destruct (negb (JS.truthy_opt (AttendanceRow.check_in_time a)));
    [intros H; injection H; auto|].
  destruct (negb (JS.truthy_opt (AttendanceRow.check_out_time a)));
    [intros H; injection H; auto|].
  destruct (JS.Qltb _ _); [intros H; injection H; auto|].
  destruct (find _ (overtime_records db)) as [o|]; [intros H; injection H; auto|].
  destruct (existsb _ (overtime_records db)) eqn:Hex; [intros H; injection H; auto|].
  cbn [overtime_records with_overtime].
  rewrite find_app_last.
  - cbn [OvertimeRow.id]. rewrite String.eqb_refl. discriminate.
  - destruct (find _ (overtime_records db)) as [o|] eqn:Hf; [|reflexivity].
    apply find_some in Hf as [Hin Hid].
    rewrite (existsb_false_In _ _ _ Hex Hin) in Hid. discriminate.
Qed.

Lemma overtime_PUT_failure now currentUser body db db' code error :
  PUT now currentUser body db = (db', Failed code error) -> db' = db.
Proof.
  unfold PUT. run.
  destruct currentUser as [user|]; [|intros H; injection H; auto].
  destruct (String.eqb (Body.action body) "end").
  - unfold end_overtime. run.
    destruct (find _ (overtime_records db)) as [o|] eqn:Ho; [|intros H; injection H; auto].
    destruct (JS.max0 _) as [|q]; run; [intros H; injection H; auto|].
    cbn [overtime_records with_overtime].
    rewrite find_updated_id by reflexivity.
    apply find_some in Ho as [Hin _].
    destruct (find (fun x => String.eqb (OvertimeRow.id x) (OvertimeRow.id o))
                   (overtime_records db)) as [o'|] eqn:Hf; [discriminate|].
    exfalso. apply (find_none _ _ Hf) in Hin. cbv beta in Hin.
    rewrite String.eqb_refl in Hin. discriminate.
  - destruct (_ || _); [|intros H; injection H; auto].
    unfold decide. run.
    destruct (negb (isAdmin (Some user))); [intros H; injection H; auto|].
    destruct (negb (JS.truthy _)); [intros H; injection H; auto|].
    cbn [overtime_records with_overtime].
    rewrite find_updated_id by reflexivity.
    destruct (find _ (overtime_records db)) as [o|] eqn:Hf; [discriminate|].
    cbn [option_map]. rewrite (map_if_none _ _ _ Hf), with_overtime_same.
    intros H; injection H; auto.
Qed.

(** X7 -- A request that is answered with an error has written nothing: for
    the attendance handler and for both overtime handlers, whatever the
    error (401, 400, 403, 404 or 500), the tables after the request are the
    tables before it. *)
Theorem X7_error_replies_write_nothing :
  (forall now currentUser body db db' code error,
      Attendance.POST now currentUser body db = (db', Failed code error) -> db' = db) /\
  (forall now currentUser reason db db' code error,
      POST now currentUser reason db = (db', Failed code error) -> db' = db) /\
  (forall now currentUser body db db' code error,
      PUT now currentUser body db = (db', Failed code error) -> db' = db).
Proof.
  split; [|split].
  - intros. eapply attendance_failure_writes_nothing; eauto.
  - intros. eapply overtime_POST_failure; eauto.
  - intros. eapply overtime_PUT_failure; eauto.
Qed.

(** The scenario: a decision on an id that no row has answers 404 and leaves
    the tables alone. *)
Lemma X7_error_replies_witness :
  fst (PUT (Scenario.at_ 17 0) (Some Scenario.hr) (Body.mk "approve" "ot-0")
         Scenario.db_overtime)
  = Scenario.db_overtime.
Proof.
  apply (proj2 (proj2 X7_error_replies_write_nothing)
           (Scenario.at_ 17 0) (Some Scenario.hr) (Body.mk "approve" "ot-0")
           Scenario.db_overtime _ 404%nat RecordNotFound).
  reflexivity.
Defined.







(** X10 -- Who may decide: an "approve" or "reject" of a user who is not an
    administrator is answered 403, whatever id it names; an administrator's
    decision without an id is answered 400, and one on an id that no record
    has is answered 404.  None of them writes.  An administrator's decision
    on an existing id is answered 200 with the decided record. *)
Theorem X10_decision_gate now user body db :
  Body.action body = "approve" \/ Body.action body = "reject" ->
  let found := find (fun o => String.eqb (OvertimeRow.id o) (Body.overtimeId body))
                    (overtime_records db) in
  (User.role user = employee ->
   PUT now (Some user) body db = (db, Failed 403 Forbidden)) /\
  (User.role user = admin -> Body.overtimeId body = "" ->
   PUT now (Some user) body db = (db, Failed 400 OvertimeIdRequired)) /\
  (User.role user = admin -> Body.overtimeId body <> "" -> found = None ->
   PUT now (Some user) body db = (db, Failed 404 RecordNotFound)) /\
  (User.role user = admin -> Body.overtimeId body <> "" ->
   forall row, found = Some row ->
   exists db' rec msg,
     PUT now (Some user) body db = (db', Success 200 rec msg) /\
     OvertimeRecord.id rec = Body.overtimeId body /\
     OvertimeRecord.approvedBy rec = Some (User.id user) /\
     OvertimeRecord.status rec =
       (if String.eqb (Body.action body) "approve" then approved else rejected)).
Proof.
  intros Hact found.
  assert (Hput : PUT now (Some user) body db
                 = try_catch (decide now user body) db).
  { unfold PUT. destruct Hact as [-> | ->]; reflexivity. }
  rewrite Hput. unfold decide, isAdmin. run.
  split; [|split; [|split]].
  - intros ->. reflexivity.
  - intros -> ->. reflexivity.
  - intros -> Hid Hnone.
    assert (JS.truthy (Body.overtimeId body) = true) as ->
        by (destruct (Body.overtimeId body); [congruence | reflexivity]).
    cbn [negb overtime_records with_overtime].
    rewrite find_updated_id by reflexivity. fold found. rewrite Hnone.
    cbn [option_map]. subst found.
    rewrite (map_if_none _ _ _ Hnone), with_overtime_same. reflexivity.
  - intros -> Hid row Hrow.
    assert (JS.truthy (Body.overtimeId body) = true) as ->
        by (destruct (Body.overtimeId body); [congruence | reflexivity]).
    cbn [negb overtime_records with_overtime].
    rewrite find_updated_id by reflexivity. fold found. rewrite Hrow.
    cbn [option_map].
    eexists. eexists. eexists. split; [reflexivity|].
    cbn [mapRowToOvertimeRecord set_decision OvertimeRecord.id OvertimeRecord.approvedBy
         OvertimeRecord.status OvertimeRow.id OvertimeRow.approved_by OvertimeRow.status].
    split; [|split; reflexivity].
    apply find_some in Hrow as [_ Hid']. now apply String.eqb_eq in Hid'.
Qed.

(** The scenario: the employee tries to approve the own overtime. *)
Lemma X10_decision_gate_witness :
  PUT (Scenario.at_ 17 0) (Some Scenario.budi) Scenario.approveBody Scenario.db_overtime
  = (Scenario.db_overtime, Failed 403 Forbidden).
Proof.
  apply (proj1 (X10_decision_gate (Scenario.at_ 17 0) Scenario.budi Scenario.approveBody
                  Scenario.db_overtime (or_introl eq_refl))).
  reflexivity.
Defined.

End OvertimeMore.

(** ** More on data-store.ts: the record that is written *)
Section DataStoreMore.

Import DataStore.


Lemma nth_error_assign {A : Type} (i j : nat) (x : A) (l : list A) :
  (i < length l)%nat ->
  nth_error (assign i x l) j = if Nat.eqb j i then Some x else nth_error l j.
Proof.
  revert i j. induction l as [|y l IH]; intros i j Hi; cbn in Hi; [lia|].
  destruct i as [|i], j as [|j]; cbn; try reflexivity.
  apply IH. lia.
Qed.







End DataStoreMore.

(** ** The middleware *)
Section MiddlewareFacts.

Import Middleware.

(** X12 -- The middleware never redirects twice: the page a request is
    redirected to ([/login] without a session, [/dashboard] with one) is
    served when requested with the same cookie.  A page under a protected
    prefix is served only with a session cookie, a page under [/login] only
    without one, and the redirect to the login page carries the path that was
    asked for. *)
Theorem X12_middleware_redirects_once pathname sessionCookie :
  (forall target searchParams,
      middleware pathname sessionCookie = redirect target searchParams ->
      (exists headers, middleware target sessionCookie = next headers) /\
      (target = "/login" /\ searchParams = [("redirect", pathname)] /\
       JS.truthy_opt sessionCookie = false
       \/ target = "/dashboard" /\ searchParams = [] /\
          JS.truthy_opt sessionCookie = true)) /\
  (forall headers,
      middleware pathname sessionCookie = next headers ->
      (existsb (startsWith pathname) protectedRoutes = true ->
       JS.truthy_opt sessionCookie = true) /\
      (existsb (startsWith pathname) authRoutes = true ->
       JS.truthy_opt sessionCookie = false)).
Proof.
  assert (Hlogin : forall c, JS.truthy_opt c = false ->
            exists headers, middleware "/login" c = next headers).
  { intros c Hc. unfold middleware. rewrite Hc. eexists. reflexivity. }
  assert (Hdash : forall c, JS.truthy_opt c = true ->
            exists headers, middleware "/dashboard" c = next headers).
  { intros c Hc. unfold middleware. rewrite Hc. eexists. reflexivity. }
  split.
  - intros target searchParams H. unfold middleware in H.
    destruct (existsb (startsWith pathname) protectedRoutes),
             (existsb (startsWith pathname) authRoutes),
             (JS.truthy_opt sessionCookie) eqn:Hc; cbn [andb negb] in H;
      try discriminate H; injection H as <- <-; split; auto; tauto.
  - intros headers H. unfold middleware in H.
    destruct (existsb (startsWith pathname) protectedRoutes),
             (existsb (startsWith pathname) authRoutes),
             (JS.truthy_opt sessionCookie); cbn [andb negb] in H;
      try discriminate H; split; intros; congruence.
Qed.

(** A request for [/admin/users] without a cookie is sent to the login page,
    which is then served. *)
Lemma X12_middleware_witness :
  exists headers, middleware "/login" None = next headers.
Proof.
  apply (proj1 (proj1 (X12_middleware_redirects_once "/admin/users" None)
                  "/login" [("redirect", "/admin/users")] eq_refl)).
Defined.

End MiddlewareFacts.

(** ** The users of data-store.ts *)
Section UsersFacts.

Import Users.

Lemma existsb_find_none {A : Type} (p : A -> bool) (l : list A) :
  existsb p l = false <-> find p l = None.
Proof.
  induction l as [|x l IH]; cbn; [tauto|].
  destruct (p x); cbn; [split; discriminate | exact IH].
Qed.

Lemma find_app_old {A : Type} (p : A -> bool) (l : list A) (x y : A) :
  find p l = Some y -> find p (l ++ [x]) = Some y.
Proof.
  induction l as [|z l IH]; cbn; [discriminate|].
  destruct (p z); [auto | exact IH].
Qed.

(** X13 -- [createUser] then [login]: a user is created only under a
    username that no user has; it is appended with the generated id, and
    [login] with its username and password then returns that very user and
    keeps it as the current user, while any other password is refused and
    leaves the current user as it was.  Every username that resolved before
    still resolves to the same user. *)
Theorem X13_createUser_then_login now createdAt user users users' newUser :
  createUser now createdAt user users = (users', Value newUser) ->
  getUserByUsername (NewUser.username user) users = None /\
  users' = (users ++ [newUser])%list /\
  User.id newUser = "emp-" ++ JS.show now /\
  User.username newUser = NewUser.username user /\
  (forall currentUser,
      login (NewUser.username user) (NewUser.password user) users' currentUser
      = (Some newUser, Value newUser)) /\
  (forall password currentUser,
      password <> NewUser.password user ->
      login (NewUser.username user) password users' currentUser
      = (currentUser, Failed WrongPassword)) /\
  (forall username u,
      getUserByUsername username users = Some u ->
      getUserByUsername username users' = Some u).
Proof.
  unfold createUser.
  destruct (existsb _ users) eqn:Hex; [discriminate|].
  intros H. injection H as <- <-.
  apply existsb_find_none in Hex.
  assert (Hfound : forall u, User.username u = NewUser.username user ->
            getUserByUsername (NewUser.username user) (users ++ [u]) = Some u).
  { intros u Hu. unfold getUserByUsername. rewrite find_app_last by exact Hex.
    rewrite Hu. now rewrite String.eqb_refl. }
  split; [exact Hex|]. split; [reflexivity|]. split; [reflexivity|].
  split; [reflexivity|]. split; [|split].
  - intros currentUser. unfold login. rewrite Hfound by reflexivity.
    cbn [User.password]. now rewrite String.eqb_refl.
  - intros password currentUser Hne. unfold login. rewrite Hfound by reflexivity.
    cbn [User.password].
    assert (String.eqb (NewUser.password user) password = false) as ->
        by (apply String.eqb_neq; congruence).
    reflexivity.
  - intros username u Hu. unfold getUserByUsername in *. now apply find_app_old.
Qed.

(** A first user on an empty array. *)
Lemma X13_createUser_then_login_witness :
  exists newUser,
    login "rina" "rina123"
      (fst (createUser 1767571200000
              "2026-01-05T00:00:00.000Z"
              (NewUser.mk "rina" "rina123" "Rina" employee "Finance" "Staff"
                 "rina@lestaribumi.co.id" "081234567894") [])) None
    = (Some newUser, Value newUser).
Proof.
  eexists.
  apply (proj1 (proj2 (proj2 (proj2 (proj2
           (X13_createUser_then_login 1767571200000 "2026-01-05T00:00:00.000Z"
              (NewUser.mk "rina" "rina123" "Rina" employee "Finance" "Staff"
                 "rina@lestaribumi.co.id" "081234567894") [] _ _ eq_refl)))))).
Defined.

Lemma filter_length_all {A : Type} (p : A -> bool) (l : list A) :
  length (filter p l) = length l -> filter p l = l.
Proof.
  induction l as [|x l IH]; cbn; [reflexivity|].
  destruct (p x); cbn.
  - intros H. f_equal. apply IH. lia.
  - intros H. pose proof (filter_length_le p l). lia.
Qed.

Lemma find_filter_other {A : Type} (p q : A -> bool) (l : list A) :
  (forall x, p x = true -> q x = true) ->
  find p (filter q l) = find p l.
Proof.
  intros Hpq. induction l as [|x l IH]; cbn; [reflexivity|].
  destruct (q x) eqn:Hq; cbn.
  - destruct (p x); [reflexivity | exact IH].
  - destruct (p x) eqn:Hp; [|exact IH].
    apply Hpq in Hp. congruence.
Qed.

(** X14 -- [deleteUser]: afterwards no user has the id; the answer is [true]
    exactly when some user had it, and on [false] the array is the one it
    was; the users under every other id are kept, and the deletion keeps ids
    and usernames unique. *)
Theorem X14_deleteUser_removes id users :
  let users' := fst (deleteUser id users) in
  let deleted := snd (deleteUser id users) in
  getUserById id users' = None /\
  (deleted = true <-> exists u, getUserById id users = Some u) /\
  (deleted = false -> users' = users) /\
  (forall other, other <> id -> getUserById other users' = getUserById other users) /\
  (well_keyed users -> well_keyed users').
Proof.
  cbv zeta. unfold deleteUser.
  set (keep := fun u => negb (String.eqb (User.id u) id)).
  assert (Hgone : getUserById id (filter keep users) = None).
  { unfold getUserById. destruct (find _ (filter keep users)) as [u|] eqn:Hf; [|reflexivity].
    apply find_some in Hf as [Hin Hid]. apply filter_In in Hin as [_ Hk].
    unfold keep in Hk. rewrite Hid in Hk. discriminate. }
  assert (Hother : forall other, other <> id ->
            getUserById other (filter keep users) = getUserById other users).
  { intros other Hne. unfold getUserById. apply find_filter_other.
    intros x Hx. unfold keep. apply String.eqb_eq in Hx.
    apply negb_true_iff, String.eqb_neq. congruence. }
  assert (Hkeys : well_keyed users -> well_keyed (filter keep users)).
  { intros [Hid Hname]. split; now apply NoDup_map_filter. }
  destruct (Nat.eqb (length (filter keep users)) (length users)) eqn:Hlen;
    cbn [fst snd].
  - apply Nat.eqb_eq, filter_length_all in Hlen.
    rewrite Hlen in Hgone, Hother.
    split; [exact Hgone|]. split; [|split; [reflexivity|split; [|auto]]].
    + split; [discriminate|]. intros [u Hu]. congruence.
    + intros other _. reflexivity.
  - split; [exact Hgone|]. split; [|split; [discriminate|split; assumption]].
    split; [intros _|reflexivity].
    destruct (getUserById id users) as [u|] eqn:Hu; [eauto|].
    exfalso. apply Nat.eqb_neq in Hlen. apply Hlen. f_equal.
    clear - Hu. unfold getUserById in Hu.
    induction users as [|x l IH]; cbn; [reflexivity|].
    cbn in Hu. unfold keep at 1.
    destruct (String.eqb (User.id x) id); [discriminate|]. cbn. f_equal. auto.
Qed.

(** Two users: deleting the first keeps the second. *)
Lemma X14_deleteUser_witness :
  well_keyed
    (fst (deleteUser "emp-001"
            [User.mk "emp-001" "budi" "budi123" "Budi Santoso" employee "Operations"
               "Field Supervisor" "budi@lestaribumi.co.id" "081234567891" "2026-01-05";
             User.mk "emp-002" "siti" "siti123" "Siti Rahayu" employee "Operations"
               "Field Staff" "siti@lestaribumi.co.id" "081234567892" "2026-01-05"])).
Proof.
  apply (proj2 (proj2 (proj2 (proj2 (X14_deleteUser_removes "emp-001" _))))).
  split; repeat constructor; cbn; intuition discriminate.
Defined.

Lemma NoDup_snoc {A : Type} (l : list A) (x : A) :
  NoDup l -> ~ In x l -> NoDup (l ++ [x]).
Proof.
  induction l as [|y l IH]; cbn; intros Hnd Hnot.
  - constructor; [intros [] | constructor].
  - inversion Hnd as [|? ? Hy Hrest]; subst. constructor.
    + intros Hin. apply in_app_or in Hin as [Hin | [-> | []]]; [auto|].
      apply Hnot. now left.
    + apply IH; [exact Hrest | tauto].
Qed.

Lemma map_assign {A B : Type} (f : A -> B) (i : nat) (x : A) (l : list A) :
  map f (DataStore.assign i x l) = DataStore.assign i (f x) (map f l).
Proof.
  revert i. induction l as [|y l IH]; intros [|i]; cbn; try reflexivity.
  now rewrite IH.
Qed.

Lemma assign_same {A : Type} (i : nat) (x : A) (l : list A) :
  nth_error l i = Some x -> DataStore.assign i x l = l.
Proof.
  revert i. induction l as [|y l IH]; intros [|i]; cbn; try discriminate.
  - now intros [= ->].
  - intros H. now rewrite IH.
Qed.

Lemma In_assign {A : Type} (i : nat) (x z : A) (l : list A) :
  In z (DataStore.assign i x l) -> z = x \/ In z l.
Proof.
  revert i. induction l as [|y l IH]; intros [|i]; cbn; try tauto.
  - intros [-> | H]; auto.
  - intros [-> | H]; auto. apply IH in H. tauto.
Qed.

(** Putting [x] at index [i] keeps a list free of duplicates when [x] occurs
    at no other index. *)
Lemma NoDup_assign {A : Type} (i : nat) (x : A) (l : list A) :
  NoDup l ->
  (forall j, j <> i -> nth_error l j <> Some x) ->
  NoDup (DataStore.assign i x l).
Proof.
  revert i. induction l as [|y l IH]; intros i Hnd Hother; [destruct i; constructor|].
  inversion Hnd as [|? ? Hy Hrest]; subst.
  destruct i as [|i]; cbn.
  - constructor; [|exact Hrest]. intros Hin.
    apply In_nth_error in Hin as [j Hj]. apply (Hother (S j)); [lia | exact Hj].
  - constructor.
    + intros Hin. apply In_assign in Hin as [-> | Hin]; [|auto].
      apply (Hother 0%nat); [lia | reflexivity].
    + apply IH; [exact Hrest|]. intros j Hj. apply (Hother (S j)). lia.
Qed.

Lemma findIndex_nth {A : Type} (p : A -> bool) (l : list A) (i : nat) :
  DataStore.findIndex p l = Some i -> exists x, nth_error l i = Some x /\ p x = true.
Proof.
  revert i. induction l as [|y l IH]; intros i; cbn; [discriminate|].
  destruct (p y) eqn:Hy.
  - intros [= <-]. exists y. split; [reflexivity | exact Hy].
  - destruct (DataStore.findIndex p l) as [j|]; cbn; [|discriminate].
    intros [= <-]. apply (IH j eq_refl).
Qed.

(** X15 -- Ids and usernames stay keys of the users array: [createUser]
    keeps them unique whenever the generated id is not taken (the username
    is checked by the function itself), and [updateUser] keeps them unique
    whenever the update carries no id and no empty username, the one
    username that its check lets through unseen. *)
Theorem X15_users_stay_keyed users :
  well_keyed users ->
  (forall now createdAt user,
      ~ In ("emp-" ++ JS.show now) (map User.id users) ->
      well_keyed (fst (createUser now createdAt user users))) /\
  (forall id updates,
      Updates.id updates = None ->
      Updates.username updates <> Some "" ->
      well_keyed (fst (updateUser id updates users))).
Proof.
  intros [Hids Hnames]. split.
  - intros now createdAt user Hfresh. unfold createUser.
    destruct (existsb _ users) eqn:Hex; cbn [fst]; [split; assumption|].
    split; rewrite map_app; cbn [map]; apply NoDup_snoc; try assumption.
    cbn [User.username]. intros Hin. apply in_map_iff in Hin as (u & Hu & Hin).
    pose proof (existsb_false_In _ _ _ Hex Hin) as Hne. cbv beta in Hne.
    apply String.eqb_neq in Hne. contradiction.
  - intros id updates Hnoid Hname. unfold updateUser.
    destruct (DataStore.findIndex _ users) as [index|] eqn:Hi; cbn [fst];
      [|split; assumption].
    destruct (findIndex_nth _ _ _ Hi) as (user & Hn & Hid).
    apply String.eqb_eq in Hid.
    destruct (JS.truthy_opt (Updates.username updates) && existsb _ users) eqn:Hcheck;
      cbn [fst]; [split; assumption|].
    rewrite Hn. cbn [fst]. split; rewrite map_assign.
    + unfold spread. cbn [User.id]. rewrite Hnoid. cbn [or_else].
      rewrite assign_same; [exact Hids|]. now rewrite nth_error_map, Hn.
    + unfold spread. cbn [User.username].
      destruct (Updates.username updates) as [username|] eqn:Hu; cbn [or_else].
      2:{ rewrite assign_same; [exact Hnames|]. now rewrite nth_error_map, Hn. }
      assert (Htruthy : JS.truthy_opt (Some username) = true).
      { destruct username; [congruence | reflexivity]. }
      rewrite Htruthy in Hcheck. cbn [andb] in Hcheck.
      apply NoDup_assign; [exact Hnames|].
      intros j Hj Hnth. rewrite nth_error_map in Hnth.
      destruct (nth_error users j) as [other|] eqn:Hother; [|discriminate].
      injection Hnth as Hsame.
      pose proof (existsb_false_In _ _ _ Hcheck (nth_error_In _ _ Hother)) as Hfree.
      cbv beta in Hfree. rewrite Hsame, String.eqb_refl in Hfree. cbn [andb] in Hfree.
      apply negb_false_iff, String.eqb_eq in Hfree.
      apply Hj. apply (proj1 (NoDup_nth_error (map User.id users)) Hids).
      * rewrite length_map. apply nth_error_Some. congruence.
      * rewrite !nth_error_map, Hother, Hn. cbn. congruence.
Qed.

(** One user renamed to a free name. *)
Lemma X15_users_stay_keyed_witness :
  well_keyed
    (fst (updateUser "emp-001"
            (Updates.mk None (Some "budi.s") None None None None None None None None)
            [User.mk "emp-001" "budi" "budi123" "Budi Santoso" employee "Operations"
               "Field Supervisor" "budi@lestaribumi.co.id" "081234567891" "2026-01-05";
             User.mk "emp-002" "siti" "siti123" "Siti Rahayu" employee "Operations"
               "Field Staff" "siti@lestaribumi.co.id" "081234567892" "2026-01-05"])).
Proof.
  refine (proj2 (X15_users_stay_keyed _ _) "emp-001"
            (Updates.mk None (Some "budi.s") None None None None None None None None)
            eq_refl _).
  - split; repeat constructor; cbn; intuition discriminate.
  - discriminate.
Defined.

End UsersFacts.

(** ** The work schedules of data-store.ts *)
Section SchedulesFacts.

Import DataStore Schedules.

(** X16 -- [updateWorkSchedule] finds the schedule by its [dayOfWeek] field,
    while [checkIn], [checkOut] and [startOvertime] read [schedules[day]] by
    index.  On an array laid out by weekday and with an update that carries
    no [dayOfWeek], the two agree: the layout is kept, the schedule read for
    the updated day is the old one with the update spread over it, the
    schedules read for all other days are the ones they were, and a day
    without schedule is left without one. *)
Theorem X16_updateWorkSchedule_read_by_index day updates st :
  by_weekday (workSchedules st) ->
  Updates.dayOfWeek updates = None ->
  let st' := fst (updateWorkSchedule day updates st) in
  by_weekday (workSchedules st') /\
  snd (updateWorkSchedule day updates st) = workSchedules st' /\
  attendance st' = attendance st /\ overtime st' = overtime st /\
  (forall now,
      scheduleOf st' now =
      if Z.eqb (dayOfWeek now) day
      then option_map (fun s => spread s updates) (scheduleOf st now)
      else scheduleOf st now).
Proof.
  intros Hlay Hnoday. cbv zeta. unfold updateWorkSchedule.
  destruct (findIndex _ (workSchedules st)) as [index|] eqn:Hi.
  - destruct (findIndex_nth _ _ _ Hi) as (s0 & Hn & Hday).
    rewrite Hn. unfold set_workSchedules.
    cbn [fst snd workSchedules attendance overtime].
    apply Z.eqb_eq in Hday.
    pose proof (Hlay _ _ Hn) as Hidx.
    assert (Hlen : (index < length (workSchedules st))%nat)
      by (apply nth_error_Some; congruence).
    split; [|split; [reflexivity|split; [reflexivity|split; [reflexivity|]]]].
    + intros i s. rewrite nth_error_assign by exact Hlen.
      destruct (Nat.eqb i index) eqn:E.
      * apply Nat.eqb_eq in E. subst i. intros [= <-].
        unfold spread. cbn [WorkSchedule.dayOfWeek]. rewrite Hnoday. exact Hidx.
      * apply Hlay.
    + intros now. unfold scheduleOf. cbn [workSchedules].
      destruct (Z.ltb (dayOfWeek now) 0) eqn:Hneg.
      * apply Z.ltb_lt in Hneg.
        destruct (Z.eqb (dayOfWeek now) day); reflexivity.
      * apply Z.ltb_ge in Hneg. rewrite nth_error_assign by exact Hlen.
        destruct (Nat.eqb (Z.to_nat (dayOfWeek now)) index) eqn:E.
        -- apply Nat.eqb_eq in E.
           assert (Z.eqb (dayOfWeek now) day = true) as ->
               by (apply Z.eqb_eq; lia).
           rewrite E, Hn. reflexivity.
        -- apply Nat.eqb_neq in E.
           assert (Z.eqb (dayOfWeek now) day = false) as ->
               by (apply Z.eqb_neq; lia).
           reflexivity.
  - cbn [fst snd].
    split; [exact Hlay|]. split; [reflexivity|]. split; [reflexivity|].
    split; [reflexivity|].
    intros now. destruct (Z.eqb (dayOfWeek now) day) eqn:E; [|reflexivity].
    apply Z.eqb_eq in E. unfold scheduleOf.
    destruct (Z.ltb (dayOfWeek now) 0) eqn:Hneg; [reflexivity|].
    apply Z.ltb_ge in Hneg.
    destruct (nth_error (workSchedules st) (Z.to_nat (dayOfWeek now)))
      as [s|] eqn:Hs; [|reflexivity].
    exfalso. pose proof (Hlay _ _ Hs) as Hday.
    apply findIndex_find in Hi.
    pose proof (find_none _ _ Hi s (nth_error_In _ _ Hs)) as Hne.
    cbv beta in Hne. apply Z.eqb_neq in Hne. lia.
Qed.

(** The week of the storage scenario: Monday's minimum raised to 8 hours is
    what a Monday clock reads. *)
Lemma X16_updateWorkSchedule_witness :
  option_map WorkSchedule.minWorkHours
    (scheduleOf
       (fst (updateWorkSchedule 1 (Updates.mk None None None (Some 8))
               StoreScenario.storage0))
       (Scenario.at_ 8 0))
  = Some 8.
Proof.
  assert (Hlay : by_weekday (workSchedules StoreScenario.storage0)).
  { intros i s.
    do 7 (destruct i as [|i]; [intros [= <-]; reflexivity|]).
    cbn. destruct i; discriminate. }
  rewrite (proj2 (proj2 (proj2 (proj2
             (X16_updateWorkSchedule_read_by_index 1
                (Updates.mk None None None (Some 8)) StoreScenario.storage0
                Hlay eq_refl)))) (Scenario.at_ 8 0)).
  reflexivity.
Defined.

End SchedulesFacts.

(** ** The listings *)
Section ReadsFacts.

Import Route Reads.

Lemma In_insert {A : Type} (precedes : A -> A -> bool) (x y : A) (l : list A) :
  In y (insert precedes x l) <-> y = x \/ In y l.
Proof.
  induction l as [|z l IH]; cbn; [intuition congruence|].
  destruct (precedes z x); cbn; [rewrite IH|]; intuition congruence.
Qed.

Lemma In_order_by {A : Type} (precedes : A -> A -> bool) (y : A) (l : list A) :
  In y (order_by precedes l) <-> In y l.
Proof.
  induction l as [|x l IH]; cbn; [tauto|].
  rewrite In_insert, IH. intuition congruence.
Qed.

Lemma length_insert {A : Type} (precedes : A -> A -> bool) (x : A) (l : list A) :
  length (insert precedes x l) = S (length l).
Proof.
  induction l as [|z l IH]; cbn; [reflexivity|].
  destruct (precedes z x); cbn; [now rewrite IH | reflexivity].
Qed.

Lemma length_order_by {A : Type} (precedes : A -> A -> bool) (l : list A) :
  length (order_by precedes l) = length l.
Proof.
  induction l as [|x l IH]; cbn; [reflexivity|].
  now rewrite length_insert, IH.
Qed.

Lemma holds_app {A : Type} (c1 c2 : list (A -> bool)) (row : A) :
  holds (c1 ++ c2) row = holds c1 row && holds c2 row.
Proof. unfold holds. apply forallb_app. Qed.

(** The conditions of the attendance listing of a user who is no
    administrator start with the user's own id. *)
Lemma attendance_conditions_own user q sql :
  isAdmin (Some user) = false ->
  Attendance.conditions user q = Some sql ->
  exists rest,
    sql = (fun a => String.eqb (AttendanceRow.user_id a) (User.id user)) :: rest.
Proof.
  intros Hadm. unfold Attendance.conditions. rewrite Hadm. cbn [negb].
  destruct (Attendance.Query.date q) as [d|]; [destruct (JS.truthy d)|];
    (destruct (JS.truthy_opt _ && JS.truthy_opt _);
     [destruct (parseInt10 _); [discriminate|];
      destruct (parseInt10 _); [discriminate|] |]);
    intros [= <-]; eexists; reflexivity.
Qed.

(** X17 -- The attendance listing shows rows of the table only, each mapped
    to its record, and no more of them than the table has; to a user who is
    no administrator it
    shows records of that user alone, whatever [userId] the query names, and
    without date, month or year in the query it shows every record of that
    user.  An administrator who names no user and no date sees the whole
    table. *)
Theorem X17_attendance_listing_own_records user q db records :
  Attendance.GET (Some user) q db = Ok records ->
  (exists rows,
      records = map Route.Attendance.mapRowToAttendanceRecord rows /\
      length rows <= length (attendance_records db) /\
      forall row, In row rows -> In row (attendance_records db))%nat /\
  (isAdmin (Some user) = false ->
   forall r, In r records -> AttendanceRecord.userId r = User.id user) /\
  (Attendance.Query.date q = None -> Attendance.Query.month q = None ->
   forall row, In row (attendance_records db) ->
     (if isAdmin (Some user)
      then Attendance.Query.userId q = None
      else AttendanceRow.user_id row = User.id user) ->
     In (Route.Attendance.mapRowToAttendanceRecord row) records).
Proof.
  unfold Attendance.GET.
  destruct (Attendance.conditions user q) as [sql|] eqn:Hsql; [|discriminate].
  intros [= <-]. split; [|split].
  - eexists. split; [reflexivity|]. split.
    + rewrite length_order_by. apply filter_length_le.
    + intros row Hin. apply In_order_by, filter_In in Hin. tauto.
  - intros Hadm r Hin. apply in_map_iff in Hin as (row & <- & Hin).
    apply In_order_by, filter_In in Hin as [_ Hholds].
    destruct (attendance_conditions_own user q sql Hadm Hsql) as [rest ->].
    cbn in Hholds. apply andb_prop in Hholds as [Hown _].
    apply String.eqb_eq in Hown. exact Hown.
  - intros Hdate Hmonth row Hin Hrow. apply in_map, In_order_by, filter_In.
    split; [exact Hin|].
    unfold Attendance.conditions in Hsql. rewrite Hdate, Hmonth in Hsql.
    cbn [JS.truthy_opt andb] in Hsql.
    destruct (isAdmin (Some user)); cbn [negb] in Hsql.
    + rewrite Hrow in Hsql. injection Hsql as <-. reflexivity.
    + injection Hsql as <-. cbn. rewrite Hrow, String.eqb_refl. reflexivity.
Qed.

(** The scenario: the employee asks for the records of the administrator and
    gets the own record of the day. *)
Lemma X17_attendance_listing_witness :
  exists records,
    Attendance.GET (Some Scenario.budi)
      (Attendance.Query.mk (Some "admin-001") None None None) Scenario.db_out
    = Ok records /\
    forall r, In r records -> AttendanceRecord.userId r = "emp-001".
Proof.
  eexists. split; [reflexivity|].
  exact (proj1 (proj2 (X17_attendance_listing_own_records Scenario.budi
                         (Attendance.Query.mk (Some "admin-001") None None None)
                         Scenario.db_out _ eq_refl)) eq_refl).
Defined.

(** X18 -- The overtime listing: rows of the table only; to a user who is no
    administrator, records of that user alone, whatever [userId] the query
    names, and all of them when the query names no status; with a status in
    the query, records of that status alone. *)
Theorem X18_overtime_listing_own_records user q db records :
  Overtime.GET (Some user) q db = Ok records ->
  (exists rows,
      records = map Route.Overtime.mapRowToOvertimeRecord rows /\
      length rows <= length (overtime_records db) /\
      forall row, In row rows -> In row (overtime_records db))%nat /\
  (isAdmin (Some user) = false ->
   forall r, In r records -> OvertimeRecord.userId r = User.id user) /\
  (forall status, Overtime.Query.status q = Some status -> status <> "" ->
   forall r, In r records -> Overtime.status_text (OvertimeRecord.status r) = status) /\
  (Overtime.Query.status q = None ->
   forall row, In row (overtime_records db) ->
     (if isAdmin (Some user)
      then Overtime.Query.userId q = None
      else OvertimeRow.user_id row = User.id user) ->
     In (Route.Overtime.mapRowToOvertimeRecord row) records).
Proof.
  unfold Overtime.GET. intros [= <-]. split; [|split; [|split]].
  - eexists. split; [reflexivity|]. split.
    + rewrite length_order_by. apply filter_length_le.
    + intros row Hin. apply In_order_by, filter_In in Hin. tauto.
  - intros Hadm r Hin. apply in_map_iff in Hin as (row & <- & Hin).
    apply In_order_by, filter_In in Hin as [_ Hholds].
    unfold Overtime.conditions in Hholds. rewrite Hadm in Hholds. cbn [negb] in Hholds.
    destruct (Overtime.Query.status q) as [s|]; [destruct (JS.truthy s)|];
      cbn in Hholds; apply andb_prop in Hholds as [Hown _];
      apply String.eqb_eq in Hown; exact Hown.
  - intros status Hstatus Hne r Hin. apply in_map_iff in Hin as (row & <- & Hin).
    apply In_order_by, filter_In in Hin as [_ Hholds].
    unfold Overtime.conditions in Hholds. rewrite Hstatus in Hholds.
    assert (JS.truthy status = true) as Ht
        by (destruct status; [congruence | reflexivity]).
    rewrite Ht, holds_app in Hholds. apply andb_prop in Hholds as [_ Hholds].
    cbn in Hholds. rewrite andb_true_r in Hholds.
    apply String.eqb_eq in Hholds. exact Hholds.
  - intros Hstatus row Hin Hrow. apply in_map, In_order_by, filter_In.
    split; [exact Hin|].
    unfold Overtime.conditions. rewrite Hstatus.
    destruct (isAdmin (Some user)); cbn [negb].
    + rewrite Hrow. reflexivity.
    + cbn. rewrite Hrow, String.eqb_refl. reflexivity.
Qed.

(** The scenario: the employee asks for the overtime of the administrator. *)
Lemma X18_overtime_listing_witness :
  exists records,
    Overtime.GET (Some Scenario.budi) (Overtime.Query.mk (Some "admin-001") None)
      Scenario.db_overtime
    = Ok records /\
    forall r, In r records -> OvertimeRecord.userId r = "emp-001".
Proof.
  eexists. split; [reflexivity|].
  exact (proj1 (proj2 (X18_overtime_listing_own_records Scenario.budi
                         (Overtime.Query.mk (Some "admin-001") None)
                         Scenario.db_overtime _ eq_refl)) eq_refl).
Defined.

End ReadsFacts.

(** ** The statistics of the route and of data-store.ts *)
Section StatsAgreement.

Import Route Reads.















End StatsAgreement.
